(** * Google RTC audio processing component (SOF): embedding and properties

    Shallow embedding of
      - src/audio/google/google_rtc_audio_processing.c (the AEC component), and
      - sof/math/numbers.h ([ceil_divide]),
    followed by the properties of the component that the specification
    states about them.

    Conventions.  C integers are [Z]; where the C type wraps, the wrap is
    written out ([wrap_int], [size_mul]).  Arrays are [list]s read with
    stdpp's lookup and written with stdpp's insert, with the out-of-range
    case made explicit as a [Fault].  Calls into code that is not part of the
    component (the AEC library, the data-blob handler, the pin format
    helpers) are taken through the interfaces [AecLibrary], [BlobHandler]
    and [Platform]. *)

From Stdlib Require Import ZArith Lia Bool List.
From stdpp Require Import base list.
Import ListNotations.

Local Open Scope Z_scope.

(* ===================================================================== *)
(** ** sof/math/numbers.h *)
(* ===================================================================== *)

Module Numbers.

(** [int] is 32 bits wide ([sizeof(int) * 8 = 32]). *)
Definition INT_BITS : Z := 32.
Definition INT_MIN : Z := - 2 ^ 31.
Definition INT_MAX : Z := 2 ^ 31 - 1.

Definition in_int (x : Z) : Prop := INT_MIN <= x <= INT_MAX.

(** Two's complement wrap-around of a mathematical integer into [int]. *)
Definition wrap_int (x : Z) : Z :=
  (x + 2 ^ 31) mod 2 ^ 32 - 2 ^ 31.

(** [1 << ((sizeof(int) * 8) - 1)]: the sign-bit mask. *)
Definition SIGN_MASK : Z := wrap_int (Z.shiftl 1 (INT_BITS - 1)).

(** [ceil_divide], numbers.h:
<<
    c = a / b;
    if (!((a ^ b) & (1 << ((sizeof(int) * 8) - 1))) && c * b != a)
            c++;
    return c;
>>
    C's [/] truncates towards zero ([Z.quot]). *)
Definition ceil_divide (a b : Z) : Z :=
  let c := wrap_int (Z.quot a b) in
  if (Z.land (Z.lxor a b) SIGN_MASK =? 0) && negb (wrap_int (c * b) =? a)
  then wrap_int (c + 1)
  else c.

(** The mathematical ceiling of the rational quotient [a / b]
    ([Z.div] is the floor). *)
Definition ceiling (a b : Z) : Z := - ((- a) / b).

(** The operands have different sign bits. *)
Definition signs_differ (a b : Z) : Prop :=
  (a < 0 /\ 0 <= b) \/ (0 <= a /\ b < 0).

End Numbers.

(* ===================================================================== *)
(** ** src/audio/google/google_rtc_audio_processing.c *)
(* ===================================================================== *)

Module GoogleRtc.

(** *** Return codes, faults and the call trace *)

(** errno.h *)
Definition EINVAL : Z := 22.

Definition GOOGLE_RTC_NUM_INPUT_PINS : Z := 2.
Definition GOOGLE_RTC_NUM_OUTPUT_PINS : Z := 1.

(** The calls the component makes into its collaborators, in program
    order.  Pins are named by their index in [sources]; the only sink is
    [sinks[0]].  Lengths are byte counts. *)
Inductive event : Type :=
| EvGetDataBlob
| EvAecReconfigure (config : list Z) (size : Z)
| EvAecSetStreamFormats (capture_rate in_channels out_channels
                         render_rate render_channels : Z)
| EvAecParameters (headroom_given delay_given : bool)
| EvAecAnalyzeRender
| EvAecProcessCapture
| EvSourceGetData (source : Z) (req_size : Z)
| EvSourceReleaseData (source : Z) (free_size : Z)
| EvSinkGetBuffer (req_size : Z)
| EvSinkCommitBuffer (commit_size : Z).

(** Ways in which an execution leaves defined behaviour. *)
Inductive fault : Type :=
| AssertFailed        (* assert(!ret) after an acquire *)
| OutOfRegion         (* access outside [buf_start, buf_start + buf_size) *)
| OutOfScratch        (* access outside a per-channel scratch array *)
| BadPinIndex         (* sources[i] / sinks[i] with no such pin *)
| DivisionByZero.     (* x / 0 *)

Inductive result (A : Type) : Type :=
| Ok (a : A)
| Fault (f : fault).
Arguments Ok {A} a.
Arguments Fault {A} f.

#[global] Instance result_ret : MRet result := fun A a => Ok a.
#[global] Instance result_bind : MBind result := fun A B f m =>
  match m with
  | Ok a => f a
  | Fault e => Fault e
  end.

(** A computation of the component: the calls it made, and its result. *)
Definition M (A : Type) : Type := (list event * result A)%type.

#[global] Instance M_ret : MRet M := fun A a => ([], Ok a).
#[global] Instance M_bind : MBind M := fun A B f m =>
  match m with
  | (t, Ok a) => match f a with (t', r) => (t ++ t', r) end
  | (t, Fault e) => (t, Fault e)
  end.

Definition emit (e : event) : M unit := ([e], Ok tt).
Definition lift {A} (r : result A) : M A := ([], r).
(** [assert(c)] *)
Definition assert (c : bool) : M unit :=
  if c then mret tt else ([], Fault AssertFailed).

(** *** Integer conversions *)

(** [size_t] and [uint32_t] arithmetic is modulo [2^32]. *)
Definition to_u32 (x : Z) : Z := x mod 2 ^ 32.
Definition size_mul (a b : Z) : Z := to_u32 (a * b).
(** [a / b] in [size_t]. *)
Definition size_div (a b : Z) : result Z :=
  if to_u32 b =? 0 then Fault DivisionByZero else Ok (to_u32 a / to_u32 b).

(** Conversion of a 16-bit cell to [int16_t] and back to [uint16_t]. *)
Definition to_int16 (x : Z) : Z := (x + 2 ^ 15) mod 2 ^ 16 - 2 ^ 15.
Definition to_uint16 (x : Z) : Z := x mod 2 ^ 16.

(** *** Arrays *)

(** [a[i]] for a stream region of [uint16_t] cells. *)
Definition load (a : list Z) (i : Z) : result Z :=
  if i <? 0 then Fault OutOfRegion
  else match a !! Z.to_nat i with
       | Some x => Ok x
       | None => Fault OutOfRegion
       end.

(** [a[i] = x] for a stream region of [uint16_t] cells. *)
Definition store (a : list Z) (i : Z) (x : Z) : result (list Z) :=
  if (i <? 0) || (Z.of_nat (length a) <=? i) then Fault OutOfRegion
  else Ok (<[Z.to_nat i := x]> a).

(** [ptrs[channel][i] = x], where init set
    [ptrs[channel] = &buffer[channel * cd->num_frames]] (lines 398-399 and
    411-413) for the channels the scratch buffer was allocated for. *)
Definition scratch_store (buffer : list Z) (num_frames channel i : Z) (x : Z)
  : result (list Z) :=
  let k := channel * num_frames + i in
  if (k <? 0) || (Z.of_nat (length buffer) <=? k) then Fault OutOfScratch
  else Ok (<[Z.to_nat k := x]> buffer).

(** [ptrs[channel][i]] *)
Definition scratch_load (buffer : list Z) (num_frames channel i : Z)
  : result Z :=
  let k := channel * num_frames + i in
  if k <? 0 then Fault OutOfScratch
  else match buffer !! Z.to_nat k with
       | Some x => Ok x
       | None => Fault OutOfScratch
       end.

(** *** Pins *)

(** Modelled from the spec: the source API (sof/audio/source_api.h) is not
    part of the sources.  A source pin is given by what the API returns for
    it: id, "channel count, ... minimum-available ... queries", the frame
    size, the "alignment-constant hints", and the view that "data-acquire"
    hands out, "pointer + contiguous length".  The component reads the view
    through [uint16_t] pointers, so the circular buffer behind the pin is an
    array of 16-bit cells starting at [buffer_start], and [buffer_size] is
    twice its length.  [source_get_data s req_size] is [(ret, data_ptr)],
    with [data_ptr] the read position as a cell offset from
    [buffer_start]. *)
Record sof_source : Type := {
  source_get_id : Z;
  source_get_channels : Z;
  source_get_frame_bytes : Z;
  source_get_min_available : Z;
  source_alignment_constants : Z * Z;
  source_buffer : list Z;
  source_get_data : Z -> Z * Z
}.

(** Modelled from the spec: the sink API (sof/audio/sink_api.h) is not part
    of the sources.  A sink pin is given likewise by its "channel count,
    frame encoding, sample rate", its frame size and "minimum-free-space",
    and the view of "buffer-acquire"; [sink_get_buffer k req_size] is
    [(ret, data_ptr)] with [data_ptr] the write position. *)
Record sof_sink : Type := {
  sink_get_frm_fmt : Z;
  sink_get_rate : Z;
  sink_get_channels : Z;
  sink_get_frame_bytes : Z;
  sink_get_min_free_space : Z;
  sink_alignment_constants : Z * Z;
  sink_buffer : list Z;
  sink_get_buffer : Z -> Z * Z
}.

Definition sink_buffer_size (k : sof_sink) : Z :=
  2 * Z.of_nat (length (sink_buffer k)).

Definition source_set_alignment_constants (s : sof_source) (b f : Z)
  : sof_source :=
  {| source_get_id := source_get_id s;
     source_get_channels := source_get_channels s;
     source_get_frame_bytes := source_get_frame_bytes s;
     source_get_min_available := source_get_min_available s;
     source_alignment_constants := (b, f);
     source_buffer := source_buffer s;
     source_get_data := source_get_data s |}.

Definition sink_set_alignment_constants (k : sof_sink) (b f : Z) : sof_sink :=
  {| sink_get_frm_fmt := sink_get_frm_fmt k;
     sink_get_rate := sink_get_rate k;
     sink_get_channels := sink_get_channels k;
     sink_get_frame_bytes := sink_get_frame_bytes k;
     sink_get_min_free_space := sink_get_min_free_space k;
     sink_alignment_constants := (b, f);
     sink_buffer := sink_buffer k;
     sink_get_buffer := sink_get_buffer k |}.

(** The sink after the component wrote its region. *)
Definition sink_set_buffer (k : sof_sink) (cells : list Z) : sof_sink :=
  {| sink_get_frm_fmt := sink_get_frm_fmt k;
     sink_get_rate := sink_get_rate k;
     sink_get_channels := sink_get_channels k;
     sink_get_frame_bytes := sink_get_frame_bytes k;
     sink_get_min_free_space := sink_get_min_free_space k;
     sink_alignment_constants := sink_alignment_constants k;
     sink_buffer := cells;
     sink_get_buffer := sink_get_buffer k |}.

(** [pins[i]] *)
Definition pin {A} (pins : list A) (i : Z) : result A :=
  if i <? 0 then Fault BadPinIndex
  else match pins !! Z.to_nat i with
       | Some p => Ok p
       | None => Fault BadPinIndex
       end.

(** *** Collaborators *)

(** What [GoogleRtcAudioProcessingParseSofConfigMessage] leaves in the
    locals of [google_rtc_audio_processing_reconfigure] (lines 129-152).
    The locals are not initialised before the call, so the value of a field
    whose [_present] flag is false is whatever the parser left there. *)
Record sof_config_message (float : Type) : Type := {
  google_rtc_audio_processing_config : list Z;
  google_rtc_audio_processing_config_size : Z;
  num_capture_input_channels : Z;
  num_capture_output_channels : Z;
  aec_reference_delay : float;
  mic_gain : float;
  google_rtc_audio_processing_config_present : bool;
  num_capture_input_channels_present : bool;
  num_capture_output_channels_present : bool;
  aec_reference_delay_present : bool;
  mic_gain_present : bool
}.
Arguments google_rtc_audio_processing_config {float} _.
Arguments google_rtc_audio_processing_config_size {float} _.
Arguments num_capture_input_channels {float} _.
Arguments num_capture_output_channels {float} _.
Arguments aec_reference_delay {float} _.
Arguments mic_gain {float} _.
Arguments google_rtc_audio_processing_config_present {float} _.
Arguments num_capture_input_channels_present {float} _.
Arguments num_capture_output_channels_present {float} _.
Arguments aec_reference_delay_present {float} _.
Arguments mic_gain_present {float} _.

(** The echo-cancellation library (google_rtc_audio_processing.h and
    google_rtc_audio_processing_sof_message_reader.h): an opaque state and
    the entry points the component calls.  Every entry point returns its
    status together with the state it leaves; a NULL [float *] argument is
    [None]. *)
Class AecLibrary : Type := {
  GoogleRtcAudioProcessingState : Type;
  float : Type;
  GoogleRtcAudioProcessingParseSofConfigMessage :
    list Z -> Z -> sof_config_message float;
  GoogleRtcAudioProcessingReconfigure :
    GoogleRtcAudioProcessingState -> list Z -> Z ->
    Z * GoogleRtcAudioProcessingState;
  GoogleRtcAudioProcessingSetStreamFormats :
    GoogleRtcAudioProcessingState -> Z -> Z -> Z -> Z -> Z ->
    Z * GoogleRtcAudioProcessingState;
  GoogleRtcAudioProcessingParameters :
    GoogleRtcAudioProcessingState -> option float -> option float ->
    Z * GoogleRtcAudioProcessingState;
  GoogleRtcAudioProcessingAnalyzeRender_int16 :
    GoogleRtcAudioProcessingState -> list Z ->
    Z * GoogleRtcAudioProcessingState;
  (** in place ("use same in/out buffers"): returns the status, the state
      and the contents of the buffer afterwards, which has the size it had *)
  GoogleRtcAudioProcessingProcessCapture_int16 :
    GoogleRtcAudioProcessingState -> list Z ->
    Z * GoogleRtcAudioProcessingState * list Z;
  ProcessCapture_in_place : forall st buffer,
    length (snd (GoogleRtcAudioProcessingProcessCapture_int16 st buffer))
    = length buffer
}.

(** The data-blob handler (sof/audio/data_blob.h).  [comp_get_data_blob h]
    is [(config, size, h')]: the returned pointer ([None] for NULL), the
    value stored through [size], and the handler afterwards. *)
Class BlobHandler : Type := {
  comp_data_blob_handler : Type;
  comp_is_current_data_blob_valid : comp_data_blob_handler -> bool;
  comp_is_new_data_blob_available : comp_data_blob_handler -> bool;
  comp_get_data_blob :
    comp_data_blob_handler -> option (list Z) * Z * comp_data_blob_handler;
  comp_data_blob_set :
    comp_data_blob_handler -> Z -> Z -> list Z -> Z * comp_data_blob_handler
}.

(** Build configuration and the IPC4 helpers used by prepare. *)
Class Platform : Type := {
  CONFIG_COMP_GOOGLE_RTC_AUDIO_PROCESSING_SAMPLE_RATE_HZ : Z;
  CONFIG_FORMAT_S16LE : bool;
  SOF_IPC_FRAME_S16_LE : Z;
  SOF_IPC4_SWITCH_CONTROL_PARAM_ID : Z;
  SOF_IPC4_ENUM_CONTROL_PARAM_ID : Z;
  SOF_AEC_FEEDBACK_QUEUE_ID : Z;
  IPC4_SINK_QUEUE_ID : Z -> Z;
  ipc4_audio_format : Type;
  ipc4_update_source_format : sof_source -> ipc4_audio_format -> sof_source;
  ipc4_update_sink_format : sof_sink -> ipc4_audio_format -> sof_sink
}.

Section Component.

Context {aec : AecLibrary} {blob : BlobHandler} {plat : Platform}.

(** *** Component data *)

(** [struct google_rtc_audio_processing_comp_data], with the two audio
    formats the component reads from the module configuration:
    [cd->config.reference_fmt] and [mod->priv.cfg.base_cfg.audio_fmt].
    The scratch buffers hold [int16_t] samples, channel after channel. *)
Record google_rtc_audio_processing_comp_data : Type := {
  config_reference_fmt : ipc4_audio_format;
  base_cfg_audio_fmt : ipc4_audio_format;
  num_frames : Z;
  num_aec_reference_channels : Z;
  num_capture_channels : Z;
  state : GoogleRtcAudioProcessingState;
  aec_reference_buffer : list Z;
  process_buffer : list Z;
  tuning_handler : comp_data_blob_handler;
  reconfigure : bool;
  aec_reference_source : Z;
  raw_microphone_source : Z
}.

Abbreviation comp_data := google_rtc_audio_processing_comp_data.

Definition set_num_capture_channels (cd : comp_data) (n : Z) : comp_data :=
  {| config_reference_fmt := config_reference_fmt cd;
     base_cfg_audio_fmt := base_cfg_audio_fmt cd;
     num_frames := num_frames cd;
     num_aec_reference_channels := num_aec_reference_channels cd;
     num_capture_channels := n;
     state := state cd;
     aec_reference_buffer := aec_reference_buffer cd;
     process_buffer := process_buffer cd;
     tuning_handler := tuning_handler cd;
     reconfigure := reconfigure cd;
     aec_reference_source := aec_reference_source cd;
     raw_microphone_source := raw_microphone_source cd |}.

Definition set_state (cd : comp_data) (s : GoogleRtcAudioProcessingState)
  : comp_data :=
  {| config_reference_fmt := config_reference_fmt cd;
     base_cfg_audio_fmt := base_cfg_audio_fmt cd;
     num_frames := num_frames cd;
     num_aec_reference_channels := num_aec_reference_channels cd;
     num_capture_channels := num_capture_channels cd;
     state := s;
     aec_reference_buffer := aec_reference_buffer cd;
     process_buffer := process_buffer cd;
     tuning_handler := tuning_handler cd;
     reconfigure := reconfigure cd;
     aec_reference_source := aec_reference_source cd;
     raw_microphone_source := raw_microphone_source cd |}.

Definition set_aec_reference_buffer (cd : comp_data) (b : list Z)
  : comp_data :=
  {| config_reference_fmt := config_reference_fmt cd;
     base_cfg_audio_fmt := base_cfg_audio_fmt cd;
     num_frames := num_frames cd;
     num_aec_reference_channels := num_aec_reference_channels cd;
     num_capture_channels := num_capture_channels cd;
     state := state cd;
     aec_reference_buffer := b;
     process_buffer := process_buffer cd;
     tuning_handler := tuning_handler cd;
     reconfigure := reconfigure cd;
     aec_reference_source := aec_reference_source cd;
     raw_microphone_source := raw_microphone_source cd |}.

Definition set_process_buffer (cd : comp_data) (b : list Z) : comp_data :=
  {| config_reference_fmt := config_reference_fmt cd;
     base_cfg_audio_fmt := base_cfg_audio_fmt cd;
     num_frames := num_frames cd;
     num_aec_reference_channels := num_aec_reference_channels cd;
     num_capture_channels := num_capture_channels cd;
     state := state cd;
     aec_reference_buffer := aec_reference_buffer cd;
     process_buffer := b;
     tuning_handler := tuning_handler cd;
     reconfigure := reconfigure cd;
     aec_reference_source := aec_reference_source cd;
     raw_microphone_source := raw_microphone_source cd |}.

Definition set_tuning_handler (cd : comp_data) (h : comp_data_blob_handler)
  : comp_data :=
  {| config_reference_fmt := config_reference_fmt cd;
     base_cfg_audio_fmt := base_cfg_audio_fmt cd;
     num_frames := num_frames cd;
     num_aec_reference_channels := num_aec_reference_channels cd;
     num_capture_channels := num_capture_channels cd;
     state := state cd;
     aec_reference_buffer := aec_reference_buffer cd;
     process_buffer := process_buffer cd;
     tuning_handler := h;
     reconfigure := reconfigure cd;
     aec_reference_source := aec_reference_source cd;
     raw_microphone_source := raw_microphone_source cd |}.

Definition set_reconfigure (cd : comp_data) (b : bool) : comp_data :=
  {| config_reference_fmt := config_reference_fmt cd;
     base_cfg_audio_fmt := base_cfg_audio_fmt cd;
     num_frames := num_frames cd;
     num_aec_reference_channels := num_aec_reference_channels cd;
     num_capture_channels := num_capture_channels cd;
     state := state cd;
     aec_reference_buffer := aec_reference_buffer cd;
     process_buffer := process_buffer cd;
     tuning_handler := tuning_handler cd;
     reconfigure := b;
     aec_reference_source := aec_reference_source cd;
     raw_microphone_source := raw_microphone_source cd |}.

Definition set_aec_reference_source (cd : comp_data) (i : Z) : comp_data :=
  {| config_reference_fmt := config_reference_fmt cd;
     base_cfg_audio_fmt := base_cfg_audio_fmt cd;
     num_frames := num_frames cd;
     num_aec_reference_channels := num_aec_reference_channels cd;
     num_capture_channels := num_capture_channels cd;
     state := state cd;
     aec_reference_buffer := aec_reference_buffer cd;
     process_buffer := process_buffer cd;
     tuning_handler := tuning_handler cd;
     reconfigure := reconfigure cd;
     aec_reference_source := i;
     raw_microphone_source := raw_microphone_source cd |}.

Definition set_raw_microphone_source (cd : comp_data) (i : Z) : comp_data :=
  {| config_reference_fmt := config_reference_fmt cd;
     base_cfg_audio_fmt := base_cfg_audio_fmt cd;
     num_frames := num_frames cd;
     num_aec_reference_channels := num_aec_reference_channels cd;
     num_capture_channels := num_capture_channels cd;
     state := state cd;
     aec_reference_buffer := aec_reference_buffer cd;
     process_buffer := process_buffer cd;
     tuning_handler := tuning_handler cd;
     reconfigure := reconfigure cd;
     aec_reference_source := aec_reference_source cd;
     raw_microphone_source := i |}.

(** *** Runtime reconfiguration *)

(** Lines 154-167: the tuning payload is handed to the library as it is. *)
Definition reconfigure_tuning (msg : sof_config_message float)
    (cd : comp_data) : M (Z * comp_data) :=
  if google_rtc_audio_processing_config_present msg then
    emit (EvAecReconfigure (google_rtc_audio_processing_config msg)
                           (google_rtc_audio_processing_config_size msg)) ;;
    let '(ret, st) :=
      GoogleRtcAudioProcessingReconfigure (state cd)
        (google_rtc_audio_processing_config msg)
        (google_rtc_audio_processing_config_size msg) in
    mret (ret, set_state cd st)
  else mret (0, cd).

(** Lines 181-197: the call that follows the assignment of
    [cd->num_capture_channels]. *)
Definition apply_stream_formats (cd : comp_data) : M (Z * comp_data) :=
  emit (EvAecSetStreamFormats
          CONFIG_COMP_GOOGLE_RTC_AUDIO_PROCESSING_SAMPLE_RATE_HZ
          (num_capture_channels cd) (num_capture_channels cd)
          CONFIG_COMP_GOOGLE_RTC_AUDIO_PROCESSING_SAMPLE_RATE_HZ
          (num_aec_reference_channels cd)) ;;
  let '(ret, st) :=
    GoogleRtcAudioProcessingSetStreamFormats (state cd)
      CONFIG_COMP_GOOGLE_RTC_AUDIO_PROCESSING_SAMPLE_RATE_HZ
      (num_capture_channels cd) (num_capture_channels cd)
      CONFIG_COMP_GOOGLE_RTC_AUDIO_PROCESSING_SAMPLE_RATE_HZ
      (num_aec_reference_channels cd) in
  mret (ret, set_state cd st).

(** Lines 169-198.  Note line 177: the branch taken when only the input
    channel count is present assigns [num_capture_output_channels]. *)
Definition reconfigure_channels (msg : sof_config_message float)
    (cd : comp_data) : M (Z * comp_data) :=
  if num_capture_input_channels_present msg
     || num_capture_output_channels_present msg then
    if num_capture_input_channels_present msg
       && num_capture_output_channels_present msg then
      if negb (num_capture_input_channels msg
               =? num_capture_output_channels msg)
      then mret (- EINVAL, cd)
      else apply_stream_formats
             (set_num_capture_channels cd (num_capture_input_channels msg))
    else if num_capture_input_channels_present msg then
      apply_stream_formats
        (set_num_capture_channels cd (num_capture_output_channels msg))
    else
      apply_stream_formats
        (set_num_capture_channels cd (num_capture_output_channels msg))
  else mret (0, cd).

(** Lines 200-232: gain and delay go through one call; an absent one is
    passed as NULL. *)
Definition reconfigure_parameters (msg : sof_config_message float)
    (cd : comp_data) : M (Z * comp_data) :=
  if aec_reference_delay_present msg || mic_gain_present msg then
    let capture_headroom_linear_use :=
      if mic_gain_present msg then Some (mic_gain msg) else None in
    let echo_path_delay_ms_use :=
      if aec_reference_delay_present msg
      then Some (aec_reference_delay msg) else None in
    emit (EvAecParameters (mic_gain_present msg)
                          (aec_reference_delay_present msg)) ;;
    let '(ret, st) :=
      GoogleRtcAudioProcessingParameters (state cd)
        capture_headroom_linear_use echo_path_delay_ms_use in
    mret (ret, set_state cd st)
  else mret (0, cd).

(** [step ;; if (ret) return ret; rest] *)
Definition and_then (step : M (Z * comp_data))
    (rest : comp_data -> M (Z * comp_data)) : M (Z * comp_data) :=
  '(ret, cd) ← step;
  if negb (ret =? 0) then mret (ret, cd) else rest cd.

(** Lines 154-234: the decoded fields are applied in this order, and the
    first call that fails ends the function. *)
Definition reconfigure_apply (msg : sof_config_message float)
    (cd : comp_data) : M (Z * comp_data) :=
  and_then (reconfigure_tuning msg cd) (fun cd =>
  and_then (reconfigure_channels msg cd) (fun cd =>
  and_then (reconfigure_parameters msg cd) (fun cd =>
  mret (0, cd)))).

(** [google_rtc_audio_processing_reconfigure], lines 90-235. *)
Definition google_rtc_audio_processing_reconfigure (cd : comp_data)
  : M (Z * comp_data) :=
  if negb (comp_is_current_data_blob_valid (tuning_handler cd))
     && negb (comp_is_new_data_blob_available (tuning_handler cd))
  then mret (0, cd)
  else
    emit EvGetDataBlob ;;
    let '(config, size, h) := comp_get_data_blob (tuning_handler cd) in
    let cd := set_tuning_handler cd h in
    if size =? 0 then mret (0, cd)
    else
      match config with
      | None => mret (- EINVAL, cd)
      | Some config =>
          let cd := set_reconfigure cd false in
          reconfigure_apply
            (GoogleRtcAudioProcessingParseSofConfigMessage config size) cd
      end.

(** [google_rtc_audio_processing_set_config], lines 237-277. *)
Definition google_rtc_audio_processing_set_config (cd : comp_data)
    (param_id pos data_offset_size : Z) (fragment : list Z)
  : M (Z * comp_data) :=
  if (param_id =? SOF_IPC4_SWITCH_CONTROL_PARAM_ID)
     || (param_id =? SOF_IPC4_ENUM_CONTROL_PARAM_ID)
  then mret (- EINVAL, cd)
  else
    let '(ret, h) :=
      comp_data_blob_set (tuning_handler cd) pos data_offset_size fragment in
    let cd := set_tuning_handler cd h in
    if negb (ret =? 0) then mret (ret, cd)
    else if comp_is_new_data_blob_available (tuning_handler cd) then
      emit EvGetDataBlob ;;
      let '(_, _, h') := comp_get_data_blob (tuning_handler cd) in
      mret (0, set_reconfigure (set_tuning_handler cd h') true)
    else mret (0, cd).

(** [google_rtc_audio_processing_get_config], lines 279-285. *)
Definition google_rtc_audio_processing_get_config (cd : comp_data)
  : Z * comp_data := (- EINVAL, cd).

(** [google_rtc_audio_processing_reset], lines 594-599: the body is a
    debug message and [return 0]. *)
Definition google_rtc_audio_processing_reset (cd : comp_data)
  : Z * comp_data := (0, cd).

(** *** prepare *)

(** Lines 493-507: the loop that tells the reference source from the
    microphone source; [i] is the loop index and [n] the number of
    iterations left. *)
Fixpoint prepare_scan (n : nat) (i : Z) (cd : comp_data)
    (sources : list sof_source) (aec_channels microphone_stream_channels : Z)
  : result (comp_data * list sof_source * Z * Z) :=
  match n with
  | O => Ok (cd, sources, aec_channels, microphone_stream_channels)
  | S n' =>
      s ← pin sources i;
      let sources' :=
        <[Z.to_nat i := source_set_alignment_constants s 1 1]> sources in
      if IPC4_SINK_QUEUE_ID (source_get_id s) =? SOF_AEC_FEEDBACK_QUEUE_ID
      then prepare_scan n' (i + 1) (set_aec_reference_source cd i) sources'
             (source_get_channels s) microphone_stream_channels
      else prepare_scan n' (i + 1) (set_raw_microphone_source cd i) sources'
             aec_channels (source_get_channels s)
  end.

(** Lines 543-551: [switch (frame_fmt)]. *)
Definition frame_fmt_supported (frame_fmt : Z) : bool :=
  CONFIG_FORMAT_S16LE && (frame_fmt =? SOF_IPC_FRAME_S16_LE).

(** What prepare leaves behind: its return value, the component data and
    the pins. *)
Definition prepared : Type :=
  (Z * comp_data * list sof_source * list sof_sink)%type.

(** [google_rtc_audio_processing_prepare], lines 465-592.
    [num_of_sources] and [num_of_sinks] are the lengths of the pin arrays.
    [aec_channels] is unsigned, so the comparison of line 520 is unsigned. *)
Definition google_rtc_audio_processing_prepare (cd : comp_data)
    (sources : list sof_source) (sinks : list sof_sink) : M prepared :=
  let num_of_sources := Z.of_nat (length sources) in
  let num_of_sinks := Z.of_nat (length sinks) in
  if negb (num_of_sources =? GOOGLE_RTC_NUM_INPUT_PINS)
  then mret (- EINVAL, cd, sources, sinks)
  else if negb (num_of_sinks =? GOOGLE_RTC_NUM_OUTPUT_PINS)
  then mret (- EINVAL, cd, sources, sinks)
  else
    '(cd, sources, aec_channels, microphone_stream_channels) ←
      lift (prepare_scan (Z.to_nat num_of_sources) 0 cd sources 0 0);
    (* enforce format on pins *)
    ref ← lift (pin sources (aec_reference_source cd));
    let sources :=
      <[Z.to_nat (aec_reference_source cd) :=
          ipc4_update_source_format ref (config_reference_fmt cd)]> sources in
    mic ← lift (pin sources (raw_microphone_source cd));
    let sources :=
      <[Z.to_nat (raw_microphone_source cd) :=
          ipc4_update_source_format mic (base_cfg_audio_fmt cd)]> sources in
    sink0 ← lift (pin sinks 0);
    let sinks :=
      <[0%nat := ipc4_update_sink_format sink0 (base_cfg_audio_fmt cd)]>
        sinks in
    if to_u32 (num_aec_reference_channels cd) >? to_u32 aec_channels
    then mret (- EINVAL, cd, sources, sinks)
    else
      sink0 ← lift (pin sinks 0);
      let sink0 := sink_set_alignment_constants sink0 1 1 in
      let sinks := <[0%nat := sink0]> sinks in
      let frame_fmt := sink_get_frm_fmt sink0 in
      let rate := sink_get_rate sink0 in
      let output_stream_channels := sink_get_channels sink0 in
      if num_capture_channels cd >? microphone_stream_channels
      then mret (- EINVAL, cd, sources, sinks)
      else if num_capture_channels cd >? output_stream_channels
      then mret (- EINVAL, cd, sources, sinks)
      else if negb (frame_fmt_supported frame_fmt)
      then mret (- EINVAL, cd, sources, sinks)
      else if negb
                (rate =? CONFIG_COMP_GOOGLE_RTC_AUDIO_PROCESSING_SAMPLE_RATE_HZ)
      then mret (- EINVAL, cd, sources, sinks)
      else
        (* check IBS/OBS in streams *)
        mic ← lift (pin sources (raw_microphone_source cd));
        ref ← lift (pin sources (aec_reference_source cd));
        if negb (size_mul (num_frames cd) (source_get_frame_bytes mic)
                 =? source_get_min_available mic)
        then mret (- EINVAL, cd, sources, sinks)
        else if negb (size_mul (num_frames cd) (sink_get_frame_bytes sink0)
                      =? sink_get_min_free_space sink0)
        then mret (- EINVAL, cd, sources, sinks)
        else if negb (size_mul (num_frames cd) (source_get_frame_bytes ref)
                      =? source_get_min_available ref)
        then mret (- EINVAL, cd, sources, sinks)
        else
          '(ret, cd) ← google_rtc_audio_processing_reconfigure cd;
          mret (ret, cd, sources, sinks).

(** *** process *)

(** Lines 601-631 with [CONFIG_COMP_GOOGLE_RTC_USE_32_BIT_FLOAT_API] off:
    [BUF_TYPE] is [int16_t] and both conversions return their argument. *)
Definition convert_google_aec_format_to_int16 (data : Z) : Z := data.
Definition convert_int16_to_google_aec_format (data : Z) : Z := data.

(** The channel loop of lines 698-701 (and 728-730): [n] iterations are
    left, [cur] is the read position ([ref] or [src]) as a cell offset. *)
Fixpoint deinterlace_frame (n : nat) (channel : Z) (region : list Z)
    (cur : Z) (buffer : list Z) (num_frames i : Z) : result (list Z) :=
  match n with
  | O => Ok buffer
  | S n' =>
      x ← load region (cur + channel);
      buffer' ← scratch_store buffer num_frames channel i
                  (convert_int16_to_google_aec_format (to_int16 x));
      deinterlace_frame n' (channel + 1) region cur buffer' num_frames i
  end.

(** The frame loop of lines 697-705 (and 727-735), for [num_channels] the
    channel count of the loop.  After each frame the position advances by
    [num_channels] cells and is set back to the region start when it has
    reached [buf_end = buf_start + buf_size].  Returns the scratch buffer
    and the final position. *)
Fixpoint deinterlace (n : nat) (i : Z) (num_channels : Z) (region : list Z)
    (cur : Z) (buffer : list Z) (num_frames : Z) : result (list Z * Z) :=
  match n with
  | O => Ok (buffer, cur)
  | S n' =>
      buffer' ← deinterlace_frame (Z.to_nat num_channels) 0 region cur
                  buffer num_frames i;
      let cur' := cur + num_channels in
      let cur' :=
        if 2 * cur' >=? 2 * Z.of_nat (length region) then 0 else cur' in
      deinterlace n' (i + 1) num_channels region cur' buffer' num_frames
  end.

(** The channel loop of lines 757-759. *)
Fixpoint interlace_frame (n : nat) (channel : Z) (region : list Z)
    (cur : Z) (buffer : list Z) (num_frames i : Z) : result (list Z) :=
  match n with
  | O => Ok region
  | S n' =>
      x ← scratch_load buffer num_frames channel i;
      region' ← store region (cur + channel)
                  (to_uint16 (convert_google_aec_format_to_int16 x));
      interlace_frame n' (channel + 1) region' cur buffer num_frames i
  end.

(** The frame loop of lines 756-763.  Returns the written region and the
    final position. *)
Fixpoint interlace (n : nat) (i : Z) (num_channels : Z) (region : list Z)
    (cur : Z) (buffer : list Z) (num_frames : Z) : result (list Z * Z) :=
  match n with
  | O => Ok (region, cur)
  | S n' =>
      region' ← interlace_frame (Z.to_nat num_channels) 0 region cur
                  buffer num_frames i;
      let cur' := cur + num_channels in
      let cur' :=
        if 2 * cur' >=? 2 * Z.of_nat (length region) then 0 else cur' in
      interlace n' (i + 1) num_channels region' cur' buffer num_frames
  end.

(** Lines 669-673: the per-cycle apply step. *)
Definition reconfigure_if_pending (cd : comp_data) : M (Z * comp_data) :=
  if reconfigure cd then google_rtc_audio_processing_reconfigure cd
  else mret (0, cd).

(** Lines 675-770: one cycle once the apply step has succeeded.  The
    cycle-counter bookkeeping ([cd->perf], [diff1], [diff2]) is left out.
    [num_samples_remaining] (lines 693-694) is computed and not used; its
    division is by the frame size of the reference source. *)
Definition process_streams (cd : comp_data) (sources : list sof_source)
    (sinks : list sof_sink) : M (Z * comp_data * list sof_sink) :=
  src_stream ← lift (pin sources (raw_microphone_source cd));
  ref_stream ← lift (pin sources (aec_reference_source cd));
  dst_stream ← lift (pin sinks 0);
  (* reference stream *)
  let num_of_bytes_to_process :=
    size_mul (num_frames cd) (source_get_frame_bytes ref_stream) in
  emit (EvSourceGetData (aec_reference_source cd) num_of_bytes_to_process) ;;
  let '(ret, ref) := source_get_data ref_stream num_of_bytes_to_process in
  assert (ret =? 0) ;;
  num_samples_remaining ←
    lift (size_div
            (size_mul num_of_bytes_to_process (source_get_channels ref_stream))
            (source_get_frame_bytes ref_stream));
  '(buffer, _) ← lift (deinterlace (Z.to_nat (num_frames cd)) 0
                         (num_aec_reference_channels cd)
                         (source_buffer ref_stream) ref
                         (aec_reference_buffer cd) (num_frames cd));
  let cd := set_aec_reference_buffer cd buffer in
  emit EvAecAnalyzeRender ;;
  let '(_, st) :=
    GoogleRtcAudioProcessingAnalyzeRender_int16 (state cd)
      (aec_reference_buffer cd) in
  let cd := set_state cd st in
  emit (EvSourceReleaseData (aec_reference_source cd)
                            num_of_bytes_to_process) ;;
  (* main stream *)
  let num_of_bytes_to_process :=
    size_mul (num_frames cd) (source_get_frame_bytes src_stream) in
  emit (EvSourceGetData (raw_microphone_source cd) num_of_bytes_to_process) ;;
  let '(ret, src) := source_get_data src_stream num_of_bytes_to_process in
  assert (ret =? 0) ;;
  '(buffer, _) ← lift (deinterlace (Z.to_nat (num_frames cd)) 0
                         (num_capture_channels cd)
                         (source_buffer src_stream) src
                         (process_buffer cd) (num_frames cd));
  let cd := set_process_buffer cd buffer in
  emit (EvSourceReleaseData (raw_microphone_source cd)
                            num_of_bytes_to_process) ;;
  (* call the library, use same in/out buffers *)
  emit EvAecProcessCapture ;;
  let '(_, st, buffer) :=
    GoogleRtcAudioProcessingProcessCapture_int16 (state cd)
      (process_buffer cd) in
  let cd := set_process_buffer (set_state cd st) buffer in
  (* same number of bytes to process for output stream as for mic stream *)
  emit (EvSinkGetBuffer num_of_bytes_to_process) ;;
  let '(ret, dst) := sink_get_buffer dst_stream num_of_bytes_to_process in
  assert (ret =? 0) ;;
  '(region, _) ← lift (interlace (Z.to_nat (num_frames cd)) 0
                         (num_capture_channels cd)
                         (sink_buffer dst_stream) dst
                         (process_buffer cd) (num_frames cd));
  let sinks := <[0%nat := sink_set_buffer dst_stream region]> sinks in
  emit (EvSinkCommitBuffer num_of_bytes_to_process) ;;
  mret (0, cd, sinks).

(** [google_rtc_audio_processing_process], lines 634-771. *)
Definition google_rtc_audio_processing_process (cd : comp_data)
    (sources : list sof_source) (sinks : list sof_sink)
  : M (Z * comp_data * list sof_sink) :=
  '(ret, cd) ← reconfigure_if_pending cd;
  if negb (ret =? 0) then mret (ret, cd, sinks)
  else process_streams cd sources sinks.

End Component.

Abbreviation comp_data := google_rtc_audio_processing_comp_data.

End GoogleRtc.

(* ===================================================================== *)
(** ** Stand-ins for the collaborators *)
(* ===================================================================== *)

(** Small executable collaborators, used to run the component on concrete
    inputs. *)
Module Stub.

Import GoogleRtc.

(** Modelled from the spec: the echo-cancellation library is not part of
    the component ("an injected capability interface ... enabling
    independent testing with a stub").  The stub remembers what it was
    given: the tuning payload, the stream formats and the two parameters
    (an "unspecified" one leaves the stored value untouched), and the last
    reference block.  processCapture is the identity. *)
Record aec_state : Type := {
  tuning : list Z;
  capture_channels : Z;
  render_channels : Z;
  headroom : Z;
  delay : Z;
  rendered : list Z
}.

Definition aec_state0 : aec_state :=
  {| tuning := []; capture_channels := 2; render_channels := 2;
     headroom := 1; delay := 0; rendered := [] |}.

(** Modelled from the spec: the ConfigBlob layout is not part of the
    component ("versioned binary parameter set with independently-optional
    sub-fields: tuning payload, input channel count, output channel count,
    reference delay, microphone gain").  The stub layout is one flags byte
    (bit 0 tuning, bit 1 input channels, bit 2 output channels, bit 3 delay,
    bit 4 gain), four value bytes, then the tuning payload.  The value byte
    of an absent field is passed on as it is. *)
Definition parse (config : list Z) (size : Z) : sof_config_message Z :=
  match config with
  | flags :: i :: o :: d :: g :: payload =>
      {| google_rtc_audio_processing_config := payload;
         google_rtc_audio_processing_config_size := Z.of_nat (length payload);
         num_capture_input_channels := i;
         num_capture_output_channels := o;
         aec_reference_delay := d;
         mic_gain := g;
         google_rtc_audio_processing_config_present := Z.testbit flags 0;
         num_capture_input_channels_present := Z.testbit flags 1;
         num_capture_output_channels_present := Z.testbit flags 2;
         aec_reference_delay_present := Z.testbit flags 3;
         mic_gain_present := Z.testbit flags 4 |}
  | _ =>
      {| google_rtc_audio_processing_config := [];
         google_rtc_audio_processing_config_size := 0;
         num_capture_input_channels := 0;
         num_capture_output_channels := 0;
         aec_reference_delay := 0;
         mic_gain := 0;
         google_rtc_audio_processing_config_present := false;
         num_capture_input_channels_present := false;
         num_capture_output_channels_present := false;
         aec_reference_delay_present := false;
         mic_gain_present := false |}
  end.

(** The stub rejects an empty tuning payload and more than 8 channels; its
    gains and delays are integers. *)
Definition aec : AecLibrary :=
  {| GoogleRtcAudioProcessingState := aec_state;
     float := Z;
     GoogleRtcAudioProcessingParseSofConfigMessage := parse;
     GoogleRtcAudioProcessingReconfigure := fun st config size =>
       if size =? 0 then (-1, st)
       else (0, {| tuning := config;
                   capture_channels := capture_channels st;
                   render_channels := render_channels st;
                   headroom := headroom st; delay := delay st;
                   rendered := rendered st |});
     GoogleRtcAudioProcessingSetStreamFormats :=
       fun st _ in_channels _ _ ref_channels =>
       if 8 <? in_channels then (-1, st)
       else (0, {| tuning := tuning st;
                   capture_channels := in_channels;
                   render_channels := ref_channels;
                   headroom := headroom st; delay := delay st;
                   rendered := rendered st |});
     GoogleRtcAudioProcessingParameters := fun st gain dly =>
       (0, {| tuning := tuning st;
              capture_channels := capture_channels st;
              render_channels := render_channels st;
              headroom := default (headroom st) gain;
              delay := default (delay st) dly;
              rendered := rendered st |});
     GoogleRtcAudioProcessingAnalyzeRender_int16 := fun st buffer =>
       (0, {| tuning := tuning st;
              capture_channels := capture_channels st;
              render_channels := render_channels st;
              headroom := headroom st; delay := delay st;
              rendered := buffer |});
     GoogleRtcAudioProcessingProcessCapture_int16 := fun st buffer =>
       (0, st, buffer);
     ProcessCapture_in_place := fun st buffer => eq_refl |}.

(** Modelled from the spec: the blob store is not part of the component
    ("setPending(blob) stores a newly reassembled, complete blob"; apply is
    "a no-op if no blob was ever supplied").  The stub holds the blob in use
    and the blob that arrived since; fetching the blob moves the new one
    into use. *)
Record blob_store : Type := {
  data : option (list Z);
  data_new : option (list Z)
}.

Definition blob_size (b : option (list Z)) : Z :=
  match b with
  | Some l => Z.of_nat (length l)
  | None => 0
  end.

Definition blob : BlobHandler :=
  {| comp_data_blob_handler := blob_store;
     comp_is_current_data_blob_valid := fun h => bool_decide (is_Some (data h));
     comp_is_new_data_blob_available := fun h =>
       bool_decide (is_Some (data_new h));
     comp_get_data_blob := fun h =>
       match data_new h with
       | Some b => (Some b, blob_size (Some b),
                    {| data := Some b; data_new := None |})
       | None => (data h, blob_size (data h), h)
       end;
     comp_data_blob_set := fun h _ _ fragment =>
       (0, {| data := data h; data_new := Some fragment |}) |}.

(** Modelled from the spec: the pin format helpers are not part of the
    component ("enforce(pin, format) pushes the node's required sample
    rate/encoding onto a pin").  A format is a sample rate and a frame
    encoding; a source pin as modelled carries neither. *)
Record audio_format : Type := {
  sampling_frequency : Z;
  frame_fmt : Z
}.

Definition update_sink_format (k : sof_sink) (f : audio_format) : sof_sink :=
  {| sink_get_frm_fmt := frame_fmt f;
     sink_get_rate := sampling_frequency f;
     sink_get_channels := sink_get_channels k;
     sink_get_frame_bytes := sink_get_frame_bytes k;
     sink_get_min_free_space := sink_get_min_free_space k;
     sink_alignment_constants := sink_alignment_constants k;
     sink_buffer := sink_buffer k;
     sink_get_buffer := sink_get_buffer k |}.

(** Modelled from the spec: the build configuration and the IPC4 constants
    are not part of the sources, and the spec names no values ("a fixed
    conversion scale", "the configured rate").  The stub is configured for
    48000 Hz with S16_LE enabled, and takes the low 16 bits of a pin id as
    its queue id, queue 0 being the feedback queue. *)
Definition plat : Platform :=
  {| CONFIG_COMP_GOOGLE_RTC_AUDIO_PROCESSING_SAMPLE_RATE_HZ := 48000;
     CONFIG_FORMAT_S16LE := true;
     SOF_IPC_FRAME_S16_LE := 0;
     SOF_IPC4_SWITCH_CONTROL_PARAM_ID := 200;
     SOF_IPC4_ENUM_CONTROL_PARAM_ID := 201;
     SOF_AEC_FEEDBACK_QUEUE_ID := 0;
     IPC4_SINK_QUEUE_ID := fun id => Z.land id 65535;
     ipc4_audio_format := audio_format;
     ipc4_update_source_format := fun s _ => s;
     ipc4_update_sink_format := update_sink_format |}.

Abbreviation comp_data :=
  (@google_rtc_audio_processing_comp_data aec blob plat).

Definition s16_48k : audio_format :=
  {| sampling_frequency := 48000; frame_fmt := 0 |}.
Definition s16_44k1 : audio_format :=
  {| sampling_frequency := 44100; frame_fmt := 0 |}.

Definition no_blob : blob_store := {| data := None; data_new := None |}.
(** The blob [b] has arrived and has not been fetched yet. *)
Definition arrived (b : list Z) : blob_store :=
  {| data := None; data_new := Some b |}.

(** Component data as init leaves it for the base format [fmt], [channels]
    capture and reference channels and [frames] frames per cycle, with blob
    store [h]: zeroed scratch buffers, pending flag set. *)
Definition cd_init (fmt : audio_format) (frames channels : Z)
    (h : blob_store) : comp_data :=
  @Build_google_rtc_audio_processing_comp_data aec blob plat
    fmt fmt frames channels channels aec_state0
    (replicate (Z.to_nat (frames * channels)) 0)
    (replicate (Z.to_nat (frames * channels)) 0)
    h true 0 0.

(** The same once prepare has seen the sources [reference; microphone]. *)
Definition cd_bound (fmt : audio_format) (frames channels : Z)
    (h : blob_store) : comp_data :=
  set_raw_microphone_source (cd_init fmt frames channels h) 1.

(** A source pin of 16-bit samples over the circular buffer [cells], read
    position [pos], holding [frames] frames, or as many bytes as the buffer
    has if that is less; an acquire succeeds when the request fits the
    buffer, and returns -ENODATA when it does not. *)
Definition source (id channels : Z) (frames : Z) (cells : list Z) (pos : Z)
  : sof_source :=
  {| source_get_id := id;
     source_get_channels := channels;
     source_get_frame_bytes := 2 * channels;
     source_get_min_available :=
       Z.min (frames * (2 * channels)) (2 * Z.of_nat (length cells));
     source_alignment_constants := (0, 0);
     source_buffer := cells;
     source_get_data := fun req_size =>
       if req_size <=? 2 * Z.of_nat (length cells) then (0, pos)
       else (-61, pos) |}.

(** A sink pin of 16-bit samples over the circular buffer [cells], write
    position [pos], with room for [frames] frames, or for as many bytes as
    the buffer has if that is less; an acquire succeeds when the request
    fits the buffer, and returns -ENOBUFS when it does not. *)
Definition sink (fmt rate channels : Z) (frames : Z) (cells : list Z)
    (pos : Z) : sof_sink :=
  {| sink_get_frm_fmt := fmt;
     sink_get_rate := rate;
     sink_get_channels := channels;
     sink_get_frame_bytes := 2 * channels;
     sink_get_min_free_space :=
       Z.min (frames * (2 * channels)) (2 * Z.of_nat (length cells));
     sink_alignment_constants := (0, 0);
     sink_buffer := cells;
     sink_get_buffer := fun req_size =>
       if req_size <=? 2 * Z.of_nat (length cells) then (0, pos)
       else (-105, pos) |}.

End Stub.


(* ===================================================================== *)
(** ** sof/math/numbers.h: the macros *)
(* ===================================================================== *)

Module NumbersMacros.

(** [MIN(a, b)]: [__a > __b ? __b : __a], for operands of one integer
    type. *)
Definition MIN (a b : Z) : Z := if a >? b then b else a.

(** [MAX(a, b)]: [__a < __b ? __b : __a]. *)
Definition MAX (a b : Z) : Z := if a <? b then b else a.

(** [(uint32_t)x] *)
Definition to_uint32 (x : Z) : Z := x mod 2 ^ 32.
(** [(uint8_t)x] *)
Definition to_uint8 (x : Z) : Z := x mod 2 ^ 8.

(** [merge_16b16b(high, low)]:
    [(((uint32_t)(high) << 16) | ((low) & 0xFFFF))], the shift being a
    [uint32_t] shift. *)
Definition merge_16b16b (high low : Z) : Z :=
  Z.lor (to_uint32 (Z.shiftl (to_uint32 high) 16)) (Z.land low 65535).

(** [merge_4b4b(high, low)]: [(((uint8_t)(high) << 4) | ((low) & 0xF))];
    the [uint8_t] operand is promoted to [int] before the shift. *)
Definition merge_4b4b (high low : Z) : Z :=
  Z.lor (Z.shiftl (to_uint8 high) 4) (Z.land low 15).

End NumbersMacros.

(* ===================================================================== *)
(** ** init and free: what the component allocates and releases *)
(* ===================================================================== *)

Module Lifecycle.
Import Numbers GoogleRtc.

(** errno.h *)
Definition ENOMEM : Z := 12.

Definition GOOGLE_RTC_AUDIO_PROCESSING_FREQENCY_TO_PERIOD_FRAMES : Z := 100.

(** [sizeof(BUF_TYPE)] for [int16_t]. *)
Definition sizeof_BUF_TYPE : Z := 2.

(** The pointers init fills, each with the result of one allocating call:
    [cd], [md->cfg.basecfg_ext], [cd->tuning_handler], [cd->memory_buffer],
    [cd->state], [cd->process_buffer] and [cd->aec_reference_buffer]. *)
Inductive block : Type :=
| BlkCd
| BlkBasecfgExt
| BlkTuningHandler
| BlkMemoryBuffer
| BlkState
| BlkProcessBuffer
| BlkAecReferenceBuffer.

Definition block_eqb (a b : block) : bool :=
  match a, b with
  | BlkCd, BlkCd
  | BlkBasecfgExt, BlkBasecfgExt
  | BlkTuningHandler, BlkTuningHandler
  | BlkMemoryBuffer, BlkMemoryBuffer
  | BlkState, BlkState
  | BlkProcessBuffer, BlkProcessBuffer
  | BlkAecReferenceBuffer, BlkAecReferenceBuffer => true
  | _, _ => false
  end.

(** The allocating and releasing calls of init and free, in program order.
    An allocating call carries the pointer its result is stored in and
    whether it returned non-NULL; a releasing call carries its argument,
    [None] for NULL. *)
Inductive call : Type :=
| CallRzalloc (b : block) (ok : bool)
| CallRballoc (b : block) (size : Z) (ok : bool)
| CallBlobHandlerNew (ok : bool)
| CallCreateWithConfig (capture_rate in_channels out_channels
                        render_rate render_channels : Z) (ok : bool)
| CallAttachMemoryBuffer (size : Z)
| CallParameters
| CallRfree (p : option block)
| CallFree (p : option block)
| CallDetachMemoryBuffer
| CallBlobHandlerFree (p : option block).

(** How a stretch of init ends: it falls through with a value, jumps to
    [fail] with [ret] set, or leaves defined behaviour. *)
Inductive outcome (A : Type) : Type :=
| Done (a : A)
| GotoFail (ret : Z)
| Undefined.
Arguments Done {A} a.
Arguments GotoFail {A} ret.
Arguments Undefined {A}.

(** A stretch of init: from the pointers that are non-NULL, the calls it
    makes, the pointers that are non-NULL afterwards, and how it ends. *)
Definition InitM (A : Type) : Type :=
  list block -> list call * list block * outcome A.

#[global] Instance InitM_ret : MRet InitM := fun A a held => ([], held, Done a).
#[global] Instance InitM_bind : MBind InitM := fun A B f m held =>
  match m held with
  | (t, held', Done a) =>
      match f a held' with (t', held'', r) => (t ++ t', held'', r) end
  | (t, held', GotoFail ret) => (t, held', GotoFail ret)
  | (t, held', Undefined) => (t, held', Undefined)
  end.

Definition invoke (c : call) : InitM unit := fun held => ([c], held, Done tt).

(** [p = alloc(...)], where [c ok] is the call and [ok] whether it returned
    non-NULL. *)
Definition assign (b : block) (c : bool -> call) (ok : bool) : InitM bool :=
  fun held => ([c ok], if ok then b :: held else held, Done ok).

Definition goto_fail {A} (ret : Z) : InitM A :=
  fun held => ([], held, GotoFail ret).

Definition undefined {A} : InitM A := fun held => ([], held, Undefined).

(** The pointer [b] is non-NULL. *)
Definition holds (held : list block) (b : block) : bool :=
  existsb (block_eqb b) held.

(** The value of the pointer [b]. *)
Definition ptr (held : list block) (b : block) : option block :=
  if holds held b then Some b else None.

(** What init and free ask of their surroundings: the build configuration,
    the allocator (rtos/alloc.h), [comp_data_blob_handler_new]
    (sof/audio/data_blob.h) and [GoogleRtcAudioProcessingCreateWithConfig].
    [allocates b] tells whether the [rzalloc] or [rballoc] whose result is
    stored in [b] returns non-NULL; init makes each of these calls at most
    once.  The other two return [None] for NULL. *)
Class Host {aec : AecLibrary} {blob : BlobHandler} {plat : Platform}
  : Type := {
  CONFIG_COMP_GOOGLE_RTC_AUDIO_PROCESSING_MEMORY_BUFFER_SIZE_BYTES : Z;
  CONFIG_COMP_GOOGLE_RTC_AUDIO_PROCESSING_MIC_HEADROOM_LINEAR : float;
  CONFIG_COMP_GOOGLE_RTC_AUDIO_PROCESSING_ECHO_PATH_DELAY_MS : float;
  SOF_IPC_MAX_CHANNELS : Z;
  channels_count : ipc4_audio_format -> Z;
  allocates : block -> bool;
  comp_data_blob_handler_new : option comp_data_blob_handler;
  GoogleRtcAudioProcessingCreateWithConfig :
    Z -> Z -> Z -> Z -> Z -> option GoogleRtcAudioProcessingState
}.

Section Init.
Context {aec : AecLibrary} {blob : BlobHandler} {plat : Platform}
        {host : Host}.

(** [rballoc(0, SOF_MEM_CAPS_RAM, buf_size)] followed by
    [bzero(buffer, buf_size)]: the [int16_t] cells of the buffer. *)
Definition zeroed (buf_size : Z) : list Z :=
  replicate (Z.to_nat (buf_size / sizeof_BUF_TYPE)) 0.

(** Lines 398-399 and 411-413: [ptrs[channel] = &buffer[channel *
    cd->num_frames]] for every channel below [channels]; [ptrs] has
    [SOF_IPC_MAX_CHANNELS] entries (lines 69 and 71). *)
Definition set_ptrs (channels : Z) : InitM unit :=
  if channels >? SOF_IPC_MAX_CHANNELS then undefined else mret tt.

(** [google_rtc_audio_processing_init], lines 287-426, up to the label
    [fail].  [reference_fmt] is the format copied from input pin 1 of the
    init data and [base_fmt] is [mod->priv.cfg.base_cfg.audio_fmt].  The
    copies of the base configuration involve no call that can fail. *)
Definition init_body (reference_fmt base_fmt : ipc4_audio_format)
  : InitM comp_data :=
  ok ← assign BlkCd (CallRzalloc BlkCd) (allocates BlkCd);
  if negb ok then goto_fail (- ENOMEM) else
  ok ← assign BlkBasecfgExt (CallRzalloc BlkBasecfgExt)
         (allocates BlkBasecfgExt);
  if negb ok then goto_fail (- ENOMEM) else
  match comp_data_blob_handler_new with
  | None => invoke (CallBlobHandlerNew false) ;; goto_fail (- ENOMEM)
  | Some handler =>
    assign BlkTuningHandler CallBlobHandlerNew true ;;
    let num_aec_reference_channels :=
      wrap_int (channels_count reference_fmt) in
    let num_capture_channels := wrap_int (channels_count base_fmt) in
    let num_frames :=
      to_u32
        (Z.quot CONFIG_COMP_GOOGLE_RTC_AUDIO_PROCESSING_SAMPLE_RATE_HZ
           GOOGLE_RTC_AUDIO_PROCESSING_FREQENCY_TO_PERIOD_FRAMES) in
    (if CONFIG_COMP_GOOGLE_RTC_AUDIO_PROCESSING_MEMORY_BUFFER_SIZE_BYTES >? 0
     then
       ok ← assign BlkMemoryBuffer
              (CallRballoc BlkMemoryBuffer
                 (size_mul
                    CONFIG_COMP_GOOGLE_RTC_AUDIO_PROCESSING_MEMORY_BUFFER_SIZE_BYTES
                    1))
              (allocates BlkMemoryBuffer);
       if negb ok then goto_fail (- ENOMEM)
       else
         invoke
           (CallAttachMemoryBuffer
              CONFIG_COMP_GOOGLE_RTC_AUDIO_PROCESSING_MEMORY_BUFFER_SIZE_BYTES)
     else mret tt) ;;
    let create :=
      CallCreateWithConfig
        CONFIG_COMP_GOOGLE_RTC_AUDIO_PROCESSING_SAMPLE_RATE_HZ
        num_capture_channels num_capture_channels
        CONFIG_COMP_GOOGLE_RTC_AUDIO_PROCESSING_SAMPLE_RATE_HZ
        num_aec_reference_channels in
    match GoogleRtcAudioProcessingCreateWithConfig
            CONFIG_COMP_GOOGLE_RTC_AUDIO_PROCESSING_SAMPLE_RATE_HZ
            num_capture_channels num_capture_channels
            CONFIG_COMP_GOOGLE_RTC_AUDIO_PROCESSING_SAMPLE_RATE_HZ
            num_aec_reference_channels with
    | None => invoke (create false) ;; goto_fail (- EINVAL)
    | Some st =>
      assign BlkState create true ;;
      invoke CallParameters ;;
      let '(ret, st) :=
        GoogleRtcAudioProcessingParameters st
          (Some CONFIG_COMP_GOOGLE_RTC_AUDIO_PROCESSING_MIC_HEADROOM_LINEAR)
          (Some CONFIG_COMP_GOOGLE_RTC_AUDIO_PROCESSING_ECHO_PATH_DELAY_MS) in
      if ret <? 0 then goto_fail ret else
      let buf_size :=
        size_mul (size_mul num_frames num_capture_channels)
          sizeof_BUF_TYPE in
      ok ← assign BlkProcessBuffer (CallRballoc BlkProcessBuffer buf_size)
             (allocates BlkProcessBuffer);
      if negb ok then goto_fail (- EINVAL) else
      let process_buffer := zeroed buf_size in
      set_ptrs num_capture_channels ;;
      let buf_size :=
        size_mul (size_mul num_frames sizeof_BUF_TYPE)
          num_aec_reference_channels in
      ok ← assign BlkAecReferenceBuffer
             (CallRballoc BlkAecReferenceBuffer buf_size)
             (allocates BlkAecReferenceBuffer);
      if negb ok then goto_fail (- ENOMEM) else
      let aec_reference_buffer := zeroed buf_size in
      set_ptrs num_aec_reference_channels ;;
      mret
        {| config_reference_fmt := reference_fmt;
           base_cfg_audio_fmt := base_fmt;
           num_frames := num_frames;
           num_aec_reference_channels := num_aec_reference_channels;
           num_capture_channels := num_capture_channels;
           state := st;
           aec_reference_buffer := aec_reference_buffer;
           process_buffer := process_buffer;
           tuning_handler := handler;
           reconfigure := true;
           aec_reference_source := 0;
           raw_microphone_source := 0 |}
    end
  end.

(** The label [fail], lines 428-443. *)
Definition fail (held : list block) : list call :=
  if holds held BlkCd then
    [CallRfree (ptr held BlkAecReferenceBuffer)] ++
    (if holds held BlkState then [CallFree (ptr held BlkState)] else []) ++
    [CallDetachMemoryBuffer;
     CallRfree (ptr held BlkMemoryBuffer);
     CallRfree (ptr held BlkBasecfgExt);
     CallRfree (ptr held BlkProcessBuffer);
     CallBlobHandlerFree (ptr held BlkTuningHandler);
     CallRfree (ptr held BlkCd)]
  else [].

(** [google_rtc_audio_processing_init]: the calls made and, unless the
    behaviour is undefined, the return value together with, on success, the
    component data and the pointers it holds. *)
Definition google_rtc_audio_processing_init
    (reference_fmt base_fmt : ipc4_audio_format)
  : list call * option (Z * option (comp_data * list block)) :=
  match init_body reference_fmt base_fmt [] with
  | (t, held, Done cd) => (t, Some (0, Some (cd, held)))
  | (t, held, GotoFail ret) => (t ++ fail held, Some (ret, None))
  | (t, _, Undefined) => (t, None)
  end.

(** [google_rtc_audio_processing_free], lines 446-463, for the pointers
    [held]; [cd] is dereferenced without a check. *)
Definition google_rtc_audio_processing_free (held : list block)
  : list call * option Z :=
  if holds held BlkCd then
    ([CallFree (ptr held BlkState);
      CallRfree (ptr held BlkAecReferenceBuffer);
      CallDetachMemoryBuffer;
      CallRfree (ptr held BlkMemoryBuffer);
      CallRfree (ptr held BlkProcessBuffer);
      CallBlobHandlerFree (ptr held BlkTuningHandler);
      CallRfree (ptr held BlkBasecfgExt);
      CallRfree (ptr held BlkCd)],
     Some 0)
  else ([], None).

(** The pointers a successful init holds: all of them, the memory buffer
    only when one is configured. *)
Definition all_held : list block :=
  [BlkAecReferenceBuffer; BlkProcessBuffer; BlkState] ++
  (if CONFIG_COMP_GOOGLE_RTC_AUDIO_PROCESSING_MEMORY_BUFFER_SIZE_BYTES >? 0
   then [BlkMemoryBuffer] else []) ++
  [BlkTuningHandler; BlkBasecfgExt; BlkCd].

End Init.

(** *** The ledger of allocations *)

(** The block a call allocates. *)
Definition acquired (c : call) : option block :=
  match c with
  | CallRzalloc b true | CallRballoc b _ true => Some b
  | CallBlobHandlerNew true => Some BlkTuningHandler
  | CallCreateWithConfig _ _ _ _ _ true => Some BlkState
  | _ => None
  end.

(** The block a call releases; a NULL argument releases nothing. *)
Definition released (c : call) : option block :=
  match c with
  | CallRfree p | CallFree p | CallBlobHandlerFree p => p
  | _ => None
  end.

(** The releasing function that goes with the allocating one. *)
Definition releases_properly (c : call) : bool :=
  match c with
  | CallRfree (Some b) =>
      negb (block_eqb b BlkTuningHandler || block_eqb b BlkState)
  | CallFree (Some b) => block_eqb b BlkState
  | CallBlobHandlerFree (Some b) => block_eqb b BlkTuningHandler
  | _ => true
  end.

Definition remove_block (b : block) (live : list block) : list block :=
  filter (fun x => negb (block_eqb b x)) live.

(** The blocks live after the calls [t], starting from [live]; [None] when
    a block is released that is not live, released by the wrong function,
    or allocated while it is live. *)
Fixpoint ledger (t : list call) (live : list block) : option (list block) :=
  match t with
  | [] => Some live
  | c :: t' =>
      match acquired c, released c with
      | Some b, _ =>
          if holds live b then None else ledger t' (b :: live)
      | None, Some b =>
          if holds live b && releases_properly c
          then ledger t' (remove_block b live)
          else None
      | None, None => ledger t' live
      end
  end.

End Lifecycle.

(** Modelled from the spec: the allocator, the handler constructor and the
    library constructor are not part of the sources ("init fails fatally on
    any allocation failure"; "create(sampleRate, inChannels, outChannels,
    refSampleRate, refChannels)").  The stub host reports [channels]
    channels for every format; [short] is the allocation that fails, if
    any, and [handler] tells whether a blob handler can be had; the library
    refuses to be created for more than 8 capture channels. *)
Module StubHost.
Import GoogleRtc Lifecycle.

Definition host (memory_buffer_size channels : Z) (short : option block)
    (handler : bool)
  : @Host Stub.aec Stub.blob Stub.plat :=
  @Build_Host Stub.aec Stub.blob Stub.plat
    memory_buffer_size
    4
    44
    8
    (fun _ => channels)
    (fun b =>
       match short with
       | Some s => negb (block_eqb s b)
       | None => true
       end)
    (if handler then Some Stub.no_blob else None)
    (fun _ i _ _ r =>
       if 8 <? i then None
       else Some {| Stub.tuning := []; Stub.capture_channels := i;
                    Stub.render_channels := r; Stub.headroom := 1;
                    Stub.delay := 0; Stub.rendered := [] |}).

End StubHost.

Import Numbers GoogleRtc.

(* ===================================================================== *)
(** ** Vocabulary of the properties *)
(* ===================================================================== *)

Section Vocabulary.
Context {aec : AecLibrary} {blob : BlobHandler} {plat : Platform}.

(** Fields of the component data that no entry point but init writes,
    together with the blob handler and the pending flag. *)
Definition same_frame (cd cd' : comp_data) : Prop :=
  config_reference_fmt cd' = config_reference_fmt cd /\
  base_cfg_audio_fmt cd' = base_cfg_audio_fmt cd /\
  num_frames cd' = num_frames cd /\
  num_aec_reference_channels cd' = num_aec_reference_channels cd /\
  aec_reference_buffer cd' = aec_reference_buffer cd /\
  process_buffer cd' = process_buffer cd /\
  tuning_handler cd' = tuning_handler cd /\
  reconfigure cd' = reconfigure cd /\
  aec_reference_source cd' = aec_reference_source cd /\
  raw_microphone_source cd' = raw_microphone_source cd.

(** The calls of a completed cycle after the apply step, for the pins
    [ref_stream] and [src_stream]. *)
Definition stream_calls (cd : comp_data) (ref_stream src_stream : sof_source)
  : list event :=
  let ref_bytes :=
    size_mul (num_frames cd) (source_get_frame_bytes ref_stream) in
  let src_bytes :=
    size_mul (num_frames cd) (source_get_frame_bytes src_stream) in
  [ EvSourceGetData (aec_reference_source cd) ref_bytes;
    EvAecAnalyzeRender;
    EvSourceReleaseData (aec_reference_source cd) ref_bytes;
    EvSourceGetData (raw_microphone_source cd) src_bytes;
    EvSourceReleaseData (raw_microphone_source cd) src_bytes;
    EvAecProcessCapture;
    EvSinkGetBuffer src_bytes;
    EvSinkCommitBuffer src_bytes ].

(** Everything of the component data but the two source indices. *)
Definition retained (cd cd' : comp_data) : Prop :=
  config_reference_fmt cd' = config_reference_fmt cd /\
  base_cfg_audio_fmt cd' = base_cfg_audio_fmt cd /\
  num_frames cd' = num_frames cd /\
  num_aec_reference_channels cd' = num_aec_reference_channels cd /\
  num_capture_channels cd' = num_capture_channels cd /\
  state cd' = state cd /\
  aec_reference_buffer cd' = aec_reference_buffer cd /\
  process_buffer cd' = process_buffer cd /\
  tuning_handler cd' = tuning_handler cd /\
  reconfigure cd' = reconfigure cd.

(** The guards of prepare that follow the search for the two sources
    (lines 520-581), for the sources [r] and [m] found on the feedback queue
    and off it, the pins [ref], [mic] and [out] as they are once the formats
    have been pushed onto them: the reference, microphone and output pins
    have enough channels, the output format is supported and its rate the
    configured one, and the IBS/OBS sizes are the frame count times the
    frame size. *)
Definition prepare_guards (cd : comp_data) (r m ref mic : sof_source)
    (out : sof_sink) : Prop :=
  to_u32 (num_aec_reference_channels cd) <= to_u32 (source_get_channels r) /\
  num_capture_channels cd <= source_get_channels m /\
  num_capture_channels cd <= sink_get_channels out /\
  frame_fmt_supported (sink_get_frm_fmt out) = true /\
  sink_get_rate out = CONFIG_COMP_GOOGLE_RTC_AUDIO_PROCESSING_SAMPLE_RATE_HZ /\
  size_mul (num_frames cd) (source_get_frame_bytes mic)
  = source_get_min_available mic /\
  size_mul (num_frames cd) (sink_get_frame_bytes out)
  = sink_get_min_free_space out /\
  size_mul (num_frames cd) (source_get_frame_bytes ref)
  = source_get_min_available ref.



End Vocabulary.

Section MoreVocabulary.
Context {aec : AecLibrary} {blob : BlobHandler} {plat : Platform}.

(** Everything of the component data but the blob handler and the pending
    flag. *)
Definition blob_side_only (cd cd' : comp_data) : Prop :=
  config_reference_fmt cd' = config_reference_fmt cd /\
  base_cfg_audio_fmt cd' = base_cfg_audio_fmt cd /\
  num_frames cd' = num_frames cd /\
  num_aec_reference_channels cd' = num_aec_reference_channels cd /\
  num_capture_channels cd' = num_capture_channels cd /\
  state cd' = state cd /\
  aec_reference_buffer cd' = aec_reference_buffer cd /\
  process_buffer cd' = process_buffer cd /\
  aec_reference_source cd' = aec_reference_source cd /\
  raw_microphone_source cd' = raw_microphone_source cd.

(** The calls a successful apply makes for the decoded fields [msg], with
    [n] the capture channel count it stores and [r] the reference channel
    count. *)
Definition apply_calls (msg : sof_config_message float) (n r : Z)
  : list event :=
  (if google_rtc_audio_processing_config_present msg
   then [EvAecReconfigure (google_rtc_audio_processing_config msg)
           (google_rtc_audio_processing_config_size msg)]
   else []) ++
  (if num_capture_input_channels_present msg
      || num_capture_output_channels_present msg
   then [EvAecSetStreamFormats
           CONFIG_COMP_GOOGLE_RTC_AUDIO_PROCESSING_SAMPLE_RATE_HZ n n
           CONFIG_COMP_GOOGLE_RTC_AUDIO_PROCESSING_SAMPLE_RATE_HZ r]
   else []) ++
  (if aec_reference_delay_present msg || mic_gain_present msg
   then [EvAecParameters (mic_gain_present msg)
           (aec_reference_delay_present msg)]
   else []).

(** The source is the one fed back from the playback side, as line 495
    tells it. *)
Definition feeds_back (s : sof_source) : bool :=
  IPC4_SINK_QUEUE_ID (source_get_id s) =? SOF_AEC_FEEDBACK_QUEUE_ID.

(** [s] is source [j], and the last source of [sources] for which
    [feeds_back] is [feedback]. *)
Definition last_with (feedback : bool) (sources : list sof_source)
    (j : nat) (s : sof_source) : Prop :=
  sources !! j = Some s /\ feeds_back s = feedback /\
  forall k s', (j < k)%nat -> sources !! k = Some s' ->
    feeds_back s' = negb feedback.

(** No source from index [i] on has [feeds_back] equal to [feedback]. *)
Definition none_with (feedback : bool) (sources : list sof_source)
    (i : nat) : Prop :=
  forall k s, (i <= k)%nat -> sources !! k = Some s ->
    feeds_back s = negb feedback.

End MoreVocabulary.

(** The per-channel arrangement of [F] frames of [C] interleaved cells:
    cell [c * F + j] of the result is sample [c] of frame [j], that is cell
    [j * C + c] of [samples], converted to [int16_t]. *)
Definition planar (F C : Z) (samples : list Z) : list Z :=
  map (fun k : nat =>
         to_int16
           (nth (Z.to_nat ((Z.of_nat k mod F) * C + Z.of_nat k / F))
              samples 0))
      (seq 0 (Z.to_nat (C * F))).

(** The interleaved arrangement of [F] frames of [C] channels held per
    channel in [buffer]: cell [j * C + c] of the result is cell [c * F + j]
    of [buffer], converted to [uint16_t]. *)
Definition interleaved (F C : Z) (buffer : list Z) : list Z :=
  map (fun k : nat =>
         to_uint16
           (nth (Z.to_nat ((Z.of_nat k mod C) * F + Z.of_nat k / C))
              buffer 0))
      (seq 0 (Z.to_nat (F * C))).

(* ===================================================================== *)
(** ** Properties *)
(* ===================================================================== *)

Section CeilDivide.

Lemma wrap_int_id x : in_int x -> wrap_int x = x.
Proof.
  unfold in_int, INT_MIN, INT_MAX, wrap_int. intros H.
  rewrite Z.mod_small by lia. lia.
Qed.

Lemma SIGN_MASK_eq : SIGN_MASK = Z.lnot (Z.ones 31).
Proof. reflexivity. Qed.

Lemma land_sign_mask x : Z.land x SIGN_MASK = 2 ^ 31 * (x / 2 ^ 31).
Proof.
  rewrite SIGN_MASK_eq.
  change (Z.land x (Z.lnot (Z.ones 31))) with (Z.ldiff x (Z.ones 31)).
  rewrite Z.ldiff_ones_r by lia.
  rewrite Z.shiftl_mul_pow2, Z.shiftr_div_pow2 by lia. lia.
Qed.

Lemma lxor_small a b : 0 <= a < 2 ^ 31 -> 0 <= b < 2 ^ 31 -> 0 <= Z.lxor a b < 2 ^ 31.
Proof.
  intros Ha Hb. split.
  - apply Z.lxor_nonneg. lia.
  - destruct (Z.eq_dec (Z.lxor a b) 0) as [->|Hne]; [lia|].
    assert (0 <= Z.lxor a b) by (apply Z.lxor_nonneg; lia).
    apply Z.log2_lt_pow2; [lia|].
    pose proof (Z.log2_lxor a b ltac:(lia) ltac:(lia)).
    assert (Z.log2 a < 31).
    { destruct (Z.eq_dec a 0) as [->|]; [simpl; lia|]. apply Z.log2_lt_pow2; lia. }
    assert (Z.log2 b < 31).
    { destruct (Z.eq_dec b 0) as [->|]; [simpl; lia|]. apply Z.log2_lt_pow2; lia. }
    lia.
Qed.

Lemma sign_test a b : in_int a -> in_int b ->
  Z.land (Z.lxor a b) SIGN_MASK = 0 <-> ~ signs_differ a b.
Proof.
  unfold in_int, INT_MIN, INT_MAX, signs_differ. intros Ha Hb.
  rewrite land_sign_mask.
  destruct (Z.neg_nonneg_cases a) as [Na|Na], (Z.neg_nonneg_cases b) as [Nb|Nb].
  - (* both negative *)
    rewrite <- Z.lxor_lnot_lnot.
    pose proof (lxor_small (Z.lnot a) (Z.lnot b)) as H.
    unfold Z.lnot in *. rewrite <- !Z.sub_1_r in *.
    specialize (H ltac:(lia) ltac:(lia)).
    rewrite Z.div_small by lia. lia.
  - assert (Z.lxor a b < 0).
    { apply Z.nle_gt. rewrite Z.lxor_nonneg. lia. }
    assert (Z.lxor a b / 2 ^ 31 < 0) by (apply Z.div_lt_upper_bound; lia).
    lia.
  - assert (Z.lxor a b < 0).
    { apply Z.nle_gt. rewrite Z.lxor_nonneg. lia. }
    assert (Z.lxor a b / 2 ^ 31 < 0) by (apply Z.div_lt_upper_bound; lia).
    lia.
  - pose proof (lxor_small a b ltac:(lia) ltac:(lia)).
    rewrite Z.div_small by lia. lia.
Qed.

Lemma quot_facts a b : b <> 0 ->
  a = b * Z.quot a b + Z.rem a b /\ Z.abs (Z.rem a b) < Z.abs b /\
  (0 <= a -> 0 <= Z.rem a b) /\ (a <= 0 -> Z.rem a b <= 0).
Proof.
  intros Hb. split; [apply Z.quot_rem'|]. split; [|split].
  - apply Z.rem_bound_abs. assumption.
  - intros. apply Z.rem_nonneg; assumption.
  - intros. apply Z.rem_nonpos; assumption.
Qed.

Lemma ceiling_spec a b c : b <> 0 ->
  (0 < b -> b * (c - 1) < a <= b * c) ->
  (b < 0 -> b * c <= a < b * (c - 1)) ->
  ceiling a b = c.
Proof.
  intros Hb Hp Hn. unfold ceiling.
  pose proof (Z.div_mod (- a) b Hb) as E.
  destruct (Z.lt_trichotomy b 0) as [L|[L|L]]; [|lia|].
  - pose proof (Z.mod_neg_bound (- a) b L). specialize (Hn L). nia.
  - pose proof (Z.mod_pos_bound (- a) b L). specialize (Hp L). nia.
Qed.

Theorem ceil_divide_is_ceiling a b :
  in_int a -> in_int b -> b <> 0 -> in_int (Z.quot a b) ->
  ceil_divide a b = ceiling a b /\
  (signs_differ a b -> ceil_divide a b = Z.quot a b) /\
  (~ signs_differ a b ->
     ((b | a) -> ceil_divide a b = Z.quot a b) /\
     (~ (b | a) -> ceil_divide a b = Z.quot a b + 1)).
Proof.
  intros Ha Hb Hnz Hq.
  destruct (quot_facts a b Hnz) as (E & Hr & Hs1 & Hs2).
  assert (Hdiv : (b | a) <-> Z.rem a b = 0).
  { split.
    - intros [k ->]. apply Z.rem_mul. assumption.
    - intros R. exists (Z.quot a b). lia. }
  assert (Hc : Z.quot a b * b = a <-> Z.rem a b = 0) by lia.
  unfold ceil_divide.
  rewrite (wrap_int_id (Z.quot a b)) by assumption.
  assert (Hprod : in_int (Z.quot a b * b)).
  { unfold in_int, INT_MIN, INT_MAX in *. nia. }
  rewrite (wrap_int_id _ Hprod).
  pose proof (sign_test a b Ha Hb) as St.
  destruct (Z.eqb_spec (Z.land (Z.lxor a b) SIGN_MASK) 0) as [M|M]; simpl.
  - (* equal sign bits *)
    apply St in M.
    destruct (Z.eqb_spec (Z.quot a b * b) a) as [P|P]; simpl.
    + apply Hc in P. repeat split; try tauto.
      symmetry. apply ceiling_spec; trivial; unfold signs_differ in M; nia.
    + assert (R : Z.rem a b <> 0) by tauto.
      assert (I : in_int (Z.quot a b + 1)).
      { unfold in_int, INT_MIN, INT_MAX, signs_differ in *. nia. }
      rewrite (wrap_int_id _ I). repeat split; try tauto.
      symmetry. apply ceiling_spec; trivial; unfold signs_differ in M; nia.
  - assert (D : signs_differ a b).
    { destruct (decide (signs_differ a b)); tauto. }
    repeat split; try tauto.
    symmetry. apply ceiling_spec; trivial; unfold signs_differ in D; nia.
Qed.
End CeilDivide.

Section ReconfigureFacts.
Context {aec : AecLibrary} {blob : BlobHandler} {plat : Platform}.

Lemma same_frame_refl cd : same_frame cd cd.
Proof. repeat split. Qed.

Lemma same_frame_trans cd1 cd2 cd3 :
  same_frame cd1 cd2 -> same_frame cd2 cd3 -> same_frame cd1 cd3.
Proof. unfold same_frame. intuition congruence. Qed.

Ltac run := unfold mbind, M_bind, mret, M_ret, emit, lift; simpl.

Lemma reconfigure_tuning_total msg cd :
  exists t ret cd',
    reconfigure_tuning msg cd = (t, Ok (ret, cd')) /\
    same_frame cd cd' /\
    num_capture_channels cd' = num_capture_channels cd /\
    (forall e, In e t ->
       e = EvAecReconfigure (google_rtc_audio_processing_config msg)
             (google_rtc_audio_processing_config_size msg)).
Proof.
  unfold reconfigure_tuning.
  destruct (google_rtc_audio_processing_config_present msg).
  - destruct (GoogleRtcAudioProcessingReconfigure _ _ _) as [ret st] eqn:E.
    run. do 3 eexists. split; [reflexivity|].
    repeat split. simpl. intuition.
  - do 3 eexists. split; [reflexivity|]. repeat split. simpl. tauto.
Qed.

Lemma apply_stream_formats_total cd :
  exists e ret st,
    apply_stream_formats cd = ([e], Ok (ret, set_state cd st)).
Proof.
  unfold apply_stream_formats.
  destruct (GoogleRtcAudioProcessingSetStreamFormats _ _ _ _ _ _)
    as [ret st] eqn:E.
  run. eauto.
Qed.

Lemma reconfigure_channels_total msg cd :
  exists t ret cd',
    reconfigure_channels msg cd = (t, Ok (ret, cd')) /\ same_frame cd cd'.
Proof.
  unfold reconfigure_channels.
  destruct (num_capture_input_channels_present msg),
           (num_capture_output_channels_present msg); simpl;
    try destruct (_ =? _); simpl;
    try (match goal with
         | |- context [apply_stream_formats ?c] =>
             destruct (apply_stream_formats_total c) as (e & ret & st & ->)
         end);
    do 3 eexists; (split; [reflexivity|]); repeat split.
Qed.

(** With one channel count present, either branch stores the value of
    [num_capture_output_channels]: that is the present count when the output
    count is the one present, and the variable of the absent field when the
    input count is (line 177). *)
Lemma reconfigure_channels_single msg (cd : comp_data) :
  xorb (num_capture_input_channels_present msg)
       (num_capture_output_channels_present msg) = true ->
  exists e ret st,
    reconfigure_channels msg cd
    = ([e], Ok (ret, set_state
                       (set_num_capture_channels cd
                          (num_capture_output_channels msg)) st)).
Proof.
  unfold reconfigure_channels.
  destruct (num_capture_input_channels_present msg),
           (num_capture_output_channels_present msg);
    try discriminate; intros _; cbn [orb andb];
    apply apply_stream_formats_total.
Qed.

Lemma reconfigure_parameters_total msg cd :
  exists t ret cd',
    reconfigure_parameters msg cd = (t, Ok (ret, cd')) /\ same_frame cd cd'.
Proof.
  unfold reconfigure_parameters.
  destruct (_ || _).
  - destruct (GoogleRtcAudioProcessingParameters _ _ _) as [ret st] eqn:E.
    run. do 3 eexists. split; [reflexivity|]. repeat split.
  - do 3 eexists. split; [reflexivity|]. repeat split.
Qed.

Lemma and_then_total step rest cd :
  (exists t ret cd', step = (t, Ok (ret, cd')) /\ same_frame cd cd') ->
  (forall cd1, same_frame cd cd1 ->
     exists t ret cd', rest cd1 = (t, Ok (ret, cd')) /\ same_frame cd cd') ->
  exists t ret cd', and_then step rest = (t, Ok (ret, cd')) /\ same_frame cd cd'.
Proof.
  intros (t & ret & cd1 & -> & F) R. unfold and_then. run.
  destruct (ret =? 0); simpl.
  - destruct (R cd1 F) as (t' & ret' & cd' & -> & F'). eauto 6.
  - eauto 6.
Qed.

Lemma emit_bind {A} e (m : M A) : (emit e ;; m) = (e :: m.1, m.2).
Proof. destruct m as [t []]; reflexivity. Qed.

(** The decoded fields are applied without fault, and touch only the
    library state and the capture channel count. *)
Lemma reconfigure_apply_total msg cd :
  exists t ret cd',
    reconfigure_apply msg cd = (t, Ok (ret, cd')) /\ same_frame cd cd'.
Proof.
  unfold reconfigure_apply. apply and_then_total.
  { destruct (reconfigure_tuning_total msg cd) as (t & r & c & E & F & _).
    eauto 6. }
  intros cd1 F1. apply and_then_total.
  { destruct (reconfigure_channels_total msg cd1) as (t & r & c & E & F).
    exists t, r, c. split; [exact E|]. eapply same_frame_trans; eauto. }
  intros cd2 F2. apply and_then_total.
  { destruct (reconfigure_parameters_total msg cd2) as (t & r & c & E & F).
    exists t, r, c. split; [exact E|]. eapply same_frame_trans; eauto. }
  intros cd3 F3. do 3 eexists. split; [reflexivity|]. assumption.
Qed.

(** reconfigure always returns. *)
Lemma reconfigure_total cd :
  exists t ret cd',
    google_rtc_audio_processing_reconfigure cd = (t, Ok (ret, cd')).
Proof.
  unfold google_rtc_audio_processing_reconfigure.
  destruct (_ && _); [eauto|].
  rewrite emit_bind.
  destruct (comp_get_data_blob _) as [[config size] h].
  destruct (size =? 0); [simpl; eauto|].
  destruct config as [config|]; [|simpl; eauto].
  destruct (reconfigure_apply_total
              (GoogleRtcAudioProcessingParseSofConfigMessage config size)
              (set_reconfigure (set_tuning_handler cd h) false))
    as (t & ret & cd' & E & _).
  rewrite E. simpl. eauto.
Qed.

(** What reconfigure does once it holds a non-empty blob. *)
Lemma reconfigure_with_blob cd config size h :
  comp_is_current_data_blob_valid (tuning_handler cd)
  || comp_is_new_data_blob_available (tuning_handler cd) = true ->
  comp_get_data_blob (tuning_handler cd) = (Some config, size, h) ->
  size <> 0 ->
  google_rtc_audio_processing_reconfigure cd =
  (emit EvGetDataBlob ;;
   reconfigure_apply
     (GoogleRtcAudioProcessingParseSofConfigMessage config size)
     (set_reconfigure (set_tuning_handler cd h) false)).
Proof.
  intros Hav Hget Hsz. unfold google_rtc_audio_processing_reconfigure.
  rewrite Hget.
  destruct (comp_is_current_data_blob_valid _),
           (comp_is_new_data_blob_available _); try discriminate; simpl;
    destruct (Z.eqb_spec size 0); try contradiction; reflexivity.
Qed.

End ReconfigureFacts.

Section ProcessFacts.
Context {aec : AecLibrary} {blob : BlobHandler} {plat : Platform}.

Lemma bind_emit_inv {A} e (m : M A) t r :
  (emit e ;; m) = (t, r) -> exists t', t = e :: t' /\ m = (t', r).
Proof.
  rewrite emit_bind. destruct m as [t' r']. simpl.
  intros [= <- <-]. eauto.
Qed.

Lemma bind_lift_inv {A B} (res : result A) (k : A -> M B) t x :
  mbind k (lift res) = (t, Ok x) -> exists a, res = Ok a /\ k a = (t, Ok x).
Proof.
  destruct res as [a|f]; unfold mbind, M_bind, lift; [|discriminate].
  destruct (k a) as [t' r'] eqn:E. simpl. intros [= <- ->]. eauto.
Qed.

Lemma bind_assert_inv {A} b (m : M A) t x :
  (assert b ;; m) = (t, Ok x) -> b = true /\ m = (t, Ok x).
Proof.
  destruct b; unfold assert, mbind, M_bind, mret, M_ret; [|discriminate].
  destruct m as [t' r']. simpl. intros [= <- ->]. auto.
Qed.

Lemma process_streams_inv cd sources sinks t ret cd' sinks' :
  process_streams cd sources sinks = (t, Ok (ret, cd', sinks')) ->
  exists ref_stream src_stream,
    pin sources (aec_reference_source cd) = Ok ref_stream /\
    pin sources (raw_microphone_source cd) = Ok src_stream /\
    t = stream_calls cd ref_stream src_stream /\
    ret = 0 /\
    reconfigure cd' = reconfigure cd /\
    tuning_handler cd' = tuning_handler cd /\
    num_capture_channels cd' = num_capture_channels cd /\
    num_frames cd' = num_frames cd /\
    aec_reference_source cd' = aec_reference_source cd /\
    raw_microphone_source cd' = raw_microphone_source cd.
Proof.
  unfold process_streams. intros H.
  apply bind_lift_inv in H as (src_stream & Hsrc & H).
  apply bind_lift_inv in H as (ref_stream & Href & H).
  apply bind_lift_inv in H as (dst_stream & Hdst & H).
  apply bind_emit_inv in H as (t1 & -> & H).
  destruct (source_get_data ref_stream _) as [r1 ref].
  apply bind_assert_inv in H as (_ & H).
  apply bind_lift_inv in H as (num_samples_remaining & _ & H).
  apply bind_lift_inv in H as ([buffer1 c1] & _ & H).
  apply bind_emit_inv in H as (t2 & -> & H).
  destruct (GoogleRtcAudioProcessingAnalyzeRender_int16 _ _) as [r2 st2].
  apply bind_emit_inv in H as (t3 & -> & H).
  apply bind_emit_inv in H as (t4 & -> & H).
  destruct (source_get_data src_stream _) as [r3 src].
  apply bind_assert_inv in H as (_ & H).
  apply bind_lift_inv in H as ([buffer2 c2] & _ & H).
  apply bind_emit_inv in H as (t5 & -> & H).
  apply bind_emit_inv in H as (t6 & -> & H).
  destruct (GoogleRtcAudioProcessingProcessCapture_int16 _ _) as [[r4 st4] buffer3].
  apply bind_emit_inv in H as (t7 & -> & H).
  destruct (sink_get_buffer dst_stream _) as [r5 dst].
  apply bind_assert_inv in H as (_ & H).
  apply bind_lift_inv in H as ([region c3] & _ & H).
  apply bind_emit_inv in H as (t8 & -> & H).
  injection H as <- <- <- <-.
  exists ref_stream, src_stream. repeat split; assumption.
Qed.

End ProcessFacts.

Section ApplyStep.
Context {aec : AecLibrary} {blob : BlobHandler} {plat : Platform}.

Lemma reconfigure_if_pending_clear (cd : comp_data) :
  reconfigure cd = false -> reconfigure_if_pending cd = ([], Ok (0, cd)).
Proof. unfold reconfigure_if_pending. intros ->. reflexivity. Qed.

(** C6.  With the pending flag clear, or with no blob ever supplied, the
    per-cycle apply step returns 0, makes no call at all (so no library
    reconfigure, stream-format or parameter call and no blob fetch) and
    leaves the component data, capture channel count and library state
    included, as it was. *)
Theorem apply_step_noop (cd : comp_data) :
  reconfigure cd = false \/
  (comp_is_current_data_blob_valid (tuning_handler cd) = false /\
   comp_is_new_data_blob_available (tuning_handler cd) = false) ->
  reconfigure_if_pending cd = ([], Ok (0, cd)).
Proof.
  unfold reconfigure_if_pending, google_rtc_audio_processing_reconfigure.
  intros [H|[H1 H2]].
  - rewrite H. reflexivity.
  - rewrite H1, H2. destruct (reconfigure cd); reflexivity.
Qed.

Lemma process_not_pending (cd : comp_data) sources sinks :
  reconfigure cd = false ->
  google_rtc_audio_processing_process cd sources sinks
  = process_streams cd sources sinks.
Proof.
  intros H. unfold google_rtc_audio_processing_process.
  rewrite (reconfigure_if_pending_clear cd) by assumption.
  unfold mbind, M_bind. simpl.
  destruct (process_streams cd sources sinks) as [t r]. reflexivity.
Qed.

Lemma process_keeps_flag_clear (cd : comp_data) sources sinks t ret cd' sinks' :
  reconfigure cd = false ->
  google_rtc_audio_processing_process cd sources sinks
  = (t, Ok (ret, cd', sinks')) ->
  reconfigure cd' = false /\ ~ In EvGetDataBlob t.
Proof.
  intros H. rewrite process_not_pending by assumption. intros P.
  apply process_streams_inv in P
    as (r & s & _ & _ & -> & _ & -> & _).
  split; [assumption|]. unfold stream_calls. simpl.
  intuition discriminate.
Qed.

(** C9.  Once reconfigure holds a non-empty blob, it returns with the
    pending flag cleared whatever its return value, failures included; a
    later cycle then skips the apply step, fetches no blob and leaves the
    flag clear. *)
Theorem reconfigure_clears_pending (cd : comp_data) config size h :
  comp_is_current_data_blob_valid (tuning_handler cd)
  || comp_is_new_data_blob_available (tuning_handler cd) = true ->
  comp_get_data_blob (tuning_handler cd) = (Some config, size, h) ->
  size <> 0 ->
  exists t ret cd',
    google_rtc_audio_processing_reconfigure cd = (t, Ok (ret, cd')) /\
    reconfigure cd' = false /\
    reconfigure_if_pending cd' = ([], Ok (0, cd')) /\
    forall sources sinks t1 ret1 cd1 sinks1,
      google_rtc_audio_processing_process cd' sources sinks
      = (t1, Ok (ret1, cd1, sinks1)) ->
      reconfigure cd1 = false /\ ~ In EvGetDataBlob t1.
Proof.
  intros Hav Hget Hsz.
  rewrite (reconfigure_with_blob cd config size h) by assumption.
  destruct (reconfigure_apply_total
              (GoogleRtcAudioProcessingParseSofConfigMessage config size)
              (set_reconfigure (set_tuning_handler cd h) false))
    as (t & ret & cd' & E & F).
  rewrite emit_bind, E. simpl.
  assert (Hflag : reconfigure cd' = false).
  { destruct F as (_ & _ & _ & _ & _ & _ & _ & -> & _). reflexivity. }
  exists (EvGetDataBlob :: t), ret, cd'. split; [reflexivity|].
  split; [assumption|]. split; [apply reconfigure_if_pending_clear; assumption|].
  intros. eapply process_keeps_flag_clear; eauto.
Qed.

End ApplyStep.

Section Cycle.
Context {aec : AecLibrary} {blob : BlobHandler} {plat : Platform}.

Lemma bind_inv {A B} (m : M A) (k : A -> M B) t x :
  mbind k m = (t, Ok x) ->
  exists t0 a t1, m = (t0, Ok a) /\ k a = (t1, Ok x) /\ t = t0 ++ t1.
Proof.
  destruct m as [t0 [a|f]]; unfold mbind, M_bind; [|discriminate].
  destruct (k a) as [t1 r] eqn:E. intros [= <- ->]. eauto 8.
Qed.

(** C2, as the code has it.  With both channel counts present and unequal,
    and the tuning payload absent or accepted by the library, reconfigure
    returns -EINVAL; the stored capture channel count is unchanged, and
    neither the stream-format call nor the parameter call is made.  The
    library state is the one the reconfigure call for the tuning payload
    left, and is the state before the call only when the blob carries no
    tuning payload. *)
Theorem reconfigure_channel_mismatch (cd : comp_data) config size h :
  comp_is_current_data_blob_valid (tuning_handler cd)
  || comp_is_new_data_blob_available (tuning_handler cd) = true ->
  comp_get_data_blob (tuning_handler cd) = (Some config, size, h) ->
  size <> 0 ->
  let msg := GoogleRtcAudioProcessingParseSofConfigMessage config size in
  let tuned :=
    GoogleRtcAudioProcessingReconfigure (state cd)
      (google_rtc_audio_processing_config msg)
      (google_rtc_audio_processing_config_size msg) in
  num_capture_input_channels_present msg = true ->
  num_capture_output_channels_present msg = true ->
  num_capture_input_channels msg <> num_capture_output_channels msg ->
  google_rtc_audio_processing_config_present msg = false \/ fst tuned = 0 ->
  exists t cd',
    google_rtc_audio_processing_reconfigure cd = (t, Ok (- EINVAL, cd')) /\
    num_capture_channels cd' = num_capture_channels cd /\
    (forall e, In e t ->
       e = EvGetDataBlob \/
       e = EvAecReconfigure (google_rtc_audio_processing_config msg)
             (google_rtc_audio_processing_config_size msg)) /\
    state cd' =
      (if google_rtc_audio_processing_config_present msg
       then snd tuned else state cd).
Proof.
  intros Hav Hget Hsz msg tuned Hin Hout Hne Htune.
  rewrite (reconfigure_with_blob cd config size h) by assumption.
  fold msg. rewrite emit_bind.
  unfold reconfigure_apply, and_then, reconfigure_tuning,
    reconfigure_channels.
  rewrite Hin, Hout. simpl.
  destruct (Z.eqb_spec (num_capture_input_channels msg)
              (num_capture_output_channels msg)) as [|_]; [contradiction|].
  destruct (google_rtc_audio_processing_config_present msg).
  - destruct Htune as [|Htune]; [discriminate|].
    fold tuned. destruct tuned as [r st]. simpl in Htune. subst r.
    simpl. do 2 eexists. split; [reflexivity|].
    repeat split. simpl. intuition.
  - simpl. do 2 eexists. split; [reflexivity|].
    repeat split. simpl. intuition.
Qed.

(** C3, as the code has it.  reset returns 0 and changes nothing: the
    scratch buffers, the library state, the blob handler and the pending
    flag are all retained, and the next cycle is the one that would have run
    without the reset. *)
Theorem reset_retains_everything (cd : comp_data) :
  google_rtc_audio_processing_reset cd = (0, cd) /\
  reconfigure (snd (google_rtc_audio_processing_reset cd)) = reconfigure cd /\
  forall sources sinks,
    google_rtc_audio_processing_process
      (snd (google_rtc_audio_processing_reset cd)) sources sinks
    = google_rtc_audio_processing_process cd sources sinks.
Proof. repeat split. Qed.

(** C8, as the code has it.  A cycle that returns 0 has run the apply step
    first, to success, and then exactly these calls in this order: acquire
    the reference view, analyze, release it; acquire the capture view,
    release it, process; acquire the output view, commit it.  Each release
    or commit carries the length of its acquire.  That length is the frame
    count times the frame size of the stream for the two reads; the output
    view is acquired and committed with the byte count of the capture
    stream. *)
Theorem process_cycle_calls (cd : comp_data) sources sinks t cd' sinks' :
  google_rtc_audio_processing_process cd sources sinks
  = (t, Ok (0, cd', sinks')) ->
  exists t0 cd0 ref_stream src_stream,
    reconfigure_if_pending cd = (t0, Ok (0, cd0)) /\
    pin sources (aec_reference_source cd0) = Ok ref_stream /\
    pin sources (raw_microphone_source cd0) = Ok src_stream /\
    let ref_bytes :=
      size_mul (num_frames cd0) (source_get_frame_bytes ref_stream) in
    let src_bytes :=
      size_mul (num_frames cd0) (source_get_frame_bytes src_stream) in
    t = t0 ++
        [ EvSourceGetData (aec_reference_source cd0) ref_bytes;
          EvAecAnalyzeRender;
          EvSourceReleaseData (aec_reference_source cd0) ref_bytes;
          EvSourceGetData (raw_microphone_source cd0) src_bytes;
          EvSourceReleaseData (raw_microphone_source cd0) src_bytes;
          EvAecProcessCapture;
          EvSinkGetBuffer src_bytes;
          EvSinkCommitBuffer src_bytes ].
Proof.
  unfold google_rtc_audio_processing_process. intros H.
  apply bind_inv in H as (t0 & [ret cd0] & t1 & Happly & H & ->).
  destruct (Z.eqb_spec ret 0) as [->|Hne]; simpl in H.
  - apply process_streams_inv in H
      as (ref_stream & src_stream & Href & Hsrc & -> & _).
    exists t0, cd0, ref_stream, src_stream. repeat split; assumption.
  - injection H as _ E _ _. congruence.
Qed.

End Cycle.

Section PrepareFacts.
Context {aec : AecLibrary} {blob : BlobHandler} {plat : Platform}.

Lemma retained_refl cd : retained cd cd.
Proof. repeat split. Qed.

Lemma retained_trans cd1 cd2 cd3 :
  retained cd1 cd2 -> retained cd2 cd3 -> retained cd1 cd3.
Proof. unfold retained. intuition congruence. Qed.

Lemma lift_bind_ok {A B} (a : A) (k : A -> M B) :
  mbind k (lift (Ok a)) = k a.
Proof. unfold mbind, M_bind, lift. destruct (k a). reflexivity. Qed.

Lemma pin_total {A} (pins : list A) i :
  0 <= i < Z.of_nat (length pins) -> exists p, pin pins i = Ok p.
Proof.
  intros H. unfold pin.
  destruct (Z.ltb_spec i 0); [lia|].
  destruct (lookup_lt_is_Some_2 pins (Z.to_nat i)) as [p ->]; [lia|]. eauto.
Qed.

Lemma prepare_scan_total n : forall i (cd : comp_data) sources a m,
  0 <= i -> i + Z.of_nat n <= Z.of_nat (length sources) ->
  exists cd' sources' a' m',
    prepare_scan n i cd sources a m = Ok (cd', sources', a', m') /\
    length sources' = length sources /\
    retained cd cd' /\
    forall b, Z.of_nat (length sources) <= b ->
      (0 <= aec_reference_source cd < b ->
       0 <= aec_reference_source cd' < b) /\
      (0 <= raw_microphone_source cd < b ->
       0 <= raw_microphone_source cd' < b).
Proof.
  induction n as [|n IH]; intros i cd sources a m Hi Hn.
  - simpl. do 4 eexists. split; [reflexivity|].
    split; [reflexivity|]. split; [apply retained_refl|]. tauto.
  - cbn [prepare_scan].
    destruct (pin_total sources i) as [s ->]; [lia|].
    unfold mbind, result_bind.
    destruct (_ =? _);
      (edestruct IH as (cd' & so' & a' & m' & -> & Hlen & Hret & Hidx);
       [| | do 4 eexists; split; [reflexivity|]; rewrite length_insert in *;
            split; [exact Hlen|]; split;
            [eapply retained_trans; [|exact Hret]; repeat split|];
            intros b Hb; specialize (Hidx b Hb); simpl in Hidx;
            split; intros; apply Hidx; lia ]);
      rewrite ?length_insert; lia.
Qed.

Lemma pin_singleton (k : sof_sink) : pin [k] 0 = Ok k.
Proof. reflexivity. Qed.

Ltac einval :=
  do 3 eexists; split; [reflexivity|]; assumption.

Lemma pin_of_nat {A} (pins : list A) (i : nat) p :
  pins !! i = Some p -> pin pins (Z.of_nat i) = Ok p.
Proof.
  intros H. unfold pin. destruct (Z.ltb_spec (Z.of_nat i) 0); [lia|].
  rewrite Nat2Z.id, H. reflexivity.
Qed.

Lemma pin_inv {A} (pins : list A) i p :
  pin pins i = Ok p -> 0 <= i /\ pins !! Z.to_nat i = Some p.
Proof.
  unfold pin. destruct (Z.ltb_spec i 0); [discriminate|].
  destruct (pins !! Z.to_nat i); [|discriminate].
  intros [= ->]. split; [assumption|reflexivity].
Qed.

Lemma last_with_insert r sources (i j : nat) x s :
  (i < j)%nat ->
  last_with r (<[i := x]> sources) j s -> last_with r sources j s.
Proof.
  intros Hij (Hj & Hr & Hlast).
  rewrite list_lookup_insert_ne in Hj by lia.
  split; [assumption|]. split; [assumption|].
  intros k s' Hk Hs'. apply (Hlast k s' Hk).
  rewrite list_lookup_insert_ne by lia. assumption.
Qed.

Lemma last_with_insert_back r sources (i j : nat) x s :
  (i < j)%nat ->
  last_with r sources j s -> last_with r (<[i := x]> sources) j s.
Proof.
  intros Hij (Hj & Hr & Hlast).
  split; [rewrite list_lookup_insert_ne by lia; assumption|].
  split; [assumption|].
  intros k s' Hk Hs'. apply (Hlast k s' Hk).
  rewrite list_lookup_insert_ne in Hs' by lia. assumption.
Qed.

Lemma none_with_insert r sources (i : nat) x :
  none_with r sources (S i) -> none_with r (<[i := x]> sources) (S i).
Proof.
  intros H k s Hk Hs. apply (H k s Hk).
  rewrite list_lookup_insert_ne in Hs by lia. assumption.
Qed.

Lemma prepare_scan_from n : forall (i : nat) (cd : comp_data) sources a m,
  (i + n = length sources)%nat ->
  exists cd' sources' a' m',
    prepare_scan n (Z.of_nat i) cd sources a m = Ok (cd', sources', a', m') /\
    retained cd cd' /\
    (forall k, sources' !! k
               = if (k <? i)%nat then sources !! k
                 else (fun s => source_set_alignment_constants s 1 1)
                        <$> sources !! k) /\
    (none_with true sources i ->
     aec_reference_source cd' = aec_reference_source cd /\ a' = a) /\
    (forall j s, (i <= j)%nat -> last_with true sources j s ->
     aec_reference_source cd' = Z.of_nat j /\ a' = source_get_channels s) /\
    (none_with false sources i ->
     raw_microphone_source cd' = raw_microphone_source cd /\ m' = m) /\
    (forall j s, (i <= j)%nat -> last_with false sources j s ->
     raw_microphone_source cd' = Z.of_nat j /\ m' = source_get_channels s).
Proof.
  induction n as [|n IH]; intros i cd sources a m Hlen.
  - exists cd, sources, a, m. split; [reflexivity|].
    split; [apply retained_refl|]. split.
    { intros k. destruct (Nat.ltb_spec k i); [reflexivity|].
      rewrite lookup_ge_None_2 by lia. reflexivity. }
    split; [auto|]. split.
    { intros j s Hj (Hs & _). apply lookup_lt_Some in Hs. lia. }
    split; [auto|].
    intros j s Hj (Hs & _). apply lookup_lt_Some in Hs. lia.
  - destruct (lookup_lt_is_Some_2 sources i) as [s Hs]; [lia|].
    cbn [prepare_scan]. rewrite (pin_of_nat _ _ _ Hs).
    cbn [mbind result_bind]. rewrite Nat2Z.id.
    replace (Z.of_nat i + 1) with (Z.of_nat (S i)) by lia.
    set (x := source_set_alignment_constants s 1 1).
    assert (Hlook : forall sources' : list sof_source,
      (forall k, sources' !! k
                 = if (k <? S i)%nat then <[i := x]> sources !! k
                   else (fun s => source_set_alignment_constants s 1 1)
                          <$> <[i := x]> sources !! k) ->
      forall k, sources' !! k
                = if (k <? i)%nat then sources !! k
                  else (fun s => source_set_alignment_constants s 1 1)
                         <$> sources !! k).
    { intros sources' H k. rewrite H.
      destruct (Nat.ltb_spec k (S i)), (Nat.ltb_spec k i); try lia.
      - rewrite list_lookup_insert_ne by lia. reflexivity.
      - assert (k = i) as -> by lia.
        rewrite list_lookup_insert_eq by lia. rewrite Hs. reflexivity.
      - rewrite list_lookup_insert_ne by lia. reflexivity. }
    fold (feeds_back s). destruct (feeds_back s) eqn:Hfb.
    + destruct (IH (S i) (set_aec_reference_source cd (Z.of_nat i))
                  (<[i := x]> sources) (source_get_channels s) m)
        as (cd' & sources' & a' & m' & -> & Hret & Hso & Rn & Rl & Mn & Ml);
        [rewrite length_insert; lia|].
      exists cd', sources', a', m'. split; [reflexivity|].
      split; [eapply retained_trans; [|exact Hret]; repeat split|].
      split; [apply Hlook; assumption|].
      split; [|split; [|split]].
      * intros Hnone. specialize (Hnone i s ltac:(lia) Hs).
        rewrite Hfb in Hnone. discriminate.
      * intros j sj Hj Hl. destruct (decide (j = i)) as [->|Hne].
        -- destruct Hl as (Hsj & _ & Hlast).
           assert (sj = s) as -> by congruence.
           apply Rn. apply none_with_insert.
           intros k s' Hk Hs'. apply (Hlast k s'); [lia|assumption].
        -- apply Rl; [lia|]. apply last_with_insert_back; [lia|assumption].
      * intros Hnone. apply Mn. apply none_with_insert.
        intros k s' Hk. apply Hnone. lia.
      * intros j sj Hj Hl. destruct (decide (j = i)) as [->|Hne].
        -- destruct Hl as (Hsj & Hf & _). congruence.
        -- apply Ml; [lia|]. apply last_with_insert_back; [lia|assumption].
    + destruct (IH (S i) (set_raw_microphone_source cd (Z.of_nat i))
                  (<[i := x]> sources) a (source_get_channels s))
        as (cd' & sources' & a' & m' & -> & Hret & Hso & Rn & Rl & Mn & Ml);
        [rewrite length_insert; lia|].
      exists cd', sources', a', m'. split; [reflexivity|].
      split; [eapply retained_trans; [|exact Hret]; repeat split|].
      split; [apply Hlook; assumption|].
      split; [|split; [|split]].
      * intros Hnone. apply Rn. apply none_with_insert.
        intros k s' Hk. apply Hnone. lia.
      * intros j sj Hj Hl. destruct (decide (j = i)) as [->|Hne].
        -- destruct Hl as (Hsj & Hf & _). congruence.
        -- apply Rl; [lia|]. apply last_with_insert_back; [lia|assumption].
      * intros Hnone. specialize (Hnone i s ltac:(lia) Hs).
        rewrite Hfb in Hnone. discriminate.
      * intros j sj Hj Hl. destruct (decide (j = i)) as [->|Hne].
        -- destruct Hl as (Hsj & _ & Hlast).
           assert (sj = s) as -> by congruence.
           apply Mn. apply none_with_insert.
           intros k s' Hk Hs'. apply (Hlast k s'); [lia|assumption].
        -- apply Ml; [lia|]. apply last_with_insert_back; [lia|assumption].
Qed.

Lemma prepare_scan_all (cd : comp_data) (sources : list sof_source) :
  exists cd' a m,
    prepare_scan (length sources) 0 cd sources 0 0
    = Ok (cd',
          (fun s => source_set_alignment_constants s 1 1) <$> sources,
          a, m) /\
    retained cd cd' /\
    (forall j s, last_with true sources j s ->
       aec_reference_source cd' = Z.of_nat j /\
       a = source_get_channels s) /\
    (forall j s, last_with false sources j s ->
       raw_microphone_source cd' = Z.of_nat j /\
       m = source_get_channels s) /\
    (none_with true sources 0 ->
       aec_reference_source cd' = aec_reference_source cd /\ a = 0) /\
    (none_with false sources 0 ->
       raw_microphone_source cd' = raw_microphone_source cd /\ m = 0).
Proof.
  destruct (prepare_scan_from (length sources) 0 cd sources 0 0)
    as (cd' & sources' & a & m & E & Hret & Hso & Rn & Rl & Mn & Ml);
    [lia|].
  exists cd', a, m.
  assert (sources'
          = (fun s => source_set_alignment_constants s 1 1) <$> sources)
    as <-.
  { apply list_eq. intros k. rewrite Hso, list_lookup_fmap. reflexivity. }
  split; [exact E|]. split; [exact Hret|].
  split; [intros j s; apply Rl; lia|].
  split; [intros j s; apply Ml; lia|].
  split; assumption.
Qed.

Lemma prepare_guarded (cd : comp_data) sources (k : sof_sink) (i j : nat)
    r m :
  length sources = 2%nat ->
  last_with true sources i r -> last_with false sources j m ->
  let ref :=
    ipc4_update_source_format (source_set_alignment_constants r 1 1)
      (config_reference_fmt cd) in
  let mic :=
    ipc4_update_source_format (source_set_alignment_constants m 1 1)
      (base_cfg_audio_fmt cd) in
  let out :=
    sink_set_alignment_constants
      (ipc4_update_sink_format k (base_cfg_audio_fmt cd)) 1 1 in
  let cd1 :=
    set_raw_microphone_source (set_aec_reference_source cd (Z.of_nat i))
      (Z.of_nat j) in
  let sources' :=
    <[j := mic]>
      (<[i := ref]>
         ((fun s => source_set_alignment_constants s 1 1) <$> sources)) in
  (prepare_guards cd r m ref mic out ->
   exists t ret cd',
     google_rtc_audio_processing_reconfigure cd1 = (t, Ok (ret, cd')) /\
     google_rtc_audio_processing_prepare cd sources [k]
     = (t, Ok (ret, cd', sources', [out]))) /\
  (~ prepare_guards cd r m ref mic out ->
   exists sinks',
     google_rtc_audio_processing_prepare cd sources [k]
     = ([], Ok (- EINVAL, cd1, sources', sinks'))).
Proof.
  intros Hlen Hr Hm ref mic out cd1 sources'.
  destruct (prepare_scan_all cd sources)
    as (cd1' & a & mm & E & Hret & Rl & Ml & _).
  destruct (Rl i r Hr) as [Hi ->]. destruct (Ml j m Hm) as [Hj ->].
  assert (cd1' = cd1) as ->.
  { subst cd1. destruct cd1', cd. unfold retained in Hret. cbn in *.
    destruct Hret as (? & ? & ? & ? & ? & ? & ? & ? & ? & ?). subst.
    reflexivity. }
  clear Hi Hj Hret Rl Ml.
  assert (Hne : i <> j).
  { intros ->. destruct Hr as (H1 & F1 & _), Hm as (H2 & F2 & _).
    congruence. }
  destruct Hr as (Hri & _), Hm as (Hmj & _).
  assert (Hi2 : (i < 2)%nat) by (apply lookup_lt_Some in Hri; lia).
  assert (Hj2 : (j < 2)%nat) by (apply lookup_lt_Some in Hmj; lia).
  set (so1 := (fun s => source_set_alignment_constants s 1 1) <$> sources)
    in *.
  assert (L1 : so1 !! i = Some (source_set_alignment_constants r 1 1)).
  { unfold so1. rewrite list_lookup_fmap, Hri. reflexivity. }
  assert (L2 : <[i := ref]> so1 !! j
               = Some (source_set_alignment_constants m 1 1)).
  { rewrite list_lookup_insert_ne by assumption.
    unfold so1. rewrite list_lookup_fmap, Hmj. reflexivity. }
  assert (L3 : sources' !! j = Some mic).
  { unfold sources'. apply list_lookup_insert_eq.
    rewrite length_insert. unfold so1. rewrite length_fmap. lia. }
  assert (L4 : sources' !! i = Some ref).
  { unfold sources'. rewrite list_lookup_insert_ne by congruence.
    apply list_lookup_insert_eq. unfold so1. rewrite length_fmap. lia. }
  unfold google_rtc_audio_processing_prepare.
  unfold GOOGLE_RTC_NUM_INPUT_PINS, GOOGLE_RTC_NUM_OUTPUT_PINS.
  destruct (Z.eqb_spec (Z.of_nat (length sources)) 2) as [_|Hn]; [|lia].
  cbn [negb length Z.of_nat Pos.of_succ_nat Z.eqb Pos.eqb].
  rewrite Nat2Z.id.
  rewrite E, lift_bind_ok.
  cbn [aec_reference_source raw_microphone_source set_raw_microphone_source
       set_aec_reference_source cd1 config_reference_fmt base_cfg_audio_fmt
       num_aec_reference_channels num_capture_channels num_frames].
  unfold cd1.
  cbn [aec_reference_source raw_microphone_source set_raw_microphone_source
       set_aec_reference_source config_reference_fmt base_cfg_audio_fmt
       num_aec_reference_channels num_capture_channels num_frames].
  rewrite (pin_of_nat _ _ _ L1), lift_bind_ok, !Nat2Z.id.
  fold ref. rewrite (pin_of_nat _ _ _ L2), lift_bind_ok. fold mic.
  fold sources'.
  rewrite pin_singleton, lift_bind_ok.
  fold cd1.
  unfold prepare_guards.
  destruct (Z.gtb_spec (to_u32 (num_aec_reference_channels cd))
              (to_u32 (source_get_channels r))) as [G1|G1].
  { split; [intros (G & _); lia|]. intros _. eexists. reflexivity. }
  change (pin (<[0%nat:=ipc4_update_sink_format k (base_cfg_audio_fmt cd)]>
                 [k]) 0)
    with (Ok (ipc4_update_sink_format k (base_cfg_audio_fmt cd))).
  rewrite lift_bind_ok. fold out.
  change (<[0%nat:=out]>
            (<[0%nat:=ipc4_update_sink_format k (base_cfg_audio_fmt cd)]> [k]))
    with [out].
  destruct (Z.gtb_spec (num_capture_channels cd) (source_get_channels m))
    as [G2|G2].
  { split; [intros (_ & G & _); lia|]. intros _. eexists. reflexivity. }
  destruct (Z.gtb_spec (num_capture_channels cd) (sink_get_channels out))
    as [G3|G3].
  { split; [intros (_ & _ & G & _); lia|]. intros _. eexists. reflexivity. }
  destruct (frame_fmt_supported (sink_get_frm_fmt out)) eqn:G4; cbn [negb].
  2:{ split; [intros (_ & _ & _ & G & _); discriminate|].
      intros _. eexists. reflexivity. }
  destruct (Z.eqb_spec (sink_get_rate out)
              CONFIG_COMP_GOOGLE_RTC_AUDIO_PROCESSING_SAMPLE_RATE_HZ)
    as [G5|G5]; cbn [negb].
  2:{ split; [intros (_ & _ & _ & _ & G & _); contradiction|].
      intros _. eexists. reflexivity. }
  rewrite (pin_of_nat _ _ _ L3), lift_bind_ok.
  rewrite (pin_of_nat _ _ _ L4), lift_bind_ok.
  destruct (Z.eqb_spec (size_mul (num_frames cd) (source_get_frame_bytes mic))
              (source_get_min_available mic)) as [G6|G6]; cbn [negb].
  2:{ split; [intros (_ & _ & _ & _ & _ & G & _); contradiction|].
      intros _. eexists. reflexivity. }
  destruct (Z.eqb_spec (size_mul (num_frames cd) (sink_get_frame_bytes out))
              (sink_get_min_free_space out)) as [G7|G7]; cbn [negb].
  2:{ split; [intros (_ & _ & _ & _ & _ & _ & G & _); contradiction|].
      intros _. eexists. reflexivity. }
  destruct (Z.eqb_spec (size_mul (num_frames cd) (source_get_frame_bytes ref))
              (source_get_min_available ref)) as [G8|G8]; cbn [negb].
  2:{ split; [intros (_ & _ & _ & _ & _ & _ & _ & G); contradiction|].
      intros _. eexists. reflexivity. }
  split.
  - intros _. destruct (reconfigure_total cd1) as (t & ret & cd' & E').
    exists t, ret, cd'. split; [assumption|]. rewrite E'.
    unfold mbind, M_bind, mret, M_ret. rewrite app_nil_r. reflexivity.
  - intros NG. exfalso. apply NG. repeat split; assumption || lia.
Qed.

(** C5, as the code has it.  With [k] the only sink and [k'] that sink
    after the base format has been pushed onto it: prepare returns 0 only if
    the rate of [k'] is the configured rate and its frame format is S16_LE
    with S16_LE enabled; and when the rate does not match or the format is
    not supported, prepare returns -EINVAL, makes no call, and retains the
    component data apart from the two source indices.  Matching rate and
    format do not suffice.  With other than two sources or other than one
    sink prepare returns -EINVAL and touches nothing.  With two sources, one
    on the feedback queue and one off it, prepare stores their indices,
    sets the alignment constants and pushes the formats; it then returns
    -EINVAL, having made no call, unless all its guards hold (enough
    channels on the three pins, supported format, configured rate, IBS/OBS
    sizes), and when they hold it runs the reconfigure step and returns its
    status, with the component data as that step leaves it. *)
Theorem prepare_format_check (cd : comp_data) sources (k : sof_sink) :
  0 <= aec_reference_source cd < 2 ->
  0 <= raw_microphone_source cd < 2 ->
  let k' := ipc4_update_sink_format k (base_cfg_audio_fmt cd) in
  (forall t cd' sources' sinks',
     google_rtc_audio_processing_prepare cd sources [k]
     = (t, Ok (0, cd', sources', sinks')) ->
     sink_get_rate k' = CONFIG_COMP_GOOGLE_RTC_AUDIO_PROCESSING_SAMPLE_RATE_HZ
     /\ sink_get_frm_fmt k' = SOF_IPC_FRAME_S16_LE
     /\ CONFIG_FORMAT_S16LE = true) /\
  (sink_get_rate k' <> CONFIG_COMP_GOOGLE_RTC_AUDIO_PROCESSING_SAMPLE_RATE_HZ
   \/ frame_fmt_supported (sink_get_frm_fmt k') = false ->
   exists cd' sources' sinks',
     google_rtc_audio_processing_prepare cd sources [k]
     = ([], Ok (- EINVAL, cd', sources', sinks')) /\
     retained cd cd') /\
  (forall sinks,
     length sources <> 2%nat \/ length sinks <> 1%nat ->
     google_rtc_audio_processing_prepare cd sources sinks
     = ([], Ok (- EINVAL, cd, sources, sinks))) /\
  (forall (i j : nat) r m,
     length sources = 2%nat ->
     last_with true sources i r -> last_with false sources j m ->
     let ref :=
       ipc4_update_source_format (source_set_alignment_constants r 1 1)
         (config_reference_fmt cd) in
     let mic :=
       ipc4_update_source_format (source_set_alignment_constants m 1 1)
         (base_cfg_audio_fmt cd) in
     let out := sink_set_alignment_constants k' 1 1 in
     let cd1 :=
       set_raw_microphone_source (set_aec_reference_source cd (Z.of_nat i))
         (Z.of_nat j) in
     let sources' :=
       <[j := mic]>
         (<[i := ref]>
            ((fun s => source_set_alignment_constants s 1 1) <$> sources)) in
     (prepare_guards cd r m ref mic out ->
      exists t ret cd',
        google_rtc_audio_processing_reconfigure cd1 = (t, Ok (ret, cd')) /\
        google_rtc_audio_processing_prepare cd sources [k]
        = (t, Ok (ret, cd', sources', [out]))) /\
     (~ prepare_guards cd r m ref mic out ->
      exists sinks',
        google_rtc_audio_processing_prepare cd sources [k]
        = ([], Ok (- EINVAL, cd1, sources', sinks')))).
Proof.
  intros Href Hmic k'. split; [|split; [|split]].
  - (* success passes the two checks *)
    intros t cd' sources' sinks'.
    unfold google_rtc_audio_processing_prepare.
    destruct (Z.eqb_spec (Z.of_nat (length sources)) GOOGLE_RTC_NUM_INPUT_PINS)
      as [Hlen|_]; [|intros [=]].
    cbn [negb].
    destruct (negb (_ =? GOOGLE_RTC_NUM_OUTPUT_PINS)); [intros [=]|].
    intros H.
    apply bind_lift_inv in H as ([[[cd1 so1] a1] m1] & Hscan & H).
    destruct (prepare_scan_total (Z.to_nat (Z.of_nat (length sources))) 0
                cd sources 0 0) as (? & ? & ? & ? & E & _ & Hret & _);
      [lia|lia|].
    rewrite E in Hscan. injection Hscan as -> -> -> ->.
    apply bind_lift_inv in H as (ref & _ & H).
    apply bind_lift_inv in H as (mic & _ & H).
    rewrite pin_singleton, lift_bind_ok in H.
    destruct (_ >? _); [discriminate H|].
    change (pin (<[0%nat:=ipc4_update_sink_format k (base_cfg_audio_fmt cd1)]> [k]) 0)
      with (Ok (ipc4_update_sink_format k (base_cfg_audio_fmt cd1))) in H.
    rewrite lift_bind_ok in H. cbn [sink_set_alignment_constants
      sink_get_frm_fmt sink_get_rate sink_get_channels] in H.
    destruct (_ >? m1); [discriminate H|].
    destruct (_ >? _); [discriminate H|].
    destruct (frame_fmt_supported _) eqn:Hfmt; [|discriminate H].
    destruct (Z.eqb_spec
                (sink_get_rate
                   (ipc4_update_sink_format k (base_cfg_audio_fmt cd1)))
                CONFIG_COMP_GOOGLE_RTC_AUDIO_PROCESSING_SAMPLE_RATE_HZ)
      as [Hrate|_]; [|discriminate H].
    clear H. subst k'.
    destruct Hret as (_ & <- & _).
    unfold frame_fmt_supported in Hfmt.
    apply andb_true_iff in Hfmt as [Hcfg Hfmt].
    apply Z.eqb_eq in Hfmt. auto.
  - (* a failed check returns -EINVAL and retains the instance *)
    intros Hbad.
    unfold google_rtc_audio_processing_prepare.
    destruct (Z.eqb_spec (Z.of_nat (length sources)) GOOGLE_RTC_NUM_INPUT_PINS)
      as [Hlen|_]; cbn [negb];
      [|do 3 eexists; split; [reflexivity|apply retained_refl]].
    change (negb (Z.of_nat (length [k]) =? GOOGLE_RTC_NUM_OUTPUT_PINS))
      with false. cbv iota.
    destruct (prepare_scan_total (Z.to_nat (Z.of_nat (length sources))) 0
                cd sources 0 0) as (cd1 & so1 & a1 & m1 & -> & Hl & Hret & Hidx);
      [lia|lia|].
    rewrite lift_bind_ok.
    unfold GOOGLE_RTC_NUM_INPUT_PINS in Hlen.
    destruct (Hidx 2 ltac:(lia)) as [Ha Hm].
    specialize (Ha Href). specialize (Hm Hmic).
    destruct (pin_total so1 (aec_reference_source cd1)) as [ref ->]; [lia|].
    rewrite lift_bind_ok.
    match goal with
    | |- context [pin ?l (raw_microphone_source cd1)] =>
        destruct (pin_total l (raw_microphone_source cd1)) as [mic ->];
        [rewrite length_insert; lia|]
    end.
    rewrite lift_bind_ok, pin_singleton, lift_bind_ok.
    destruct (_ >? _); [einval|].
    change (pin (<[0%nat:=ipc4_update_sink_format k (base_cfg_audio_fmt cd1)]> [k]) 0)
      with (Ok (ipc4_update_sink_format k (base_cfg_audio_fmt cd1))).
    rewrite lift_bind_ok. cbn [sink_set_alignment_constants
      sink_get_frm_fmt sink_get_rate sink_get_channels].
    destruct (_ >? m1); [einval|].
    destruct (_ >? _); [einval|].
    assert (Hk : ipc4_update_sink_format k (base_cfg_audio_fmt cd1) = k').
    { subst k'. destruct Hret as (_ & -> & _). reflexivity. }
    rewrite Hk.
    destruct (frame_fmt_supported _) eqn:Hfmt; cbn [negb]; [|einval].
    destruct (Z.eqb_spec (sink_get_rate k')
                CONFIG_COMP_GOOGLE_RTC_AUDIO_PROCESSING_SAMPLE_RATE_HZ)
      as [Hrate|_]; cbn [negb]; [|einval].
    destruct Hbad; congruence.
  - (* the pin counts come first *)
    intros sinks H. unfold google_rtc_audio_processing_prepare.
    unfold GOOGLE_RTC_NUM_INPUT_PINS, GOOGLE_RTC_NUM_OUTPUT_PINS.
    destruct (Z.eqb_spec (Z.of_nat (length sources)) 2) as [Hs|Hs];
      cbn [negb]; [|reflexivity].
    destruct (Z.eqb_spec (Z.of_nat (length sinks)) 1) as [Hk|Hk];
      cbn [negb]; [|reflexivity].
    lia.
  - (* the guards decide between -EINVAL and the reconfigure step *)
    intros i j r m Hlen Hr Hm. apply prepare_guarded; assumption.
Qed.

End PrepareFacts.

Section LoopFacts.

Lemma load_ok (a : list Z) i :
  0 <= i < Z.of_nat (length a) -> exists x, a !! Z.to_nat i = Some x /\ load a i = Ok x.
Proof.
  intros H. unfold load. destruct (Z.ltb_spec i 0); [lia|].
  destruct (lookup_lt_is_Some_2 a (Z.to_nat i)) as [x E]; [lia|].
  rewrite E. eauto.
Qed.

Lemma store_ok (a : list Z) i x :
  0 <= i < Z.of_nat (length a) -> store a i x = Ok (<[Z.to_nat i := x]> a).
Proof.
  intros H. unfold store.
  destruct (Z.ltb_spec i 0); [lia|]. destruct (Z.leb_spec (Z.of_nat (length a)) i); [lia|].
  reflexivity.
Qed.

Lemma scratch_store_ok (b : list Z) F c i x :
  0 <= c * F + i < Z.of_nat (length b) ->
  scratch_store b F c i x = Ok (<[Z.to_nat (c * F + i) := x]> b).
Proof.
  intros H. unfold scratch_store. cbv zeta.
  destruct (Z.ltb_spec (c * F + i) 0); [lia|].
  destruct (Z.leb_spec (Z.of_nat (length b)) (c * F + i)); [lia|]. reflexivity.
Qed.

Lemma scratch_load_ok (b : list Z) F c i :
  0 <= c * F + i < Z.of_nat (length b) ->
  exists x, b !! Z.to_nat (c * F + i) = Some x /\ scratch_load b F c i = Ok x.
Proof.
  intros H. unfold scratch_load. cbv zeta.
  destruct (Z.ltb_spec (c * F + i) 0); [lia|].
  destruct (lookup_lt_is_Some_2 b (Z.to_nat (c * F + i))) as [x E]; [lia|].
  rewrite E. eauto.
Qed.

(** One frame of the read loop: it reads the cells [cur + c] and fills the
    scratch cells [c * F + i], for the channels [c] it runs over. *)
Lemma deinterlace_frame_spec n : forall channel region cur buffer F i,
  0 <= channel -> 0 <= cur ->
  cur + channel + Z.of_nat n <= Z.of_nat (length region) ->
  0 <= i < F -> (channel + Z.of_nat n) * F <= Z.of_nat (length buffer) ->
  exists buffer',
    deinterlace_frame n channel region cur buffer F i = Ok buffer' /\
    length buffer' = length buffer /\
    (forall c, channel <= c < channel + Z.of_nat n ->
       exists x, region !! Z.to_nat (cur + c) = Some x /\
                 buffer' !! Z.to_nat (c * F + i) = Some (to_int16 x)) /\
    (forall k, (forall c, channel <= c < channel + Z.of_nat n ->
                  k <> Z.to_nat (c * F + i)) ->
       buffer' !! k = buffer !! k).
Proof.
  induction n as [|n IH]; intros channel region cur buffer F i Hc Hcur Hreg Hi Hbuf.
  - exists buffer. split; [reflexivity|]. split; [reflexivity|].
    split; [intros; lia|reflexivity].
  - cbn [deinterlace_frame].
    destruct (load_ok region (cur + channel)) as (x & Hx & ->); [lia|].
    unfold mbind at 1, result_bind at 1.
    assert (Hk : 0 <= channel * F + i < Z.of_nat (length buffer)) by nia.
    rewrite scratch_store_ok by assumption.
    unfold mbind at 1, result_bind at 1.
    destruct (IH (channel + 1) region cur
                (<[Z.to_nat (channel * F + i) :=
                     convert_int16_to_google_aec_format (to_int16 x)]> buffer)
                F i) as (b' & -> & Hlen & Hfill & Hkeep);
      try rewrite length_insert; try lia.
    exists b'. split; [reflexivity|]. rewrite length_insert in Hlen.
    split; [assumption|]. split.
    + intros c Hcr. destruct (Z.eq_dec c channel) as [->|Hne].
      * exists x. split; [assumption|].
        rewrite Hkeep.
        -- apply list_lookup_insert_eq. lia.
        -- intros c' Hc'. assert (channel * F + i < c' * F + i) by nia. lia.
      * apply Hfill. lia.
    + intros k Hkne. rewrite Hkeep.
      * apply list_lookup_insert_ne. intros E. apply (Hkne channel); [lia|].
        symmetry. exact E.
      * intros c Hcr. apply Hkne. lia.
Qed.

(** One frame of the write loop: it reads the scratch cells [c * F + i] and
    fills the cells [cur + c]. *)
Lemma interlace_frame_spec n : forall channel region cur buffer F i,
  0 <= channel -> 0 <= cur ->
  cur + channel + Z.of_nat n <= Z.of_nat (length region) ->
  0 <= i < F -> (channel + Z.of_nat n) * F <= Z.of_nat (length buffer) ->
  exists region',
    interlace_frame n channel region cur buffer F i = Ok region' /\
    length region' = length region /\
    (forall c, channel <= c < channel + Z.of_nat n ->
       exists x, buffer !! Z.to_nat (c * F + i) = Some x /\
                 region' !! Z.to_nat (cur + c) = Some (to_uint16 x)) /\
    (forall k, (forall c, channel <= c < channel + Z.of_nat n ->
                  k <> Z.to_nat (cur + c)) ->
       region' !! k = region !! k).
Proof.
  induction n as [|n IH]; intros channel region cur buffer F i Hc Hcur Hreg Hi Hbuf.
  - exists region. split; [reflexivity|]. split; [reflexivity|].
    split; [intros; lia|reflexivity].
  - cbn [interlace_frame].
    assert (Hk : 0 <= channel * F + i < Z.of_nat (length buffer)) by nia.
    destruct (scratch_load_ok buffer F channel i Hk) as (x & Hx & ->).
    unfold mbind at 1, result_bind at 1.
    rewrite store_ok by lia.
    unfold mbind at 1, result_bind at 1.
    destruct (IH (channel + 1)
                (<[Z.to_nat (cur + channel) :=
                     to_uint16 (convert_google_aec_format_to_int16 x)]> region)
                cur buffer F i) as (r' & -> & Hlen & Hfill & Hkeep);
      try rewrite length_insert; try lia.
    exists r'. split; [reflexivity|]. rewrite length_insert in Hlen.
    split; [assumption|]. split.
    + intros c Hcr. destruct (Z.eq_dec c channel) as [->|Hne].
      * exists x. split; [assumption|].
        rewrite Hkeep.
        -- apply list_lookup_insert_eq. lia.
        -- intros c' Hc'. lia.
      * apply Hfill. lia.
    + intros k Hkne. rewrite Hkeep.
      * apply list_lookup_insert_ne. intros E. apply (Hkne channel); [lia|].
        symmetry. exact E.
      * intros c Hcr. apply Hkne. lia.
Qed.




Lemma scratch_index_inj F c i c' j :
  0 <= i < F -> 0 <= j < F -> c * F + i = c' * F + j -> c = c' /\ i = j.
Proof. intros Hi Hj E. assert (c = c') by nia. subst. lia. Qed.

(** The read loop over a stretch that holds all its frames: frame [j]
    comes from the cells [cur + (j - i) * C ..] and lands in the scratch
    cells [c * F + j]. *)
Lemma deinterlace_linear n : forall i C region cur buffer F,
  0 <= C -> 0 <= cur -> cur + Z.of_nat n * C <= Z.of_nat (length region) ->
  0 <= i -> i + Z.of_nat n <= F -> C * F <= Z.of_nat (length buffer) ->
  exists buffer' cur',
    deinterlace n i C region cur buffer F = Ok (buffer', cur') /\
    length buffer' = length buffer /\
    (forall c j, 0 <= c < C -> i <= j < i + Z.of_nat n ->
       exists x, region !! Z.to_nat (cur + (j - i) * C + c) = Some x /\
                 buffer' !! Z.to_nat (c * F + j) = Some (to_int16 x)) /\
    (forall k, (forall c j, 0 <= c < C -> i <= j < i + Z.of_nat n ->
                  k <> Z.to_nat (c * F + j)) ->
       buffer' !! k = buffer !! k).
Proof.
  induction n as [|n IH]; intros i C region cur buffer F HC Hcur Hreg Hi Hn Hbuf.
  - exists buffer, cur. split; [reflexivity|]. split; [reflexivity|].
    split; [intros; lia|reflexivity].
  - cbn [deinterlace].
    destruct (deinterlace_frame_spec (Z.to_nat C) 0 region cur buffer F i)
      as (b1 & -> & Hlen1 & Hfill1 & Hkeep1); try lia; try nia.
    unfold mbind at 1, result_bind at 1.
    set (cur1 := if 2 * (cur + C) >=? 2 * Z.of_nat (length region) then 0 else cur + C).
    assert (Hcur1 : cur1 = cur + C \/ (cur1 = 0 /\ Z.of_nat n * C <= 0)).
    { subst cur1. destruct (Z.geb_spec (2 * (cur + C)) (2 * Z.of_nat (length region)));
        [right; split; [reflexivity|nia]|left; reflexivity]. }
    destruct (IH (i + 1) C region cur1 b1 F)
      as (b' & c' & -> & Hlen & Hfill & Hkeep); try lia.
    all: try (destruct Hcur1 as [->|[-> ?]]; nia).
    exists b', c'. split; [reflexivity|]. split; [congruence|]. split.
    + intros c j Hc Hj. destruct (Z.eq_dec j i) as [->|Hne].
      * destruct (Hfill1 c) as (x & Hx & Hb1); [lia|].
        exists x. split; [replace (cur + (i - i) * C + c) with (cur + c) by lia;
                          assumption|].
        rewrite Hkeep; [assumption|].
        intros c2 j2 Hc2 Hj2 E.
        assert (c * F + i = c2 * F + j2) by nia.
        destruct (scratch_index_inj F c i c2 j2); lia.
      * destruct (Hfill c j) as (x & Hx & Hb); [lia|lia|].
        exists x. split; [|assumption].
        destruct Hcur1 as [E|[E Hz]].
        -- rewrite E in Hx.
           replace (cur + (j - i) * C + c)
             with (cur + C + (j - (i + 1)) * C + c) by lia.
           assumption.
        -- assert (0 < Z.of_nat n) by lia. nia.
    + intros k Hk. rewrite Hkeep.
      * apply Hkeep1. intros c Hc. apply Hk; lia.
      * intros c j Hc Hj. apply Hk; lia.
Qed.

(** The write loop over a stretch that takes all its frames. *)
Lemma interlace_linear n : forall i C region cur buffer F,
  0 <= C -> 0 <= cur -> cur + Z.of_nat n * C <= Z.of_nat (length region) ->
  0 <= i -> i + Z.of_nat n <= F -> C * F <= Z.of_nat (length buffer) ->
  exists region' cur',
    interlace n i C region cur buffer F = Ok (region', cur') /\
    length region' = length region /\
    (forall c j, 0 <= c < C -> i <= j < i + Z.of_nat n ->
       exists x, buffer !! Z.to_nat (c * F + j) = Some x /\
                 region' !! Z.to_nat (cur + (j - i) * C + c)
                 = Some (to_uint16 x)) /\
    (forall k, (forall c j, 0 <= c < C -> i <= j < i + Z.of_nat n ->
                  k <> Z.to_nat (cur + (j - i) * C + c)) ->
       region' !! k = region !! k).
Proof.
  induction n as [|n IH]; intros i C region cur buffer F HC Hcur Hreg Hi Hn Hbuf.
  - exists region, cur. split; [reflexivity|]. split; [reflexivity|].
    split; [intros; lia|reflexivity].
  - cbn [interlace].
    destruct (interlace_frame_spec (Z.to_nat C) 0 region cur buffer F i)
      as (r1 & -> & Hlen1 & Hfill1 & Hkeep1); try lia; try nia.
    unfold mbind at 1, result_bind at 1.
    set (cur1 := if 2 * (cur + C) >=? 2 * Z.of_nat (length region) then 0 else cur + C).
    assert (Hcur1 : cur1 = cur + C \/ (cur1 = 0 /\ Z.of_nat n * C <= 0)).
    { subst cur1. destruct (Z.geb_spec (2 * (cur + C)) (2 * Z.of_nat (length region)));
        [right; split; [reflexivity|nia]|left; reflexivity]. }
    destruct (IH (i + 1) C r1 cur1 buffer F)
      as (r' & c' & -> & Hlen & Hfill & Hkeep); try lia.
    all: try (rewrite ?Hlen1; destruct Hcur1 as [->|[-> ?]]; nia).
    exists r', c'. split; [reflexivity|]. split; [congruence|]. split.
    + intros c j Hc Hj. destruct (Z.eq_dec j i) as [->|Hne].
      * destruct (Hfill1 c) as (x & Hx & Hr1); [lia|].
        exists x. split; [assumption|].
        replace (cur + (i - i) * C + c) with (cur + c) by lia.
        rewrite Hkeep; [assumption|].
        intros c2 j2 Hc2 Hj2 E.
        destruct Hcur1 as [E1|[E1 Hz]].
        -- rewrite E1 in E. nia.
        -- assert (0 < Z.of_nat n) by lia. nia.
      * destruct (Hfill c j) as (x & Hx & Hr); [lia|lia|].
        exists x. split; [assumption|].
        destruct Hcur1 as [E|[E Hz]].
        -- rewrite E in Hr.
           replace (cur + (j - i) * C + c)
             with (cur + C + (j - (i + 1)) * C + c) by lia.
           assumption.
        -- assert (0 < Z.of_nat n) by lia. nia.
    + intros k Hk. rewrite Hkeep.
      * apply Hkeep1. intros c Hc E. apply (Hk c i); [lia|lia|].
        rewrite E. f_equal. lia.
      * intros c j Hc Hj E. destruct Hcur1 as [E1|[E1 Hz]].
        -- apply (Hk c j); [lia|lia|]. rewrite E, E1. f_equal. lia.
        -- assert (0 < Z.of_nat n) by lia. nia.
Qed.

End LoopFacts.

Section Regions.
Context {aec : AecLibrary} {blob : BlobHandler} {plat : Platform}.

Lemma to_uint16_to_int16 x : 0 <= x < 2 ^ 16 -> to_uint16 (to_int16 x) = x.
Proof.
  intros H. unfold to_uint16, to_int16.
  rewrite Zminus_mod_idemp_l.
  replace (x + 2 ^ 15 - 2 ^ 15) with x by lia.
  apply Z.mod_small. assumption.
Qed.

Lemma conversions_roundtrip x :
  0 <= x < 2 ^ 16 ->
  to_uint16 (convert_google_aec_format_to_int16
               (convert_int16_to_google_aec_format (to_int16 x))) = x.
Proof. apply to_uint16_to_int16. Qed.

(** C7.  For [F] frames of [C] channels in the int16 build, the read loop
    applied to the interleaved samples fills the per-channel scratch arrays,
    and the write loop applied to that scratch reproduces the samples,
    cell for cell, in a region of the same size. *)
Theorem deinterlace_interlace_roundtrip (F C : Z)
    (samples scratch out : list Z) :
  0 <= F -> 0 <= C ->
  Z.of_nat (length samples) = F * C -> Z.of_nat (length out) = F * C -> C * F <= Z.of_nat (length scratch) ->
  Forall (fun x => 0 <= x < 2 ^ 16) samples ->
  exists scratch' cur cur',
    deinterlace (Z.to_nat F) 0 C samples 0 scratch F = Ok (scratch', cur) /\
    interlace (Z.to_nat F) 0 C out 0 scratch' F = Ok (samples, cur').
Proof.
  intros HF HC Hs Ho Hb Hrange.
  assert (Hn : Z.of_nat (Z.to_nat F) = F) by lia.
  destruct (deinterlace_linear (Z.to_nat F) 0 C samples 0 scratch F)
    as (scratch' & cur & Hd & Hlen & Hfill & _);
    rewrite ?Hn; try lia.
  destruct (interlace_linear (Z.to_nat F) 0 C out 0 scratch' F)
    as (out' & cur' & Hi & Hlen' & Hfill' & _);
    rewrite ?Hn; try lia.
  rewrite Hn in Hfill, Hfill'.
  exists scratch', cur, cur'. split; [assumption|].
  rewrite Hi. do 2 f_equal.
  apply (list_eq_same_length _ _ (length samples)); [reflexivity|lia|].
  intros k x y Hk Hx Hy.
  assert (HCpos : 0 < C) by nia.
  set (j := Z.of_nat k / C). set (c := Z.of_nat k mod C).
  assert (Hkd : Z.of_nat k = j * C + c).
  { subst j c. rewrite Z.mul_comm. apply Z.div_mod. lia. }
  assert (Hcr : 0 <= c < C) by (apply Z.mod_pos_bound; lia).
  assert (Hjr : 0 <= j < F).
  { split; [apply Z.div_pos; lia|]. apply Z.div_lt_upper_bound; nia. }
  destruct (Hfill c j) as (v & Hv & Hsv); [lia|lia|].
  destruct (Hfill' c j) as (w & Hw & Hout); [lia|lia|].
  replace (Z.to_nat (0 + (j - 0) * C + c)) with k in * by lia.
  rewrite Hsv in Hw. injection Hw as <-.
  rewrite Hx in Hout. injection Hout as ->.
  rewrite Hy in Hv. injection Hv as ->.
  apply to_uint16_to_int16.
  exact (Forall_lookup_1 _ _ _ _ Hrange Hy).
Qed.




Lemma size_div_ok a b :
  to_u32 b <> 0 -> size_div a b = Ok (to_u32 a / to_u32 b).
Proof.
  intros H. unfold size_div. apply Z.eqb_neq in H. rewrite H. reflexivity.
Qed.


End Regions.

(* ===================================================================== *)
(** ** The properties on concrete inputs *)
(* ===================================================================== *)

(** [ceil_divide(10, 3)], the example of the header comment. *)
Lemma ceil_divide_is_ceiling_witness :
  ceil_divide 10 3 = ceiling 10 3 /\
  (signs_differ 10 3 -> ceil_divide 10 3 = Z.quot 10 3) /\
  (~ signs_differ 10 3 ->
     ((3 | 10) -> ceil_divide 10 3 = Z.quot 10 3) /\
     (~ (3 | 10) -> ceil_divide 10 3 = Z.quot 10 3 + 1)).
Proof.
  apply (ceil_divide_is_ceiling 10 3);
    unfold in_int, INT_MIN, INT_MAX;
    try change (Z.quot 10 3) with 3; lia.
Defined.

(** C1.  A blob that carries the input channel count 1 and no output
    channel count, given to a component with 2 capture channels:
    reconfigure succeeds and stores the value of the output-count variable,
    0 here, not the count that is present. *)
Lemma reconfigure_input_only_takes_output_variable :
  let cd := Stub.cd_init Stub.s16_48k 4 2 (Stub.arrived [2; 1; 0; 0; 0]) in
  let msg := Stub.parse [2; 1; 0; 0; 0] 5 in
  num_capture_input_channels_present msg = true /\
  num_capture_output_channels_present msg = false /\
  num_capture_input_channels msg = 1 /\
  match google_rtc_audio_processing_reconfigure cd with
  | (t, Ok (ret, cd')) =>
      t = [EvGetDataBlob; EvAecSetStreamFormats 48000 0 0 48000 2] /\
      ret = 0 /\ num_capture_channels cd' = 0
  | (_, Fault _) => False
  end.
Proof. vm_compute. repeat split. Qed.

(** The mismatching blob [7; 1; 2; 0; 0; 9]: tuning payload [9], input
    count 1, output count 2. *)
Lemma reconfigure_channel_mismatch_witness :
  let cd := Stub.cd_init Stub.s16_48k 4 2 (Stub.arrived [7; 1; 2; 0; 0; 9]) in
  exists t cd',
    google_rtc_audio_processing_reconfigure cd = (t, Ok (- EINVAL, cd')) /\
    num_capture_channels cd' = num_capture_channels cd /\
    (forall e, In e t ->
       e = EvGetDataBlob \/ e = EvAecReconfigure [9] 1) /\
    state cd' = snd (GoogleRtcAudioProcessingReconfigure (state cd) [9] 1).
Proof.
  apply (reconfigure_channel_mismatch
           (Stub.cd_init Stub.s16_48k 4 2 (Stub.arrived [7; 1; 2; 0; 0; 9]))
           [7; 1; 2; 0; 0; 9] 6
           {| Stub.data := Some [7; 1; 2; 0; 0; 9]; Stub.data_new := None |});
    try (vm_compute; reflexivity).
  - vm_compute. discriminate.
  - vm_compute. discriminate.
  - right. vm_compute. reflexivity.
Defined.

(** C2 fails on that blob: reconfigure returns -EINVAL for the unequal
    channel counts, and the library has already taken the tuning
    payload. *)
Lemma channel_mismatch_after_tuning :
  let cd := Stub.cd_init Stub.s16_48k 4 2 (Stub.arrived [7; 1; 2; 0; 0; 9]) in
  match google_rtc_audio_processing_reconfigure cd with
  | (_, Ok (ret, cd')) =>
      ret = - EINVAL /\
      Stub.tuning (state cd) = [] /\ Stub.tuning (state cd') = [9] /\
      state cd' <> state cd
  | (_, Fault _) => False
  end.
Proof. vm_compute. repeat split. discriminate. Qed.

(** C3 fails when a blob is pending: set_config stores the blob
    [6; 1; 1; 0; 0] (input and output count 1) and raises the flag; reset
    returns 0 and the flag is still raised; the next cycle fetches the blob
    and applies it. *)
Lemma reset_leaves_blob_pending :
  let cd0 :=
    set_reconfigure (Stub.cd_bound Stub.s16_48k 2 2 Stub.no_blob) false in
  let sources :=
    [Stub.source 0 2 2 [11; 12; 13; 14] 0; Stub.source 1 2 2 [1; 2; 3; 4] 0] in
  let sinks := [Stub.sink 0 48000 2 2 [0; 0; 0; 0] 0] in
  match google_rtc_audio_processing_set_config cd0 202 0 0 [6; 1; 1; 0; 0] with
  | (_, Ok (ret1, cd1)) =>
      let '(ret2, cd2) := google_rtc_audio_processing_reset cd1 in
      ret1 = 0 /\ ret2 = 0 /\
      reconfigure cd2 = true /\ num_capture_channels cd2 = 2 /\
      match google_rtc_audio_processing_process cd2 sources sinks with
      | (t, Ok (ret3, cd3, _)) =>
          ret3 = 0 /\
          t = [ EvGetDataBlob; EvAecSetStreamFormats 48000 1 1 48000 2;
                EvSourceGetData 0 8; EvAecAnalyzeRender;
                EvSourceReleaseData 0 8; EvSourceGetData 1 8;
                EvSourceReleaseData 1 8; EvAecProcessCapture;
                EvSinkGetBuffer 8; EvSinkCommitBuffer 8 ] /\
          num_capture_channels cd3 = 1
      | (_, Fault _) => False
      end
  | (_, Fault _) => False
  end.
Proof. vm_compute. repeat split. Qed.



(** prepare with a base format of 44100 Hz, which the sink takes over and
    the rate check (configured rate 48000 Hz) rejects; and prepare with a
    base format of 48000 Hz on the same pins, a feedback source and a
    microphone source of 2 channels each holding 4 frames: all guards hold,
    and prepare returns what the reconfigure step returns. *)
Lemma prepare_format_check_witness :
  let r := Stub.source 0 2 4 [11; 12; 13; 14; 15; 16; 17; 18] 0 in
  let m := Stub.source 1 2 4 [1; 2; 3; 4; 5; 6; 7; 8] 0 in
  let sources := [r; m] in
  let k := Stub.sink 0 48000 2 4 [0; 0; 0; 0; 0; 0; 0; 0] 0 in
  let good := Stub.cd_init Stub.s16_48k 4 2 Stub.no_blob in
  (exists cd' sources' sinks',
     google_rtc_audio_processing_prepare
       (Stub.cd_init Stub.s16_44k1 4 2 Stub.no_blob) sources [k]
     = ([], Ok (- EINVAL, cd', sources', sinks')) /\
     retained (Stub.cd_init Stub.s16_44k1 4 2 Stub.no_blob) cd') /\
  (sink_get_rate (Stub.update_sink_format k Stub.s16_48k) = 48000 /\
   sink_get_frm_fmt (Stub.update_sink_format k Stub.s16_48k) = 0 /\
   @CONFIG_FORMAT_S16LE Stub.plat = true) /\
  (exists t ret cd',
     google_rtc_audio_processing_reconfigure
       (set_raw_microphone_source (set_aec_reference_source good 0) 1)
     = (t, Ok (ret, cd')) /\
     google_rtc_audio_processing_prepare good sources [k]
     = (t, Ok (ret, cd',
               <[1%nat := source_set_alignment_constants m 1 1]>
                 (<[0%nat := source_set_alignment_constants r 1 1]>
                    ((fun s => source_set_alignment_constants s 1 1)
                       <$> sources)),
               [sink_set_alignment_constants
                  (Stub.update_sink_format k Stub.s16_48k) 1 1]))).
Proof.
  intros r m sources k good.
  pose (bad := Stub.cd_init Stub.s16_44k1 4 2 Stub.no_blob).
  pose (run := google_rtc_audio_processing_prepare good sources [k]).
  assert (Hbad : 0 <= aec_reference_source bad < 2 /\
                 0 <= raw_microphone_source bad < 2)
    by (vm_compute; repeat split; discriminate).
  assert (Hgood : 0 <= aec_reference_source good < 2 /\
                  0 <= raw_microphone_source good < 2)
    by (vm_compute; repeat split; discriminate).
  assert (Hr : @last_with Stub.plat true sources 0 r).
  { split; [reflexivity|]. split; [reflexivity|].
    intros [|[|[|n]]] s' Hn Hs'; try lia; try discriminate Hs'.
    injection Hs' as <-. reflexivity. }
  assert (Hm : @last_with Stub.plat false sources 1 m).
  { split; [reflexivity|]. split; [reflexivity|].
    intros [|[|[|n]]] s' Hn Hs'; try lia; discriminate Hs'. }
  split; [|split].
  - apply (proj1 (proj2 (prepare_format_check bad sources k
                           (proj1 Hbad) (proj2 Hbad)))).
    left. vm_compute. discriminate.
  - apply (proj1 (prepare_format_check good sources k
                    (proj1 Hgood) (proj2 Hgood))
             (fst run)
             (match snd run with Ok (_, c, _, _) => c | Fault _ => good end)
             (match snd run with
              | Ok (_, _, s, _) => s
              | Fault _ => sources
              end)
             (match snd run with Ok (_, _, _, s) => s | Fault _ => [k] end)).
    vm_compute. reflexivity.
  - apply (proj1 (proj2 (proj2 (proj2 (prepare_format_check good sources k
                                         (proj1 Hgood) (proj2 Hgood))))
                    0%nat 1%nat r m eq_refl Hr Hm)).
    repeat split; vm_compute; first [reflexivity | discriminate].
Defined.

(** C5 fails in the "if" direction: the sink has the configured rate and a
    supported format, and prepare fails for want of a second source. *)
Lemma prepare_needs_two_sources :
  let cd := Stub.cd_init Stub.s16_48k 4 2 Stub.no_blob in
  let k := Stub.sink 0 48000 2 4 [0; 0; 0; 0; 0; 0; 0; 0] 0 in
  let k' := ipc4_update_sink_format k (base_cfg_audio_fmt cd) in
  sink_get_rate k'
  = @CONFIG_COMP_GOOGLE_RTC_AUDIO_PROCESSING_SAMPLE_RATE_HZ Stub.plat /\
  @frame_fmt_supported Stub.plat (sink_get_frm_fmt k') = true /\
  match google_rtc_audio_processing_prepare cd
          [Stub.source 1 2 4 [1; 2; 3; 4; 5; 6; 7; 8] 0] [k] with
  | (t, Ok (ret, _, _, _)) => t = [] /\ ret = - EINVAL
  | (_, Fault _) => False
  end.
Proof. vm_compute. repeat split. Qed.

(** The apply step with the flag clear although a blob has arrived. *)
Lemma apply_step_noop_witness :
  let cd :=
    set_reconfigure
      (Stub.cd_init Stub.s16_48k 4 2 (Stub.arrived [6; 1; 1; 0; 0])) false in
  reconfigure_if_pending cd = ([], Ok (0, cd)).
Proof.
  apply (apply_step_noop
           (set_reconfigure
              (Stub.cd_init Stub.s16_48k 4 2 (Stub.arrived [6; 1; 1; 0; 0]))
              false)).
  left. vm_compute. reflexivity.
Defined.

(** Two frames of two channels, with samples at both ends of the 16-bit
    range. *)
Lemma deinterlace_interlace_roundtrip_witness :
  exists scratch' cur cur',
    deinterlace 2 0 2 [1; 65535; 32768; 0] 0 [0; 0; 0; 0] 2
    = Ok (scratch', cur) /\
    interlace 2 0 2 [7; 7; 7; 7] 0 scratch' 2
    = Ok ([1; 65535; 32768; 0], cur').
Proof.
  apply (deinterlace_interlace_roundtrip 2 2
           [1; 65535; 32768; 0] [0; 0; 0; 0] [7; 7; 7; 7]);
    try (vm_compute; first [reflexivity | discriminate]).
  repeat constructor; vm_compute; discriminate.
Defined.

(** One cycle with no blob, 4 frames of 2 channels on every pin. *)
Lemma process_cycle_calls_witness :
  let cd := Stub.cd_bound Stub.s16_48k 4 2 Stub.no_blob in
  let sources :=
    [Stub.source 0 2 4 [11; 12; 13; 14; 15; 16; 17; 18] 0;
     Stub.source 1 2 4 [1; 2; 3; 4; 5; 6; 7; 8] 0] in
  let sinks := [Stub.sink 0 48000 2 4 [0; 0; 0; 0; 0; 0; 0; 0] 0] in
  exists t0 cd0 ref_stream src_stream,
    reconfigure_if_pending cd = (t0, Ok (0, cd0)) /\
    pin sources (aec_reference_source cd0) = Ok ref_stream /\
    pin sources (raw_microphone_source cd0) = Ok src_stream /\
    fst (google_rtc_audio_processing_process cd sources sinks)
    = t0 ++
      [ EvSourceGetData (aec_reference_source cd0)
          (size_mul (num_frames cd0) (source_get_frame_bytes ref_stream));
        EvAecAnalyzeRender;
        EvSourceReleaseData (aec_reference_source cd0)
          (size_mul (num_frames cd0) (source_get_frame_bytes ref_stream));
        EvSourceGetData (raw_microphone_source cd0)
          (size_mul (num_frames cd0) (source_get_frame_bytes src_stream));
        EvSourceReleaseData (raw_microphone_source cd0)
          (size_mul (num_frames cd0) (source_get_frame_bytes src_stream));
        EvAecProcessCapture;
        EvSinkGetBuffer
          (size_mul (num_frames cd0) (source_get_frame_bytes src_stream));
        EvSinkCommitBuffer
          (size_mul (num_frames cd0) (source_get_frame_bytes src_stream)) ].
Proof.
  intros cd sources sinks.
  pose (r := google_rtc_audio_processing_process cd sources sinks).
  apply (process_cycle_calls cd sources sinks (fst r)
           (match snd r with Ok (_, c, _) => c | Fault _ => cd end)
           (match snd r with Ok (_, _, s) => s | Fault _ => sinks end)).
  vm_compute. reflexivity.
Defined.

(** C8 fails for the output view when the sink frame is not the size of the
    capture frame: with 4 frames, a capture frame of 4 bytes and a sink
    frame of 8 bytes, the cycle succeeds, and acquires and commits 16 bytes
    of output, not 4 * 8 = 32. *)
Lemma output_view_uses_capture_byte_count :
  let cd := Stub.cd_bound Stub.s16_48k 4 2 Stub.no_blob in
  let sources :=
    [Stub.source 0 2 4 [11; 12; 13; 14; 15; 16; 17; 18] 0;
     Stub.source 1 2 4 [1; 2; 3; 4; 5; 6; 7; 8] 0] in
  let k := Stub.sink 0 48000 4 4 (replicate 16 0) 0 in
  size_mul (num_frames cd) (sink_get_frame_bytes k) = 32 /\
  match google_rtc_audio_processing_process cd sources [k] with
  | (t, Ok (ret, _, _)) =>
      ret = 0 /\
      t = [ EvSourceGetData 0 16; EvAecAnalyzeRender; EvSourceReleaseData 0 16;
            EvSourceGetData 1 16; EvSourceReleaseData 1 16;
            EvAecProcessCapture;
            EvSinkGetBuffer 16; EvSinkCommitBuffer 16 ]
  | (_, Fault _) => False
  end.
Proof. vm_compute. repeat split. Qed.

(** reconfigure on the blob [6; 1; 2; 0; 0], whose channel counts differ
    (the call fails with -EINVAL). *)
Lemma reconfigure_clears_pending_witness :
  let cd := Stub.cd_init Stub.s16_48k 4 2 (Stub.arrived [6; 1; 2; 0; 0]) in
  exists t ret cd',
    google_rtc_audio_processing_reconfigure cd = (t, Ok (ret, cd')) /\
    reconfigure cd' = false /\
    reconfigure_if_pending cd' = ([], Ok (0, cd')) /\
    forall sources sinks t1 ret1 cd1 sinks1,
      google_rtc_audio_processing_process cd' sources sinks
      = (t1, Ok (ret1, cd1, sinks1)) ->
      reconfigure cd1 = false /\ ~ In EvGetDataBlob t1.
Proof.
  apply (reconfigure_clears_pending
           (Stub.cd_init Stub.s16_48k 4 2 (Stub.arrived [6; 1; 2; 0; 0]))
           [6; 1; 2; 0; 0] 5
           {| Stub.data := Some [6; 1; 2; 0; 0]; Stub.data_new := None |});
    vm_compute; first [reflexivity | discriminate].
Defined.

(* ===================================================================== *)
(** ** Further properties of the code *)
(* ===================================================================== *)

Section NumbersMacrosFacts.
Import NumbersMacros.

Lemma lor_shifted_low a b n :
  0 <= n -> 0 <= b < 2 ^ n -> Z.lor (a * 2 ^ n) b = a * 2 ^ n + b.
Proof.
  intros Hn Hb.
  assert (L : Z.land (a * 2 ^ n) b = 0).
  { rewrite <- Z.shiftl_mul_pow2 by assumption.
    apply Z.bits_inj'. intros k Hk. rewrite Z.land_spec, Z.bits_0.
    destruct (Z.lt_ge_cases k n).
    - rewrite Z.shiftl_spec_low by assumption. reflexivity.
    - rewrite <- (Z.mod_small b (2 ^ n)) by assumption.
      rewrite Z.mod_pow2_bits_high by lia. apply andb_false_r. }
  rewrite <- Z.lxor_lor by assumption.
  symmetry. apply Z.add_nocarry_lxor. assumption.
Qed.

(** X1.  [merge_16b16b] packs the low 16 bits of its operands: the result
    is a 32-bit value whose high half is [high mod 2^16] and whose low half
    is [low mod 2^16], so both halves are recovered by shift and mask. *)
Theorem merge_16b16b_halves (high low : Z) :
  merge_16b16b high low = (high mod 2 ^ 16) * 2 ^ 16 + low mod 2 ^ 16 /\
  0 <= merge_16b16b high low < 2 ^ 32 /\
  Z.shiftr (merge_16b16b high low) 16 = high mod 2 ^ 16 /\
  Z.land (merge_16b16b high low) 65535 = low mod 2 ^ 16.
Proof.
  assert (E : merge_16b16b high low
              = (high mod 2 ^ 16) * 2 ^ 16 + low mod 2 ^ 16).
  { unfold merge_16b16b, to_uint32.
    change 65535 with (Z.ones 16). rewrite Z.land_ones by lia.
    rewrite Z.shiftl_mul_pow2 by lia.
    assert (Hs : (high mod 2 ^ 32 * 2 ^ 16) mod 2 ^ 32
                 = (high mod 2 ^ 16) * 2 ^ 16).
    { change (2 ^ 32) with (2 ^ 16 * 2 ^ 16).
      rewrite Z.mul_mod_distr_r by lia. f_equal.
      apply Z.mod_mod_divide. exists (2 ^ 16). reflexivity. }
    rewrite Hs. apply lor_shifted_low; [lia|].
    apply Z.mod_pos_bound. lia. }
  pose proof (Z.mod_pos_bound high (2 ^ 16) ltac:(lia)) as Hh.
  pose proof (Z.mod_pos_bound low (2 ^ 16) ltac:(lia)) as Hl.
  split; [exact E|]. rewrite E. split; [lia|]. split.
  - rewrite Z.shiftr_div_pow2 by lia.
    rewrite Z.div_add_l by lia. rewrite (Z.div_small (low mod 2 ^ 16)); lia.
  - change 65535 with (Z.ones 16). rewrite Z.land_ones by lia.
    rewrite Z.add_comm, Z.mod_add by lia. apply Z.mod_small. lia.
Qed.

(** X2.  [merge_4b4b] keeps 8 bits of [high], not 4: the result is
    [16 * (high mod 256) + low mod 16].  It fits in 8 bits exactly when
    [high mod 256] is below 16, and then its nibbles are [high] and
    [low mod 16]. *)
Theorem merge_4b4b_nibbles (high low : Z) :
  merge_4b4b high low = 16 * (high mod 2 ^ 8) + low mod 2 ^ 4 /\
  (merge_4b4b high low < 2 ^ 8 <-> high mod 2 ^ 8 < 2 ^ 4) /\
  (0 <= high < 2 ^ 4 ->
     Z.shiftr (merge_4b4b high low) 4 = high /\
     Z.land (merge_4b4b high low) 15 = low mod 2 ^ 4).
Proof.
  assert (E : merge_4b4b high low = 16 * (high mod 2 ^ 8) + low mod 2 ^ 4).
  { unfold merge_4b4b, to_uint8.
    change 15 with (Z.ones 4). rewrite Z.land_ones by lia.
    rewrite Z.shiftl_mul_pow2 by lia.
    rewrite lor_shifted_low; [change (2 ^ 4) with 16; lia|lia|].
    apply Z.mod_pos_bound. lia. }
  pose proof (Z.mod_pos_bound high (2 ^ 8) ltac:(lia)) as Hh.
  pose proof (Z.mod_pos_bound low (2 ^ 4) ltac:(lia)) as Hl.
  split; [exact E|]. rewrite E.
  change (2 ^ 8) with 256 in *. change (2 ^ 4) with 16 in *.
  split; [lia|].
  intros Hr. rewrite (Z.mod_small high 256) by lia. split.
  - rewrite Z.shiftr_div_pow2 by lia. change (2 ^ 4) with 16.
    rewrite Z.mul_comm, Z.div_add_l by lia.
    rewrite (Z.div_small (low mod 16)); lia.
  - change 15 with (Z.ones 4). rewrite Z.land_ones by lia.
    change (2 ^ 4) with 16.
    rewrite Z.add_comm, Z.mul_comm, Z.mod_add by lia.
    apply Z.mod_small. lia.
Qed.

(** X3.  On operands of one integer type, [MIN] and [MAX] are the
    mathematical minimum and maximum, and between them they return both
    operands. *)
Theorem MIN_MAX_spec (a b : Z) :
  MIN a b = Z.min a b /\ MAX a b = Z.max a b /\
  MIN a b + MAX a b = a + b.
Proof.
  unfold MIN, MAX.
  destruct (Z.gtb_spec a b), (Z.ltb_spec a b); lia.
Qed.

End NumbersMacrosFacts.

Section CeilDivideMore.

(** X4.  For a dividend that is not negative and a positive divisor,
    [ceil_divide] is the usual [(a + b - 1) / b], the number of blocks of
    size [b] that cover [a]: the blocks cover [a] with less than one block to
    spare. *)
Theorem ceil_divide_covers (a b : Z) :
  in_int a -> in_int b -> 0 <= a -> 0 < b ->
  ceil_divide a b = (a + b - 1) / b /\
  a <= ceil_divide a b * b < a + b.
Proof.
  intros Ha Hb Hna Hpb.
  destruct (quot_facts a b ltac:(lia)) as (E & Hr & Hs & _).
  specialize (Hs Hna).
  assert (Hq0 : 0 <= Z.quot a b) by (apply Z.quot_pos; lia).
  assert (Hq : in_int (Z.quot a b)).
  { unfold in_int, INT_MIN, INT_MAX in *. nia. }
  assert (Hprod : in_int (Z.quot a b * b)).
  { unfold in_int, INT_MIN, INT_MAX in *. nia. }
  assert (M : Z.land (Z.lxor a b) SIGN_MASK = 0).
  { apply sign_test; trivial. unfold signs_differ. lia. }
  unfold ceil_divide.
  rewrite (wrap_int_id _ Hq), (wrap_int_id _ Hprod), M.
  change (0 =? 0) with true. cbn [andb].
  pose proof (Z.div_mod (a + b - 1) b ltac:(lia)) as D.
  pose proof (Z.mod_pos_bound (a + b - 1) b Hpb) as B.
  destruct (Z.eqb_spec (Z.quot a b * b) a) as [P|P]; cbn [negb].
  - split; nia.
  - assert (I : in_int (Z.quot a b + 1)).
    { unfold in_int, INT_MIN, INT_MAX in *. nia. }
    rewrite (wrap_int_id _ I). split; nia.
Qed.

End CeilDivideMore.


Section ControlFacts.
Context {aec : AecLibrary} {blob : BlobHandler} {plat : Platform}.

(** X5.  A switch or enum control id is refused with -EINVAL before the
    blob handler is touched: no call is made and the component data is
    unchanged. *)
Theorem set_config_refuses_switch_enum (cd : comp_data) param_id pos off
    fragment :
  param_id = SOF_IPC4_SWITCH_CONTROL_PARAM_ID \/
  param_id = SOF_IPC4_ENUM_CONTROL_PARAM_ID ->
  google_rtc_audio_processing_set_config cd param_id pos off fragment
  = ([], Ok (- EINVAL, cd)).
Proof.
  intros H. unfold google_rtc_audio_processing_set_config.
  destruct H as [-> | ->]; rewrite Z.eqb_refl, ?orb_true_r; reflexivity.
Qed.

(** X6.  No call of set_config applies a blob: whatever the control id and
    the outcome of the store, the call returns without a fault, makes no
    library call (at most one blob fetch), leaves the library state, the
    channel counts, the scratch buffers and the source indices as they
    were, and never lowers the pending flag. *)
Theorem set_config_defers (cd : comp_data) param_id pos off fragment :
  exists t ret cd',
    google_rtc_audio_processing_set_config cd param_id pos off fragment
    = (t, Ok (ret, cd')) /\
    (t = [] \/ t = [EvGetDataBlob]) /\
    blob_side_only cd cd' /\
    (reconfigure cd = true -> reconfigure cd' = true).
Proof.
  unfold google_rtc_audio_processing_set_config.
  destruct (_ || _).
  { exists [], (- EINVAL), cd. repeat split; auto. }
  destruct (comp_data_blob_set _ _ _ _) as [ret h].
  destruct (negb (ret =? 0)).
  { do 3 eexists. split; [reflexivity|]. repeat split; auto. }
  cbn [tuning_handler set_tuning_handler].
  destruct (comp_is_new_data_blob_available h).
  - rewrite emit_bind.
    destruct (comp_get_data_blob h) as [[c s] h'].
    do 3 eexists. split; [reflexivity|]. repeat split; auto.
  - do 3 eexists. split; [reflexivity|]. repeat split; auto.
Qed.

(** X7.  When the store succeeds and reports a new blob, set_config
    returns 0 with the pending flag raised, after one fetch that makes the
    new blob the current one. *)
Theorem set_config_raises_pending (cd : comp_data) param_id pos off fragment
    h :
  param_id <> SOF_IPC4_SWITCH_CONTROL_PARAM_ID ->
  param_id <> SOF_IPC4_ENUM_CONTROL_PARAM_ID ->
  comp_data_blob_set (tuning_handler cd) pos off fragment = (0, h) ->
  comp_is_new_data_blob_available h = true ->
  exists cd',
    google_rtc_audio_processing_set_config cd param_id pos off fragment
    = ([EvGetDataBlob], Ok (0, cd')) /\
    reconfigure cd' = true /\
    tuning_handler cd' = snd (comp_get_data_blob h).
Proof.
  intros H1 H2 Hset Hnew.
  unfold google_rtc_audio_processing_set_config.
  apply Z.eqb_neq in H1, H2. rewrite H1, H2, Hset. cbn [orb negb Z.eqb].
  cbn [tuning_handler set_tuning_handler]. rewrite Hnew, emit_bind.
  destruct (comp_get_data_blob h) as [[c s] h'].
  eexists. split; [reflexivity|]. split; reflexivity.
Qed.

(** X8.  When the fetched blob is empty, or is a null pointer with a
    non-zero size, reconfigure applies nothing: it makes no library call,
    keeps the pending flag, the library state and the channel count, and
    returns 0 for the empty blob and -EINVAL for the null one. *)
Theorem reconfigure_without_usable_blob (cd : comp_data) config size h :
  comp_is_current_data_blob_valid (tuning_handler cd)
  || comp_is_new_data_blob_available (tuning_handler cd) = true ->
  comp_get_data_blob (tuning_handler cd) = (config, size, h) ->
  size = 0 \/ config = None ->
  google_rtc_audio_processing_reconfigure cd
  = ([EvGetDataBlob],
     Ok (if size =? 0 then 0 else - EINVAL, set_tuning_handler cd h)).
Proof.
  intros Hav Hget Hbad. unfold google_rtc_audio_processing_reconfigure.
  rewrite Hget, emit_bind.
  destruct (comp_is_current_data_blob_valid _),
           (comp_is_new_data_blob_available _); try discriminate;
    cbn [negb andb];
    destruct (size =? 0) eqn:E; try reflexivity;
    destruct Hbad as [-> | ->]; try discriminate; reflexivity.
Qed.

End ControlFacts.

Section ApplyFacts.
Context {aec : AecLibrary} {blob : BlobHandler} {plat : Platform}.

Lemma and_then_ok_inv (step : M (Z * comp_data)) rest t cd' :
  and_then step rest = (t, Ok (0, cd')) ->
  exists t1 cd1 t2,
    step = (t1, Ok (0, cd1)) /\ rest cd1 = (t2, Ok (0, cd')) /\ t = t1 ++ t2.
Proof.
  unfold and_then. intros H.
  apply bind_inv in H as (t1 & [r cd1] & t2 & Hs & Hr & ->).
  destruct (Z.eqb_spec r 0) as [->|Hne]; cbn [negb] in Hr.
  - eauto 6.
  - injection Hr as _ E _. congruence.
Qed.

Lemma and_then_eq (step : M (Z * comp_data)) rest t1 r c1 :
  step = (t1, Ok (r, c1)) ->
  and_then step rest
  = if r =? 0 then (t1 ++ (rest c1).1, (rest c1).2) else (t1, Ok (r, c1)).
Proof.
  intros ->. unfold and_then, mbind, M_bind.
  destruct (r =? 0); cbn [negb].
  - destruct (rest c1). reflexivity.
  - cbn. rewrite app_nil_r. reflexivity.
Qed.

Lemma reconfigure_tuning_ok msg (cd : comp_data) t cd1 :
  reconfigure_tuning msg cd = (t, Ok (0, cd1)) ->
  t = (if google_rtc_audio_processing_config_present msg
       then [EvAecReconfigure (google_rtc_audio_processing_config msg)
               (google_rtc_audio_processing_config_size msg)]
       else []) /\
  num_capture_channels cd1 = num_capture_channels cd /\
  num_aec_reference_channels cd1 = num_aec_reference_channels cd.
Proof.
  unfold reconfigure_tuning.
  destruct (google_rtc_audio_processing_config_present msg).
  - rewrite emit_bind.
    destruct (GoogleRtcAudioProcessingReconfigure _ _ _) as [r st].
    cbn. intros H. inversion H. subst. auto.
  - cbn. intros H. inversion H. subst. auto.
Qed.

Lemma reconfigure_channels_ok msg (cd : comp_data) t cd1 :
  reconfigure_channels msg cd = (t, Ok (0, cd1)) ->
  t = (if num_capture_input_channels_present msg
          || num_capture_output_channels_present msg
       then [EvAecSetStreamFormats
               CONFIG_COMP_GOOGLE_RTC_AUDIO_PROCESSING_SAMPLE_RATE_HZ
               (num_capture_channels cd1) (num_capture_channels cd1)
               CONFIG_COMP_GOOGLE_RTC_AUDIO_PROCESSING_SAMPLE_RATE_HZ
               (num_aec_reference_channels cd)]
       else []) /\
  num_aec_reference_channels cd1 = num_aec_reference_channels cd.
Proof.
  unfold reconfigure_channels, apply_stream_formats.
  destruct (num_capture_input_channels_present msg),
           (num_capture_output_channels_present msg); cbn [orb andb];
    try destruct (_ =? _); cbn [negb];
    rewrite ?emit_bind;
    try destruct (GoogleRtcAudioProcessingSetStreamFormats _ _ _ _ _ _)
      as [r st];
    cbn; intros H; inversion H; subst; auto.
Qed.

Lemma reconfigure_parameters_ok msg (cd : comp_data) t cd1 :
  reconfigure_parameters msg cd = (t, Ok (0, cd1)) ->
  t = (if aec_reference_delay_present msg || mic_gain_present msg
       then [EvAecParameters (mic_gain_present msg)
               (aec_reference_delay_present msg)]
       else []) /\
  num_capture_channels cd1 = num_capture_channels cd.
Proof.
  unfold reconfigure_parameters.
  destruct (_ || _).
  - rewrite emit_bind.
    destruct (GoogleRtcAudioProcessingParameters _ _ _) as [r st].
    cbn. intros H. inversion H. subst. auto.
  - cbn. intros H. inversion H. subst. auto.
Qed.

(** X9.  A successful apply of a non-empty blob makes one blob fetch and
    then exactly one library call for each group of fields the blob carries,
    in the order tuning payload, stream formats, parameters; the
    stream-format call carries the capture channel count that is stored
    afterwards, and the parameter call covers gain and delay together. *)
Theorem reconfigure_success_calls (cd : comp_data) config size h t cd' :
  comp_is_current_data_blob_valid (tuning_handler cd)
  || comp_is_new_data_blob_available (tuning_handler cd) = true ->
  comp_get_data_blob (tuning_handler cd) = (Some config, size, h) ->
  size <> 0 ->
  google_rtc_audio_processing_reconfigure cd = (t, Ok (0, cd')) ->
  t = EvGetDataBlob ::
      apply_calls (GoogleRtcAudioProcessingParseSofConfigMessage config size)
        (num_capture_channels cd') (num_aec_reference_channels cd).
Proof.
  intros Hav Hget Hsz.
  rewrite (reconfigure_with_blob cd config size h) by assumption.
  intros H. apply bind_emit_inv in H as (t' & -> & H). f_equal.
  unfold reconfigure_apply in H.
  apply and_then_ok_inv in H as (t1 & cd1 & t1' & H1 & H & ->).
  apply and_then_ok_inv in H as (t2 & cd2 & t2' & H2 & H & ->).
  apply and_then_ok_inv in H as (t3 & cd3 & t3' & H3 & H & ->).
  injection H as <- <-.
  apply reconfigure_tuning_ok in H1 as (-> & _ & Hr1).
  apply reconfigure_channels_ok in H2 as (-> & _).
  apply reconfigure_parameters_ok in H3 as (-> & Hn3).
  unfold apply_calls. rewrite app_nil_r, Hn3, Hr1. reflexivity.
Qed.

(** X10.  A blob whose output channel count is present, with the input count
    absent or equal to it, makes apply store that count and pass it to the
    stream-format call, once the tuning payload (if any) has been accepted;
    the count stays stored whatever that call and the parameter call
    return. *)
Theorem reconfigure_adopts_output_count (cd : comp_data) config size h :
  comp_is_current_data_blob_valid (tuning_handler cd)
  || comp_is_new_data_blob_available (tuning_handler cd) = true ->
  comp_get_data_blob (tuning_handler cd) = (Some config, size, h) ->
  size <> 0 ->
  let msg := GoogleRtcAudioProcessingParseSofConfigMessage config size in
  google_rtc_audio_processing_config_present msg = false \/
  fst (GoogleRtcAudioProcessingReconfigure (state cd)
         (google_rtc_audio_processing_config msg)
         (google_rtc_audio_processing_config_size msg)) = 0 ->
  num_capture_output_channels_present msg = true ->
  (num_capture_input_channels_present msg = true ->
   num_capture_input_channels msg = num_capture_output_channels msg) ->
  exists t ret cd',
    google_rtc_audio_processing_reconfigure cd = (t, Ok (ret, cd')) /\
    num_capture_channels cd' = num_capture_output_channels msg /\
    In (EvAecSetStreamFormats
          CONFIG_COMP_GOOGLE_RTC_AUDIO_PROCESSING_SAMPLE_RATE_HZ
          (num_capture_output_channels msg) (num_capture_output_channels msg)
          CONFIG_COMP_GOOGLE_RTC_AUDIO_PROCESSING_SAMPLE_RATE_HZ
          (num_aec_reference_channels cd)) t.
Proof.
  intros Hav Hget Hsz msg Htune Hout Hin.
  rewrite (reconfigure_with_blob cd config size h) by assumption.
  fold msg. rewrite emit_bind.
  set (cd0 := set_reconfigure (set_tuning_handler cd h) false).
  assert (Ht : exists t1 st1,
             reconfigure_tuning msg cd0 = (t1, Ok (0, set_state cd0 st1))
             \/ reconfigure_tuning msg cd0 = (t1, Ok (0, cd0))).
  { unfold reconfigure_tuning.
    destruct (google_rtc_audio_processing_config_present msg).
    - destruct Htune as [|Htune]; [discriminate|].
      rewrite emit_bind. subst cd0. cbn [state set_reconfigure
        set_tuning_handler].
      destruct (GoogleRtcAudioProcessingReconfigure _ _ _) as [r st].
      simpl in Htune. subst r. do 2 eexists. left. reflexivity.
    - exists [], (state cd0). right. reflexivity. }
  assert (Hc : forall c : comp_data,
             num_aec_reference_channels c = num_aec_reference_channels cd ->
             exists e ret st,
               reconfigure_channels msg c
               = ([EvAecSetStreamFormats
                     CONFIG_COMP_GOOGLE_RTC_AUDIO_PROCESSING_SAMPLE_RATE_HZ
                     (num_capture_output_channels msg)
                     (num_capture_output_channels msg)
                     CONFIG_COMP_GOOGLE_RTC_AUDIO_PROCESSING_SAMPLE_RATE_HZ
                     (num_aec_reference_channels cd)] ++ e,
                  Ok (ret, set_state
                             (set_num_capture_channels c
                                (num_capture_output_channels msg)) st))).
  { intros c Hr. unfold reconfigure_channels, apply_stream_formats.
    rewrite Hout.
    destruct (num_capture_input_channels_present msg); cbn [orb andb].
    - rewrite (Hin eq_refl), Z.eqb_refl. cbn [negb].
      rewrite emit_bind. cbn [num_capture_channels set_num_capture_channels
        num_aec_reference_channels state].
      destruct (GoogleRtcAudioProcessingSetStreamFormats _ _ _ _ _ _)
        as [r st]. rewrite Hr. exists [], r, st. reflexivity.
    - rewrite emit_bind. cbn [num_capture_channels set_num_capture_channels
        num_aec_reference_channels state].
      destruct (GoogleRtcAudioProcessingSetStreamFormats _ _ _ _ _ _)
        as [r st]. rewrite Hr. exists [], r, st. reflexivity. }
  assert (Hp : forall c : comp_data,
             exists t3 ret c',
               and_then (reconfigure_parameters msg c)
                 (fun c => mret (0, c)) = (t3, Ok (ret, c')) /\
               num_capture_channels c' = num_capture_channels c).
  { intros c. unfold and_then, reconfigure_parameters.
    destruct (aec_reference_delay_present msg || mic_gain_present msg).
    - rewrite emit_bind.
      destruct (GoogleRtcAudioProcessingParameters _ _ _) as [r st].
      cbn. destruct (negb (r =? 0)); do 3 eexists; split; reflexivity.
    - cbn. do 3 eexists. split; reflexivity. }
  assert (Hrest : forall c : comp_data,
             num_aec_reference_channels c = num_aec_reference_channels cd ->
             exists t2 ret c',
               and_then (reconfigure_channels msg c) (fun c =>
               and_then (reconfigure_parameters msg c) (fun c =>
               mret (0, c))) = (t2, Ok (ret, c')) /\
               num_capture_channels c' = num_capture_output_channels msg /\
               In (EvAecSetStreamFormats
                     CONFIG_COMP_GOOGLE_RTC_AUDIO_PROCESSING_SAMPLE_RATE_HZ
                     (num_capture_output_channels msg)
                     (num_capture_output_channels msg)
                     CONFIG_COMP_GOOGLE_RTC_AUDIO_PROCESSING_SAMPLE_RATE_HZ
                     (num_aec_reference_channels cd)) t2).
  { intros c Hr. destruct (Hc c Hr) as (e & r2 & st2 & E2).
    rewrite (and_then_eq _ _ _ _ _ E2).
    destruct (r2 =? 0).
    - destruct (Hp (set_state
                      (set_num_capture_channels c
                         (num_capture_output_channels msg)) st2))
        as (t3 & r3 & c3 & E3 & N3).
      rewrite E3. cbn [fst snd]. do 3 eexists. split; [reflexivity|].
      split; [rewrite N3; reflexivity|]. simpl. auto.
    - do 3 eexists. split; [reflexivity|]. split; [reflexivity|].
      simpl. auto. }
  unfold reconfigure_apply.
  destruct Ht as (t1 & st1 & [E1|E1]);
    rewrite (and_then_eq _ _ _ _ _ E1); cbn [Z.eqb];
    match goal with
    | |- context [reconfigure_channels msg ?c] =>
        destruct (Hrest c ltac:(reflexivity)) as (t2 & r2 & c2 & E2 & N2 & I2)
    end;
    rewrite E2; cbn [fst snd]; do 3 eexists;
    (split; [reflexivity|]); (split; [exact N2|]);
    right; apply in_or_app; right; exact I2.
Qed.

End ApplyFacts.

Section ApplyFailures.
Context {aec : AecLibrary} {blob : BlobHandler} {plat : Platform}.

(** X11.  When the library refuses the tuning payload, apply ends there
    with the library's status: the channel counts of the blob are not looked
    at, the stored capture channel count is unchanged, and no stream-format
    or parameter call is made. *)
Theorem reconfigure_tuning_failure (cd : comp_data) config size h :
  comp_is_current_data_blob_valid (tuning_handler cd)
  || comp_is_new_data_blob_available (tuning_handler cd) = true ->
  comp_get_data_blob (tuning_handler cd) = (Some config, size, h) ->
  size <> 0 ->
  let msg := GoogleRtcAudioProcessingParseSofConfigMessage config size in
  let tuned :=
    GoogleRtcAudioProcessingReconfigure (state cd)
      (google_rtc_audio_processing_config msg)
      (google_rtc_audio_processing_config_size msg) in
  google_rtc_audio_processing_config_present msg = true ->
  fst tuned <> 0 ->
  exists cd',
    google_rtc_audio_processing_reconfigure cd
    = ([EvGetDataBlob;
        EvAecReconfigure (google_rtc_audio_processing_config msg)
          (google_rtc_audio_processing_config_size msg)],
       Ok (fst tuned, cd')) /\
    num_capture_channels cd' = num_capture_channels cd /\
    state cd' = snd tuned.
Proof.
  intros Hav Hget Hsz msg tuned Hcfg Hfail.
  rewrite (reconfigure_with_blob cd config size h) by assumption.
  fold msg. rewrite emit_bind.
  set (cd0 := set_reconfigure (set_tuning_handler cd h) false).
  assert (E1 : reconfigure_tuning msg cd0
               = ([EvAecReconfigure (google_rtc_audio_processing_config msg)
                     (google_rtc_audio_processing_config_size msg)],
                  Ok (fst tuned, set_state cd0 (snd tuned)))).
  { unfold reconfigure_tuning. rewrite Hcfg, emit_bind.
    cbn [state cd0 set_reconfigure set_tuning_handler]. fold tuned.
    destruct tuned as [r st]. reflexivity. }
  unfold reconfigure_apply.
  rewrite (and_then_eq _ _ _ _ _ E1).
  apply Z.eqb_neq in Hfail. rewrite Hfail. cbn [fst snd].
  eexists. split; [reflexivity|]. split; reflexivity.
Qed.

(** X12.  The capture channel count is stored before the library is asked:
    when the stream-format call fails, apply returns its status and makes no
    parameter call, and the refused count stays stored. *)
Theorem reconfigure_formats_failure (cd : comp_data) config size h :
  comp_is_current_data_blob_valid (tuning_handler cd)
  || comp_is_new_data_blob_available (tuning_handler cd) = true ->
  comp_get_data_blob (tuning_handler cd) = (Some config, size, h) ->
  size <> 0 ->
  let msg := GoogleRtcAudioProcessingParseSofConfigMessage config size in
  let n := num_capture_output_channels msg in
  let formats :=
    GoogleRtcAudioProcessingSetStreamFormats (state cd)
      CONFIG_COMP_GOOGLE_RTC_AUDIO_PROCESSING_SAMPLE_RATE_HZ n n
      CONFIG_COMP_GOOGLE_RTC_AUDIO_PROCESSING_SAMPLE_RATE_HZ
      (num_aec_reference_channels cd) in
  google_rtc_audio_processing_config_present msg = false ->
  num_capture_output_channels_present msg = true ->
  (num_capture_input_channels_present msg = true ->
   num_capture_input_channels msg = n) ->
  fst formats <> 0 ->
  exists cd',
    google_rtc_audio_processing_reconfigure cd
    = ([EvGetDataBlob;
        EvAecSetStreamFormats
          CONFIG_COMP_GOOGLE_RTC_AUDIO_PROCESSING_SAMPLE_RATE_HZ n n
          CONFIG_COMP_GOOGLE_RTC_AUDIO_PROCESSING_SAMPLE_RATE_HZ
          (num_aec_reference_channels cd)],
       Ok (fst formats, cd')) /\
    num_capture_channels cd' = n /\
    state cd' = snd formats.
Proof.
  intros Hav Hget Hsz msg n formats Hcfg Hout Hin Hfail.
  rewrite (reconfigure_with_blob cd config size h) by assumption.
  fold msg. rewrite emit_bind.
  set (cd0 := set_reconfigure (set_tuning_handler cd h) false).
  assert (E1 : reconfigure_tuning msg cd0 = ([], Ok (0, cd0))).
  { unfold reconfigure_tuning. rewrite Hcfg. reflexivity. }
  assert (E2 : reconfigure_channels msg cd0
               = ([EvAecSetStreamFormats
                     CONFIG_COMP_GOOGLE_RTC_AUDIO_PROCESSING_SAMPLE_RATE_HZ
                     n n
                     CONFIG_COMP_GOOGLE_RTC_AUDIO_PROCESSING_SAMPLE_RATE_HZ
                     (num_aec_reference_channels cd)],
                  Ok (fst formats,
                      set_state (set_num_capture_channels cd0 n)
                        (snd formats)))).
  { unfold reconfigure_channels, apply_stream_formats. rewrite Hout.
    destruct (num_capture_input_channels_present msg); cbn [orb andb].
    - rewrite (Hin eq_refl). fold n. rewrite Z.eqb_refl. cbn [negb].
      rewrite emit_bind.
      cbn [num_capture_channels set_num_capture_channels state cd0
           num_aec_reference_channels set_reconfigure set_tuning_handler].
      fold formats. destruct formats as [r st]. reflexivity.
    - rewrite emit_bind.
      cbn [num_capture_channels set_num_capture_channels state cd0
           num_aec_reference_channels set_reconfigure set_tuning_handler].
      fold n. fold formats. destruct formats as [r st]. reflexivity. }
  unfold reconfigure_apply.
  rewrite (and_then_eq _ _ _ _ _ E1). cbn [Z.eqb app fst snd].
  rewrite (and_then_eq _ _ _ _ _ E2).
  apply Z.eqb_neq in Hfail. rewrite Hfail. cbn [fst snd].
  eexists. split; [reflexivity|]. split; reflexivity.
Qed.

End ApplyFailures.

Section LoopResults.

Lemma index_split k F :
  0 < F -> 0 <= k ->
  k = (k / F) * F + k mod F /\ 0 <= k mod F < F /\ 0 <= k / F.
Proof.
  intros HF Hk. pose proof (Z.div_mod k F ltac:(lia)).
  pose proof (Z.mod_pos_bound k F HF).
  pose proof (Z.div_pos k F Hk HF). lia.
Qed.

Lemma index_join c j F :
  0 <= j < F -> (c * F + j) mod F = j /\ (c * F + j) / F = c.
Proof.
  intros Hj. split.
  - rewrite Z.add_comm, Z.mod_add by lia. apply Z.mod_small. lia.
  - rewrite Z.add_comm, Z.div_add by lia. rewrite Z.div_small; lia.
Qed.

Lemma planar_length F C samples :
  length (planar F C samples) = Z.to_nat (C * F).
Proof. unfold planar. rewrite length_map, length_seq. reflexivity. Qed.

Lemma interleaved_length F C buffer :
  length (interleaved F C buffer) = Z.to_nat (F * C).
Proof. unfold interleaved. rewrite length_map, length_seq. reflexivity. Qed.

Lemma planar_lookup F C samples c j :
  0 <= c < C -> 0 <= j < F ->
  planar F C samples !! Z.to_nat (c * F + j)
  = Some (to_int16 (nth (Z.to_nat (j * C + c)) samples 0)).
Proof.
  intros Hc Hj. unfold planar.
  rewrite list_lookup_fmap, lookup_seq_lt by nia. simpl.
  rewrite Z2Nat.id by nia.
  destruct (index_join c j F Hj) as [-> ->]. reflexivity.
Qed.

Lemma interleaved_lookup F C buffer c j :
  0 <= c < C -> 0 <= j < F ->
  interleaved F C buffer !! Z.to_nat (j * C + c)
  = Some (to_uint16 (nth (Z.to_nat (c * F + j)) buffer 0)).
Proof.
  intros Hc Hj. unfold interleaved.
  rewrite list_lookup_fmap, lookup_seq_lt by nia. simpl.
  rewrite Z2Nat.id by nia.
  destruct (index_join j c C Hc) as [-> ->]. reflexivity.
Qed.

Lemma nth_lookup_Some (l : list Z) i x d : l !! i = Some x -> nth i l d = x.
Proof. intros H. rewrite nth_lookup, H. reflexivity. Qed.

Lemma deinterlace_result (F C p : Z) (region scratch : list Z) :
  0 <= F -> 0 <= C -> 0 <= p ->
  p + F * C <= Z.of_nat (length region) ->
  Z.of_nat (length scratch) = C * F ->
  exists cur,
    deinterlace (Z.to_nat F) 0 C region p scratch F
    = Ok (planar F C (drop (Z.to_nat p) region), cur).
Proof.
  intros HF HC Hp Hfit Hlen.
  destruct (deinterlace_linear (Z.to_nat F) 0 C region p scratch F)
    as (b' & cur & -> & Hl & Hfill & _); try lia.
  exists cur. do 2 f_equal.
  apply (list_eq_same_length _ _ (length scratch));
    [rewrite planar_length; lia|assumption|].
  intros i x y Hi Hx Hy.
  assert (HFpos : 0 < F) by nia.
  destruct (index_split (Z.of_nat i) F HFpos ltac:(lia)) as (Ei & Hj & Hc).
  set (c := Z.of_nat i / F) in *. set (j := Z.of_nat i mod F) in *.
  assert (Hcr : 0 <= c < C) by nia.
  replace i with (Z.to_nat (c * F + j)) in Hx, Hy by lia.
  destruct (Hfill c j) as (v & Hv & Hb); [lia|lia|].
  rewrite Hb in Hx. rewrite planar_lookup in Hy by lia.
  injection Hx as <-. injection Hy as <-. f_equal.
  symmetry. apply nth_lookup_Some. rewrite lookup_drop, <- Hv.
  f_equal. lia.
Qed.

(** X13.  Over a stretch of the region that holds [F] frames of [C] cells
    from position [p] on, the read loop fills a scratch buffer of [C * F]
    cells with the per-channel arrangement of those frames: sample [c] of
    frame [j] goes to cell [c * F + j], converted to [int16_t]. *)
Theorem deinterlace_planar (F C p : Z) (region scratch : list Z) :
  0 <= F -> 0 <= C -> 0 <= p ->
  p + F * C <= Z.of_nat (length region) ->
  Z.of_nat (length scratch) = C * F ->
  exists cur,
    deinterlace (Z.to_nat F) 0 C region p scratch F
    = Ok (planar F C (drop (Z.to_nat p) region), cur).
Proof. exact (deinterlace_result F C p region scratch). Qed.

Lemma interlace_result (F C p : Z) (region buffer : list Z) :
  0 <= F -> 0 <= C -> 0 <= p ->
  p + F * C <= Z.of_nat (length region) ->
  C * F <= Z.of_nat (length buffer) ->
  exists cur,
    interlace (Z.to_nat F) 0 C region p buffer F
    = Ok (take (Z.to_nat p) region ++ interleaved F C buffer
          ++ drop (Z.to_nat (p + F * C)) region, cur).
Proof.
  intros HF HC Hp Hfit Hlen.
  destruct (interlace_linear (Z.to_nat F) 0 C region p buffer F)
    as (r' & cur & -> & Hl & Hfill & Hkeep); try lia.
  exists cur. do 2 f_equal.
  assert (Hnn : 0 <= F * C) by nia.
  assert (Htake : length (take (Z.to_nat p) region) = Z.to_nat p)
    by (rewrite length_take; lia).
  apply (list_eq_same_length _ _ (length region)); [|assumption|].
  { rewrite !length_app, Htake, interleaved_length, length_drop. lia. }
  intros i x y Hi Hx Hy.
  destruct (Z.lt_ge_cases (Z.of_nat i) p) as [Hlow|Hge].
  - rewrite lookup_app_l in Hy by lia.
    rewrite lookup_take_lt in Hy by lia.
    rewrite Hkeep in Hx; [congruence|].
    intros c j Hc Hj. nia.
  - destruct (Z.lt_ge_cases (Z.of_nat i) (p + F * C)) as [Hin|Hhigh].
    + rewrite lookup_app_r, Htake in Hy by lia.
      rewrite lookup_app_l in Hy by (rewrite interleaved_length; lia).
      assert (HCpos : 0 < C) by nia.
      destruct (index_split (Z.of_nat i - p) C HCpos ltac:(lia))
        as (Ei & Hc & Hj).
      set (j := (Z.of_nat i - p) / C) in *.
      set (c := (Z.of_nat i - p) mod C) in *.
      assert (Hjr : 0 <= j < F) by nia.
      replace (i - Z.to_nat p)%nat with (Z.to_nat (j * C + c)) in Hy by lia.
      rewrite interleaved_lookup in Hy by lia.
      destruct (Hfill c j) as (v & Hv & Hr); [lia|lia|].
      replace (Z.to_nat (p + (j - 0) * C + c)) with i in Hr by lia.
      rewrite Hr in Hx. injection Hx as <-. injection Hy as <-.
      f_equal. symmetry. apply nth_lookup_Some. assumption.
    + rewrite lookup_app_r, Htake in Hy by lia.
      rewrite lookup_app_r in Hy by (rewrite interleaved_length; lia).
      rewrite interleaved_length in Hy.
      rewrite lookup_drop in Hy.
      replace (Z.to_nat (p + F * C) + (i - Z.to_nat p - Z.to_nat (F * C)))%nat
        with i in Hy by lia.
      rewrite Hkeep in Hx; [congruence|].
      intros c j Hc Hj. nia.
Qed.

(** X14.  Over a stretch of the region that takes [F] frames of [C] cells
    from position [p] on, the write loop overwrites exactly that stretch
    with the interleaved arrangement of the scratch buffer, converted to
    [uint16_t], and leaves the cells before and after it as they were. *)
Theorem interlace_interleaved (F C p : Z) (region buffer : list Z) :
  0 <= F -> 0 <= C -> 0 <= p ->
  p + F * C <= Z.of_nat (length region) ->
  C * F <= Z.of_nat (length buffer) ->
  exists cur,
    interlace (Z.to_nat F) 0 C region p buffer F
    = Ok (take (Z.to_nat p) region ++ interleaved F C buffer
          ++ drop (Z.to_nat (p + F * C)) region, cur).
Proof. exact (interlace_result F C p region buffer). Qed.

(* The two arrangements are inverse on 16-bit cells. *)
Lemma interleaved_planar (F C : Z) (samples : list Z) :
  0 <= F -> 0 <= C ->
  Z.of_nat (length samples) = F * C ->
  Forall (fun x => 0 <= x < 2 ^ 16) samples ->
  interleaved F C (planar F C samples) = samples.
Proof.
  intros HF HC Hlen Hrange.
  apply (list_eq_same_length _ _ (length samples));
    [reflexivity|rewrite interleaved_length; lia|].
  intros i x y Hi Hx Hy.
  assert (HCpos : 0 < C) by nia.
  destruct (index_split (Z.of_nat i) C HCpos ltac:(lia)) as (Ei & Hc & Hj).
  set (j := Z.of_nat i / C) in *. set (c := Z.of_nat i mod C) in *.
  assert (Hjr : 0 <= j < F) by nia.
  replace i with (Z.to_nat (j * C + c)) in Hx, Hy by lia.
  rewrite interleaved_lookup in Hx by lia.
  rewrite (nth_lookup_Some _ _ _ _ (planar_lookup F C samples c j
             ltac:(lia) ltac:(lia))) in Hx.
  rewrite (nth_lookup_Some _ _ _ _ Hy) in Hx.
  injection Hx as <-. apply to_uint16_to_int16.
  exact (Forall_lookup_1 _ _ _ _ Hrange Hy).
Qed.

End LoopResults.

Section CycleResults.
Context {aec : AecLibrary} {blob : BlobHandler} {plat : Platform}.

Lemma assert_bind_true {A} (m : M A) : (assert true ;; m) = m.
Proof.
  unfold assert, mbind, M_bind, mret, M_ret. destruct m. reflexivity.
Qed.

Lemma apply_then (cd : comp_data) sources sinks t0 ret cd0 :
  reconfigure_if_pending cd = (t0, Ok (ret, cd0)) ->
  google_rtc_audio_processing_process cd sources sinks
  = if negb (ret =? 0) then (t0, Ok (ret, cd0, sinks))
    else (t0 ++ (process_streams cd0 sources sinks).1,
          (process_streams cd0 sources sinks).2).
Proof.
  intros H. unfold google_rtc_audio_processing_process. rewrite H.
  unfold mbind, M_bind. destruct (negb (ret =? 0)).
  - cbn. rewrite app_nil_r. reflexivity.
  - destruct (process_streams cd0 sources sinks). reflexivity.
Qed.

(** X15.  A failure of the apply step is the result of the cycle: process
    returns that status right away, acquires no view, makes no further
    call and leaves the sinks as they were. *)
Theorem process_apply_failure (cd : comp_data) sources sinks t0 ret cd0 :
  reconfigure_if_pending cd = (t0, Ok (ret, cd0)) ->
  ret <> 0 ->
  google_rtc_audio_processing_process cd sources sinks
  = (t0, Ok (ret, cd0, sinks)).
Proof.
  intros H Hne. rewrite (apply_then _ _ _ _ _ _ H).
  apply Z.eqb_neq in Hne. rewrite Hne. reflexivity.
Qed.

(** X16.  When the acquire of the reference view fails, the cycle stops at
    the assertion that follows it: the acquire is the only call made after
    the apply step, and neither the library nor the other pins have been
    touched. *)
Theorem process_reference_acquire_failure (cd : comp_data) sources sinks
    t0 cd0 ref_stream src_stream dst_stream :
  reconfigure_if_pending cd = (t0, Ok (0, cd0)) ->
  pin sources (aec_reference_source cd0) = Ok ref_stream ->
  pin sources (raw_microphone_source cd0) = Ok src_stream ->
  pin sinks 0 = Ok dst_stream ->
  let ref_bytes :=
    size_mul (num_frames cd0) (source_get_frame_bytes ref_stream) in
  fst (source_get_data ref_stream ref_bytes) <> 0 ->
  google_rtc_audio_processing_process cd sources sinks
  = (t0 ++ [EvSourceGetData (aec_reference_source cd0) ref_bytes],
     Fault AssertFailed).
Proof.
  intros H Href Hsrc Hdst ref_bytes Hfail.
  rewrite (apply_then _ _ _ _ _ _ H). cbn [Z.eqb negb].
  unfold process_streams. rewrite Hsrc, Href, Hdst, !lift_bind_ok.
  rewrite emit_bind. fold ref_bytes.
  destruct (source_get_data ref_stream ref_bytes) as [r p].
  cbn [fst] in Hfail. apply Z.eqb_neq in Hfail. rewrite Hfail.
  reflexivity.
Qed.

(** One cycle after the apply step, over whole stretches of [F] frames:
    the calls, the component data it leaves and the output region. *)
Lemma process_streams_linear (cd0 : comp_data) sources sinks
    ref_stream src_stream dst_stream p_ref p_src p_dst r2 st2 r4 st4 b3 :
  pin sources (aec_reference_source cd0) = Ok ref_stream ->
  pin sources (raw_microphone_source cd0) = Ok src_stream ->
  pin sinks 0 = Ok dst_stream ->
  to_u32 (source_get_frame_bytes ref_stream) <> 0 ->
  let F := num_frames cd0 in
  let Cr := num_aec_reference_channels cd0 in
  let C := num_capture_channels cd0 in
  let ref_bytes := size_mul F (source_get_frame_bytes ref_stream) in
  let src_bytes := size_mul F (source_get_frame_bytes src_stream) in
  source_get_data ref_stream ref_bytes = (0, p_ref) ->
  source_get_data src_stream src_bytes = (0, p_src) ->
  sink_get_buffer dst_stream src_bytes = (0, p_dst) ->
  0 <= F -> 0 <= Cr -> 0 <= C -> 0 <= p_ref -> 0 <= p_src -> 0 <= p_dst ->
  p_ref + F * Cr <= Z.of_nat (length (source_buffer ref_stream)) ->
  p_src + F * C <= Z.of_nat (length (source_buffer src_stream)) ->
  p_dst + F * C <= Z.of_nat (length (sink_buffer dst_stream)) ->
  Z.of_nat (length (aec_reference_buffer cd0)) = Cr * F ->
  Z.of_nat (length (process_buffer cd0)) = C * F ->
  let rendered :=
    planar F Cr (drop (Z.to_nat p_ref) (source_buffer ref_stream)) in
  let captured :=
    planar F C (drop (Z.to_nat p_src) (source_buffer src_stream)) in
  GoogleRtcAudioProcessingAnalyzeRender_int16 (state cd0) rendered
  = (r2, st2) ->
  GoogleRtcAudioProcessingProcessCapture_int16 st2 captured
  = (r4, st4, b3) ->
  process_streams cd0 sources sinks
  = (stream_calls cd0 ref_stream src_stream,
     Ok (0,
         set_process_buffer
           (set_state
              (set_process_buffer
                 (set_state (set_aec_reference_buffer cd0 rendered) st2)
                 captured)
              st4)
           b3,
         <[0%nat :=
             sink_set_buffer dst_stream
               (take (Z.to_nat p_dst) (sink_buffer dst_stream)
                ++ interleaved F C b3
                ++ drop (Z.to_nat (p_dst + F * C))
                     (sink_buffer dst_stream))]> sinks)).
Proof.
  intros Href Hsrc Hdst Hfb F Cr C ref_bytes src_bytes Hg1 Hg2 Hg3
    HF HCr HC Hp1 Hp2 Hp3 Hfit1 Hfit2 Hfit3 Hl1 Hl2
    rendered captured EA EP.
  destruct (deinterlace_result F Cr p_ref (source_buffer ref_stream)
              (aec_reference_buffer cd0)) as [c1 E1]; try assumption.
  destruct (deinterlace_result F C p_src (source_buffer src_stream)
              (process_buffer cd0)) as [c2 E2]; try assumption.
  fold rendered in E1. fold captured in E2.
  pose proof (ProcessCapture_in_place st2 captured) as Hin.
  rewrite EP in Hin. cbn [snd] in Hin.
  destruct (interlace_result F C p_dst (sink_buffer dst_stream) b3)
    as [c3 E3]; try assumption.
  { rewrite Hin. unfold captured. rewrite planar_length. lia. }
  unfold process_streams.
  rewrite Hsrc, Href, Hdst, !lift_bind_ok.
  rewrite emit_bind. fold F ref_bytes. rewrite Hg1.
  cbn [Z.eqb]. rewrite assert_bind_true.
  rewrite (size_div_ok _ _ Hfb), lift_bind_ok.
  fold Cr. rewrite E1, lift_bind_ok.
  rewrite emit_bind.
  cbn [state set_aec_reference_buffer aec_reference_buffer].
  rewrite EA. rewrite !emit_bind.
  cbn [num_frames set_state set_aec_reference_buffer
       raw_microphone_source aec_reference_source].
  fold F src_bytes. rewrite Hg2.
  cbn [Z.eqb]. rewrite assert_bind_true.
  cbn [num_capture_channels process_buffer set_state
       set_aec_reference_buffer].
  fold C. rewrite E2, lift_bind_ok.
  rewrite !emit_bind.
  cbn [state set_process_buffer process_buffer set_state].
  rewrite EP. rewrite emit_bind, Hg3.
  cbn [Z.eqb]. rewrite assert_bind_true.
  cbn [num_frames num_capture_channels process_buffer set_process_buffer
       set_state set_aec_reference_buffer].
  fold F C. rewrite E3, lift_bind_ok.
  rewrite emit_bind. reflexivity.
Qed.

(** X17.  What one cycle computes.  With the three views holding whole
    stretches of [F] frames from their acquire positions, a reference frame
    size that is not zero (line 693 divides by it), and the scratch buffers
    sized for the configured channels, the cycle hands the library
    the per-channel arrangement of the reference frames for analysis, then
    the per-channel arrangement of the capture frames for processing, and
    writes the interleaved arrangement of what the library left in the
    buffer over the output stretch, leaving the rest of the output region
    as it was. *)
Theorem process_cycle_result (cd : comp_data) sources sinks t0 cd0
    ref_stream src_stream dst_stream p_ref p_src p_dst :
  reconfigure_if_pending cd = (t0, Ok (0, cd0)) ->
  pin sources (aec_reference_source cd0) = Ok ref_stream ->
  pin sources (raw_microphone_source cd0) = Ok src_stream ->
  pin sinks 0 = Ok dst_stream ->
  to_u32 (source_get_frame_bytes ref_stream) <> 0 ->
  let F := num_frames cd0 in
  let Cr := num_aec_reference_channels cd0 in
  let C := num_capture_channels cd0 in
  let ref_bytes := size_mul F (source_get_frame_bytes ref_stream) in
  let src_bytes := size_mul F (source_get_frame_bytes src_stream) in
  source_get_data ref_stream ref_bytes = (0, p_ref) ->
  source_get_data src_stream src_bytes = (0, p_src) ->
  sink_get_buffer dst_stream src_bytes = (0, p_dst) ->
  0 <= F -> 0 <= Cr -> 0 <= C -> 0 <= p_ref -> 0 <= p_src -> 0 <= p_dst ->
  p_ref + F * Cr <= Z.of_nat (length (source_buffer ref_stream)) ->
  p_src + F * C <= Z.of_nat (length (source_buffer src_stream)) ->
  p_dst + F * C <= Z.of_nat (length (sink_buffer dst_stream)) ->
  Z.of_nat (length (aec_reference_buffer cd0)) = Cr * F ->
  Z.of_nat (length (process_buffer cd0)) = C * F ->
  let rendered :=
    planar F Cr (drop (Z.to_nat p_ref) (source_buffer ref_stream)) in
  let captured :=
    planar F C (drop (Z.to_nat p_src) (source_buffer src_stream)) in
  let analyzed :=
    GoogleRtcAudioProcessingAnalyzeRender_int16 (state cd0) rendered in
  let processed :=
    GoogleRtcAudioProcessingProcessCapture_int16 (snd analyzed) captured in
  exists cd',
    google_rtc_audio_processing_process cd sources sinks
    = (t0 ++ stream_calls cd0 ref_stream src_stream,
       Ok (0, cd',
           <[0%nat :=
               sink_set_buffer dst_stream
                 (take (Z.to_nat p_dst) (sink_buffer dst_stream)
                  ++ interleaved F C (snd processed)
                  ++ drop (Z.to_nat (p_dst + F * C))
                       (sink_buffer dst_stream))]> sinks)) /\
    state cd' = snd (fst processed) /\
    aec_reference_buffer cd' = rendered /\
    process_buffer cd' = snd processed.
Proof.
  intros Happly Href Hsrc Hdst Hfb F Cr C ref_bytes src_bytes Hg1 Hg2 Hg3
    HF HCr HC Hp1 Hp2 Hp3 Hfit1 Hfit2 Hfit3 Hl1 Hl2
    rendered captured analyzed processed.
  rewrite (apply_then _ _ _ _ _ _ Happly). cbn [Z.eqb negb].
  subst analyzed processed.
  destruct (GoogleRtcAudioProcessingAnalyzeRender_int16 (state cd0) rendered)
    as [r2 st2] eqn:EA.
  cbn [snd].
  destruct (GoogleRtcAudioProcessingProcessCapture_int16 st2 captured)
    as [[r4 st4] b3] eqn:EP.
  cbn [fst snd].
  rewrite (process_streams_linear cd0 sources sinks ref_stream src_stream
             dst_stream p_ref p_src p_dst r2 st2 r4 st4 b3); try assumption.
  cbn [fst snd]. eexists. split; [reflexivity|]. repeat split.
Qed.

Lemma planar_take F C samples :
  0 <= F -> 0 <= C ->
  planar F C (take (Z.to_nat (F * C)) samples) = planar F C samples.
Proof.
  intros HF HC. unfold planar. apply map_ext_in. intros k Hk.
  apply in_seq in Hk. f_equal.
  assert (0 <= C * F) by nia.
  destruct (Z.eq_dec F 0) as [->|HFne]; [lia|].
  destruct (index_split (Z.of_nat k) F ltac:(lia) ltac:(lia)) as (E & Hj & Hc).
  rewrite !nth_lookup, lookup_take_lt; [reflexivity|]. nia.
Qed.

(** X18.  With a library whose capture processing leaves the buffer as it
    found it, one cycle under the same conditions (whole stretches, a
    reference frame size that is not zero, scratch buffers sized for the
    channels) copies the capture stretch to the output stretch:
    the [F * C] cells from the capture position on appear, cell for cell,
    from the output position on, and the rest of the output region is as it
    was. *)
Theorem process_pass_through (cd : comp_data) sources sinks t0 cd0
    ref_stream src_stream dst_stream p_ref p_src p_dst :
  reconfigure_if_pending cd = (t0, Ok (0, cd0)) ->
  pin sources (aec_reference_source cd0) = Ok ref_stream ->
  pin sources (raw_microphone_source cd0) = Ok src_stream ->
  pin sinks 0 = Ok dst_stream ->
  to_u32 (source_get_frame_bytes ref_stream) <> 0 ->
  let F := num_frames cd0 in
  let Cr := num_aec_reference_channels cd0 in
  let C := num_capture_channels cd0 in
  let ref_bytes := size_mul F (source_get_frame_bytes ref_stream) in
  let src_bytes := size_mul F (source_get_frame_bytes src_stream) in
  source_get_data ref_stream ref_bytes = (0, p_ref) ->
  source_get_data src_stream src_bytes = (0, p_src) ->
  sink_get_buffer dst_stream src_bytes = (0, p_dst) ->
  0 <= F -> 0 <= Cr -> 0 <= C -> 0 <= p_ref -> 0 <= p_src -> 0 <= p_dst ->
  p_ref + F * Cr <= Z.of_nat (length (source_buffer ref_stream)) ->
  p_src + F * C <= Z.of_nat (length (source_buffer src_stream)) ->
  p_dst + F * C <= Z.of_nat (length (sink_buffer dst_stream)) ->
  Z.of_nat (length (aec_reference_buffer cd0)) = Cr * F ->
  Z.of_nat (length (process_buffer cd0)) = C * F ->
  let stretch :=
    take (Z.to_nat (F * C))
      (drop (Z.to_nat p_src) (source_buffer src_stream)) in
  Forall (fun x => 0 <= x < 2 ^ 16) stretch ->
  (forall st buffer,
     snd (GoogleRtcAudioProcessingProcessCapture_int16 st buffer) = buffer) ->
  exists t cd',
    google_rtc_audio_processing_process cd sources sinks
    = (t, Ok (0, cd',
              <[0%nat :=
                  sink_set_buffer dst_stream
                    (take (Z.to_nat p_dst) (sink_buffer dst_stream)
                     ++ stretch
                     ++ drop (Z.to_nat (p_dst + F * C))
                          (sink_buffer dst_stream))]> sinks)).
Proof.
  intros Happly Href Hsrc Hdst Hfb F Cr C ref_bytes src_bytes Hg1 Hg2 Hg3
    HF HCr HC Hp1 Hp2 Hp3 Hfit1 Hfit2 Hfit3 Hl1 Hl2 stretch Hrange Hid.
  rewrite (apply_then _ _ _ _ _ _ Happly). cbn [Z.eqb negb].
  set (rendered :=
         planar F Cr (drop (Z.to_nat p_ref) (source_buffer ref_stream))).
  set (captured :=
         planar F C (drop (Z.to_nat p_src) (source_buffer src_stream))).
  destruct (GoogleRtcAudioProcessingAnalyzeRender_int16 (state cd0) rendered)
    as [r2 st2] eqn:EA.
  pose proof (Hid st2 captured) as Hb.
  destruct (GoogleRtcAudioProcessingProcessCapture_int16 st2 captured)
    as [[r4 st4] b3] eqn:EP.
  cbn [snd] in Hb. subst b3.
  rewrite (process_streams_linear cd0 sources sinks ref_stream src_stream
             dst_stream p_ref p_src p_dst r2 st2 r4 st4 captured);
    try assumption.
  assert (Hi : interleaved F C captured = stretch).
  { unfold captured. rewrite <- (planar_take F C) by assumption.
    fold stretch. apply interleaved_planar; try assumption.
    unfold stretch. rewrite length_take, length_drop. nia. }
  cbn [fst snd]. unfold captured, stretch, F, C in *.
  rewrite Hi. do 2 eexists. reflexivity.
Qed.

End CycleResults.

Section ScratchOverflow.
Context {aec : AecLibrary} {blob : BlobHandler} {plat : Platform}.

Lemma deinterlace_frame_overflow n : forall channel region cur buffer F i C0,
  0 <= channel -> 0 <= cur -> 0 <= i < F ->
  channel <= C0 < channel + Z.of_nat n ->
  cur + C0 < Z.of_nat (length region) ->
  Z.of_nat (length buffer) = C0 * F ->
  deinterlace_frame n channel region cur buffer F i = Fault OutOfScratch.
Proof.
  induction n as [|n IH]; intros channel region cur buffer F i C0
    Hc Hcur Hi HC0 Hreg Hlen; [lia|].
  cbn [deinterlace_frame].
  destruct (load_ok region (cur + channel)) as (x & _ & ->); [lia|].
  cbn [mbind result_bind].
  destruct (Z.eq_dec channel C0) as [->|Hne].
  - unfold scratch_store. cbv zeta.
    destruct (Z.ltb_spec (C0 * F + i) 0); [reflexivity|].
    destruct (Z.leb_spec (Z.of_nat (length buffer)) (C0 * F + i));
      [reflexivity|lia].
  - rewrite scratch_store_ok by nia. cbn [mbind result_bind].
    apply (IH _ _ _ _ _ _ C0); try lia.
    rewrite length_insert. assumption.
Qed.

Lemma deinterlace_overflow F C C0 p region buffer :
  0 < F -> 0 <= p -> 0 <= C0 < C ->
  p + C0 < Z.of_nat (length region) ->
  Z.of_nat (length buffer) = C0 * F ->
  deinterlace (Z.to_nat F) 0 C region p buffer F = Fault OutOfScratch.
Proof.
  intros HF Hp HC Hreg Hlen.
  destruct (Z.to_nat F) as [|n] eqn:En; [lia|].
  cbn [deinterlace].
  rewrite (deinterlace_frame_overflow _ _ _ _ _ _ _ C0); try lia.
  reflexivity.
Qed.

(** X19.  The capture channel count is not held to what init allocated.
    When the process buffer has room for [C0] channels and the stored
    capture channel count is larger, a cycle whose reference part runs
    through (whole stretch, a frame size that is not zero for the division
    of line 693) leaves defined behaviour in the first frame of the capture
    loop, at channel [C0]: the reference stream has been analysed and
    released and the capture view acquired, and nothing is released or
    written after that. *)
Theorem process_scratch_overflow (cd : comp_data) sources sinks t0 cd0
    ref_stream src_stream dst_stream p_ref p_src C0 :
  reconfigure_if_pending cd = (t0, Ok (0, cd0)) ->
  pin sources (aec_reference_source cd0) = Ok ref_stream ->
  pin sources (raw_microphone_source cd0) = Ok src_stream ->
  pin sinks 0 = Ok dst_stream ->
  to_u32 (source_get_frame_bytes ref_stream) <> 0 ->
  let F := num_frames cd0 in
  let Cr := num_aec_reference_channels cd0 in
  let C := num_capture_channels cd0 in
  let ref_bytes := size_mul F (source_get_frame_bytes ref_stream) in
  let src_bytes := size_mul F (source_get_frame_bytes src_stream) in
  source_get_data ref_stream ref_bytes = (0, p_ref) ->
  source_get_data src_stream src_bytes = (0, p_src) ->
  0 < F -> 0 <= Cr -> 0 <= p_ref -> 0 <= p_src ->
  p_ref + F * Cr <= Z.of_nat (length (source_buffer ref_stream)) ->
  p_src + C0 < Z.of_nat (length (source_buffer src_stream)) ->
  Z.of_nat (length (aec_reference_buffer cd0)) = Cr * F ->
  Z.of_nat (length (process_buffer cd0)) = C0 * F ->
  0 <= C0 < C ->
  google_rtc_audio_processing_process cd sources sinks
  = (t0 ++
     [ EvSourceGetData (aec_reference_source cd0) ref_bytes;
       EvAecAnalyzeRender;
       EvSourceReleaseData (aec_reference_source cd0) ref_bytes;
       EvSourceGetData (raw_microphone_source cd0) src_bytes ],
     Fault OutOfScratch).
Proof.
  intros H Href Hsrc Hdst Hfb F Cr C ref_bytes src_bytes Hg1 Hg2
    HF HCr Hp1 Hp2 Hfit1 Hfit2 Hl1 Hl2 HC0.
  rewrite (apply_then _ _ _ _ _ _ H). cbn [Z.eqb negb].
  destruct (deinterlace_result F Cr p_ref (source_buffer ref_stream)
              (aec_reference_buffer cd0)) as [c1 E1]; try assumption; try lia.
  unfold process_streams.
  rewrite Hsrc, Href, Hdst, !lift_bind_ok.
  rewrite emit_bind. fold F ref_bytes. rewrite Hg1.
  cbn [Z.eqb]. rewrite assert_bind_true.
  rewrite (size_div_ok _ _ Hfb), lift_bind_ok.
  fold Cr. rewrite E1, lift_bind_ok.
  rewrite emit_bind.
  cbn [state set_aec_reference_buffer aec_reference_buffer].
  destruct (GoogleRtcAudioProcessingAnalyzeRender_int16 _ _) as [r2 st2].
  rewrite !emit_bind.
  cbn [num_frames set_state set_aec_reference_buffer
       raw_microphone_source aec_reference_source].
  fold F src_bytes. rewrite Hg2.
  cbn [Z.eqb]. rewrite assert_bind_true.
  cbn [num_capture_channels process_buffer set_state
       set_aec_reference_buffer].
  fold C.
  rewrite (deinterlace_overflow F C C0) by assumption.
  reflexivity.
Qed.

End ScratchOverflow.

Section SizingInvariant.
Context {aec : AecLibrary} {blob : BlobHandler} {plat : Platform}.

Lemma result_bind_inv {A B} (r : result A) (k : A -> result B) b :
  mbind k r = Ok b -> exists a, r = Ok a /\ k a = Ok b.
Proof. destruct r as [a|f]; [eauto|discriminate]. Qed.

Lemma scratch_store_length buffer F c i x b :
  scratch_store buffer F c i x = Ok b -> length b = length buffer.
Proof.
  unfold scratch_store. cbv zeta. destruct (_ || _); [discriminate|].
  intros [= <-]. apply length_insert.
Qed.

Lemma store_length region i x r :
  store region i x = Ok r -> length r = length region.
Proof.
  unfold store. destruct (_ || _); [discriminate|].
  intros [= <-]. apply length_insert.
Qed.

Lemma deinterlace_frame_length n : forall channel region cur buffer F i b,
  deinterlace_frame n channel region cur buffer F i = Ok b ->
  length b = length buffer.
Proof.
  induction n as [|n IH]; intros channel region cur buffer F i b.
  - intros [= <-]. reflexivity.
  - cbn [deinterlace_frame]. intros H.
    apply result_bind_inv in H as (x & _ & H).
    apply result_bind_inv in H as (b1 & Hs & H).
    apply IH in H. apply scratch_store_length in Hs. congruence.
Qed.

Lemma deinterlace_length n : forall i C region cur buffer F b c,
  deinterlace n i C region cur buffer F = Ok (b, c) ->
  length b = length buffer.
Proof.
  induction n as [|n IH]; intros i C region cur buffer F b c.
  - intros [= <- _]. reflexivity.
  - cbn [deinterlace]. intros H.
    apply result_bind_inv in H as (b1 & Hf & H).
    apply IH in H. apply deinterlace_frame_length in Hf. congruence.
Qed.

Lemma reconfigure_same_frame (cd : comp_data) t ret cd' :
  google_rtc_audio_processing_reconfigure cd = (t, Ok (ret, cd')) ->
  num_frames cd' = num_frames cd /\
  num_aec_reference_channels cd' = num_aec_reference_channels cd /\
  aec_reference_buffer cd' = aec_reference_buffer cd /\
  process_buffer cd' = process_buffer cd /\
  aec_reference_source cd' = aec_reference_source cd /\
  raw_microphone_source cd' = raw_microphone_source cd /\
  base_cfg_audio_fmt cd' = base_cfg_audio_fmt cd /\
  config_reference_fmt cd' = config_reference_fmt cd.
Proof.
  unfold google_rtc_audio_processing_reconfigure.
  destruct (_ && _).
  { intros [= _ _ <-]. repeat split. }
  rewrite emit_bind.
  destruct (comp_get_data_blob _) as [[config size] h].
  destruct (size =? 0).
  { cbn. intros [= _ _ <-]. repeat split. }
  destruct config as [config|].
  2:{ cbn. intros [= _ _ <-]. repeat split. }
  destruct (reconfigure_apply_total
              (GoogleRtcAudioProcessingParseSofConfigMessage config size)
              (set_reconfigure (set_tuning_handler cd h) false))
    as (t1 & r1 & c1 & E & F).
  rewrite E. cbn. intros [= _ _ <-].
  destruct F as (F1 & F2 & F3 & F4 & F5 & F6 & _ & _ & F9 & F10).
  cbn in *. repeat split; assumption.
Qed.

Lemma reconfigure_if_pending_same_frame (cd : comp_data) t ret cd' :
  reconfigure_if_pending cd = (t, Ok (ret, cd')) ->
  num_frames cd' = num_frames cd /\
  num_aec_reference_channels cd' = num_aec_reference_channels cd /\
  aec_reference_buffer cd' = aec_reference_buffer cd /\
  process_buffer cd' = process_buffer cd /\
  aec_reference_source cd' = aec_reference_source cd /\
  raw_microphone_source cd' = raw_microphone_source cd /\
  base_cfg_audio_fmt cd' = base_cfg_audio_fmt cd /\
  config_reference_fmt cd' = config_reference_fmt cd.
Proof.
  unfold reconfigure_if_pending. destruct (reconfigure cd).
  - apply reconfigure_same_frame.
  - intros [= _ _ <-]. repeat split.
Qed.

Lemma process_streams_sizes (cd : comp_data) sources sinks t ret cd' sinks' :
  process_streams cd sources sinks = (t, Ok (ret, cd', sinks')) ->
  length (aec_reference_buffer cd') = length (aec_reference_buffer cd) /\
  length (process_buffer cd') = length (process_buffer cd) /\
  num_aec_reference_channels cd' = num_aec_reference_channels cd /\
  length sinks' = length sinks.
Proof.
  unfold process_streams. intros H.
  apply bind_lift_inv in H as (src_stream & Hsrc & H).
  apply bind_lift_inv in H as (ref_stream & Href & H).
  apply bind_lift_inv in H as (dst_stream & Hdst & H).
  apply bind_emit_inv in H as (t1 & -> & H).
  destruct (source_get_data ref_stream _) as [r1 ref].
  apply bind_assert_inv in H as (_ & H).
  apply bind_lift_inv in H as (num_samples_remaining & _ & H).
  apply bind_lift_inv in H as ([buffer1 c1] & E1 & H).
  apply bind_emit_inv in H as (t2 & -> & H).
  destruct (GoogleRtcAudioProcessingAnalyzeRender_int16 _ _) as [r2 st2].
  apply bind_emit_inv in H as (t3 & -> & H).
  apply bind_emit_inv in H as (t4 & -> & H).
  destruct (source_get_data src_stream _) as [r3 src].
  apply bind_assert_inv in H as (_ & H).
  apply bind_lift_inv in H as ([buffer2 c2] & E2 & H).
  apply bind_emit_inv in H as (t5 & -> & H).
  apply bind_emit_inv in H as (t6 & -> & H).
  pose proof (ProcessCapture_in_place
                (state (set_process_buffer
                          (set_state (set_aec_reference_buffer cd buffer1) st2)
                          buffer2))
                (process_buffer
                   (set_process_buffer
                      (set_state (set_aec_reference_buffer cd buffer1) st2)
                      buffer2))) as Hin.
  destruct (GoogleRtcAudioProcessingProcessCapture_int16 _ _)
    as [[r4 st4] b3].
  apply bind_emit_inv in H as (t7 & -> & H).
  destruct (sink_get_buffer dst_stream _) as [r5 dst].
  apply bind_assert_inv in H as (_ & H).
  apply bind_lift_inv in H as ([region c3] & _ & H).
  apply bind_emit_inv in H as (t8 & -> & H).
  injection H as <- <- <- <-.
  apply deinterlace_length in E1, E2. cbn in *.
  rewrite length_insert. repeat split; congruence.
Qed.

(** X20.  A cycle keeps the sizing fixed at init: whatever it returns, it
    leaves the frame count, the reference channel count, the sizes of both
    scratch buffers, the two source indices and the number of sinks as they
    were. *)
Theorem process_keeps_sizing (cd : comp_data) sources sinks t ret cd' sinks' :
  google_rtc_audio_processing_process cd sources sinks
  = (t, Ok (ret, cd', sinks')) ->
  num_frames cd' = num_frames cd /\
  num_aec_reference_channels cd' = num_aec_reference_channels cd /\
  length (aec_reference_buffer cd') = length (aec_reference_buffer cd) /\
  length (process_buffer cd') = length (process_buffer cd) /\
  aec_reference_source cd' = aec_reference_source cd /\
  raw_microphone_source cd' = raw_microphone_source cd /\
  length sinks' = length sinks.
Proof.
  unfold google_rtc_audio_processing_process. intros H.
  apply bind_inv in H as (t0 & [r0 cd0] & t1 & Happly & H & ->).
  apply reconfigure_if_pending_same_frame in Happly
    as (A1 & A2 & A3 & A4 & A5 & A6 & _).
  destruct (negb (r0 =? 0)).
  - injection H as _ _ <- <-. rewrite A3, A4. repeat split; assumption.
  - pose proof (process_streams_sizes _ _ _ _ _ _ _ H) as (S1 & S2 & S3 & S4).
    apply process_streams_inv in H
      as (r & s & _ & _ & _ & _ & _ & _ & _ & N & I1 & I2).
    rewrite A3, A4 in *. repeat split; congruence.
Qed.

End SizingInvariant.

Section PrepareResults.
Context {aec : AecLibrary} {blob : BlobHandler} {plat : Platform}.

(** X21.  The loop of prepare over the sources sets both alignment constants
    of every source to 1 and leaves all of the component data but the two
    indices.  The reference index becomes the index of the last source on
    the feedback queue and [aec_channels] its channel count; the microphone
    index becomes the index of the last other source and
    [microphone_stream_channels] its channel count.  A role that no source
    takes keeps the index it had, with a channel count of 0: the loop does
    not fail when both sources have the same role. *)
Theorem prepare_scan_roles (cd : comp_data) (sources : list sof_source) :
  exists cd' a m,
    prepare_scan (length sources) 0 cd sources 0 0
    = Ok (cd',
          (fun s => source_set_alignment_constants s 1 1) <$> sources,
          a, m) /\
    retained cd cd' /\
    (forall j s, last_with true sources j s ->
       aec_reference_source cd' = Z.of_nat j /\
       a = source_get_channels s) /\
    (forall j s, last_with false sources j s ->
       raw_microphone_source cd' = Z.of_nat j /\
       m = source_get_channels s) /\
    (none_with true sources 0 ->
       aec_reference_source cd' = aec_reference_source cd /\ a = 0) /\
    (none_with false sources 0 ->
       raw_microphone_source cd' = raw_microphone_source cd /\ m = 0).
Proof. exact (prepare_scan_all cd sources). Qed.

(** X22.  The pin counts come first in prepare: with other than two
    sources or other than one sink it returns -EINVAL having made no call,
    touched no pin and changed nothing of the component data. *)
Theorem prepare_pin_count (cd : comp_data) sources sinks :
  length sources <> 2%nat \/ length sinks <> 1%nat ->
  google_rtc_audio_processing_prepare cd sources sinks
  = ([], Ok (- EINVAL, cd, sources, sinks)).
Proof.
  intros H. unfold google_rtc_audio_processing_prepare.
  unfold GOOGLE_RTC_NUM_INPUT_PINS, GOOGLE_RTC_NUM_OUTPUT_PINS.
  destruct (Z.eqb_spec (Z.of_nat (length sources)) 2) as [Hs|Hs];
    cbn [negb]; [|reflexivity].
  destruct (Z.eqb_spec (Z.of_nat (length sinks)) 1) as [Hk|Hk];
    cbn [negb]; [|reflexivity].
  lia.
Qed.

Lemma prepare_success_inv (cd : comp_data) sources sinks t cd' sources'
    sinks' :
  google_rtc_audio_processing_prepare cd sources sinks
  = (t, Ok (0, cd', sources', sinks')) ->
  exists cd1 a m ref mic k,
    length sources = 2%nat /\ sinks = [k] /\
    prepare_scan (length sources) 0 cd sources 0 0
    = Ok (cd1, (fun s => source_set_alignment_constants s 1 1) <$> sources,
          a, m) /\
    retained cd cd1 /\
    let out :=
      sink_set_alignment_constants
        (ipc4_update_sink_format k (base_cfg_audio_fmt cd)) 1 1 in
    sinks' = [out] /\
    pin sources' (aec_reference_source cd1) = Ok ref /\
    pin sources' (raw_microphone_source cd1) = Ok mic /\
    to_u32 (num_aec_reference_channels cd) <= to_u32 a /\
    num_capture_channels cd <= m /\
    num_capture_channels cd <= sink_get_channels out /\
    frame_fmt_supported (sink_get_frm_fmt out) = true /\
    sink_get_rate out
    = CONFIG_COMP_GOOGLE_RTC_AUDIO_PROCESSING_SAMPLE_RATE_HZ /\
    size_mul (num_frames cd) (source_get_frame_bytes mic)
    = source_get_min_available mic /\
    size_mul (num_frames cd) (sink_get_frame_bytes out)
    = sink_get_min_free_space out /\
    size_mul (num_frames cd) (source_get_frame_bytes ref)
    = source_get_min_available ref /\
    google_rtc_audio_processing_reconfigure cd1 = (t, Ok (0, cd')).
Proof.
  unfold google_rtc_audio_processing_prepare.
  unfold GOOGLE_RTC_NUM_INPUT_PINS, GOOGLE_RTC_NUM_OUTPUT_PINS.
  destruct (Z.eqb_spec (Z.of_nat (length sources)) 2) as [Hs|Hs];
    cbn [negb]; [|intros [=]].
  destruct (Z.eqb_spec (Z.of_nat (length sinks)) 1) as [Hk|Hk];
    cbn [negb]; [|intros [=]].
  destruct sinks as [|k [|]]; try (cbn in Hk; lia). clear Hk.
  rewrite Nat2Z.id.
  destruct (prepare_scan_all cd sources)
    as (cd1 & a & m & E & Hret & _).
  rewrite E, lift_bind_ok. intros H.
  apply bind_lift_inv in H as (ref0 & _ & H).
  apply bind_lift_inv in H as (mic0 & _ & H).
  rewrite pin_singleton, lift_bind_ok in H.
  destruct (Z.gtb_spec (to_u32 (num_aec_reference_channels cd1)) (to_u32 a))
    as [|Ha]; [discriminate H|].
  change (pin (<[0%nat:=ipc4_update_sink_format k (base_cfg_audio_fmt cd1)]>
                 [k]) 0)
    with (Ok (ipc4_update_sink_format k (base_cfg_audio_fmt cd1))) in H.
  rewrite lift_bind_ok in H.
  cbn [sink_set_alignment_constants sink_get_frm_fmt sink_get_rate
       sink_get_channels sink_get_frame_bytes sink_get_min_free_space] in H.
  destruct (Z.gtb_spec (num_capture_channels cd1) m) as [|Hm];
    [discriminate H|].
  destruct (Z.gtb_spec (num_capture_channels cd1)
              (sink_get_channels
                 (ipc4_update_sink_format k (base_cfg_audio_fmt cd1))))
    as [|Ho]; [discriminate H|].
  destruct (frame_fmt_supported _) eqn:Hfmt; [|discriminate H].
  destruct (Z.eqb_spec
              (sink_get_rate
                 (ipc4_update_sink_format k (base_cfg_audio_fmt cd1)))
              CONFIG_COMP_GOOGLE_RTC_AUDIO_PROCESSING_SAMPLE_RATE_HZ)
    as [Hrate|_]; [|discriminate H].
  cbn [negb] in H.
  apply bind_lift_inv in H as (mic & Hmic & H).
  apply bind_lift_inv in H as (ref & Href & H).
  destruct (Z.eqb_spec (size_mul (num_frames cd1) (source_get_frame_bytes mic))
              (source_get_min_available mic)) as [S1|_]; [|discriminate H].
  destruct (Z.eqb_spec
              (size_mul (num_frames cd1)
                 (sink_get_frame_bytes
                    (ipc4_update_sink_format k (base_cfg_audio_fmt cd1))))
              (sink_get_min_free_space
                 (ipc4_update_sink_format k (base_cfg_audio_fmt cd1))))
    as [S2|_]; [|discriminate H].
  destruct (Z.eqb_spec (size_mul (num_frames cd1) (source_get_frame_bytes ref))
              (source_get_min_available ref)) as [S3|_]; [|discriminate H].
  cbn [negb] in H.
  apply bind_inv in H as (t0 & [r c] & t1 & Hrec & H & ->).
  injection H as <- <- <- <- <-.
  pose proof Hret as (R1 & R2 & R3 & R4 & R5 & _).
  rewrite R2, R3, R4, R5 in *.
  exists cd1, a, m, ref, mic, k. cbn zeta.
  cbn [sink_set_alignment_constants sink_get_frm_fmt sink_get_rate
       sink_get_channels sink_get_frame_bytes sink_get_min_free_space].
  rewrite app_nil_r.
  split; [lia|]. split; [reflexivity|]. split; [reflexivity|].
  split; [exact Hret|].
  repeat split; try assumption; try lia.
Qed.

(** X23.  The sizing contract a successful prepare leaves.  There are two
    sources and one sink; the pins at the two indices exist; for each of the
    three pins the frame count times the pin's frame size, computed in
    [size_t], is exactly what the pin reports as available or free; the sink
    has both alignment constants 1, the configured rate and a supported
    format. *)
Theorem prepare_success_contract (cd : comp_data) sources sinks t cd'
    sources' sinks' :
  google_rtc_audio_processing_prepare cd sources sinks
  = (t, Ok (0, cd', sources', sinks')) ->
  length sources = 2%nat /\ length sinks = 1%nat /\
  exists ref mic out,
    pin sources' (aec_reference_source cd') = Ok ref /\
    pin sources' (raw_microphone_source cd') = Ok mic /\
    sinks' = [out] /\
    size_mul (num_frames cd') (source_get_frame_bytes ref)
    = source_get_min_available ref /\
    size_mul (num_frames cd') (source_get_frame_bytes mic)
    = source_get_min_available mic /\
    size_mul (num_frames cd') (sink_get_frame_bytes out)
    = sink_get_min_free_space out /\
    sink_alignment_constants out = (1, 1) /\
    sink_get_rate out
    = CONFIG_COMP_GOOGLE_RTC_AUDIO_PROCESSING_SAMPLE_RATE_HZ /\
    frame_fmt_supported (sink_get_frm_fmt out) = true.
Proof.
  intros H.
  apply prepare_success_inv in H
    as (cd1 & a & m & ref & mic & k & Hs & -> & _ & Hret & H).
  cbn zeta in H.
  destruct H as (-> & Href & Hmic & _ & _ & _ & Hfmt & Hrate & S1 & S2 & S3
                 & Hrec).
  apply reconfigure_same_frame in Hrec as (F1 & _ & _ & _ & F5 & F6 & _).
  destruct Hret as (_ & _ & R3 & _).
  rewrite F1, F5, F6, R3.
  split; [assumption|]. split; [reflexivity|].
  exists ref, mic. eexists. repeat split; eassumption.
Qed.

(** X24.  The channel counts prepare checks.  A successful prepare has
    compared the counts of the component as they were on entry, before the
    pending blob is applied, with the counts the pins reported before the
    formats were pushed onto them: the reference count, as unsigned, is at
    most that of the last feedback source, the capture count at most that of
    the last other source and at most that of the sink.  With no feedback
    source, prepare succeeds only for a reference count of 0 modulo 2^32;
    with no other source, only for a capture count of 0 or below. *)
Theorem prepare_channel_bounds (cd : comp_data) sources sinks t cd'
    sources' sinks' :
  google_rtc_audio_processing_prepare cd sources sinks
  = (t, Ok (0, cd', sources', sinks')) ->
  (forall j s, last_with true sources j s ->
     to_u32 (num_aec_reference_channels cd)
     <= to_u32 (source_get_channels s)) /\
  (none_with true sources 0 -> to_u32 (num_aec_reference_channels cd) = 0) /\
  (forall j s, last_with false sources j s ->
     num_capture_channels cd <= source_get_channels s) /\
  (none_with false sources 0 -> num_capture_channels cd <= 0) /\
  (forall out, sinks' = [out] ->
     num_capture_channels cd <= sink_get_channels out).
Proof.
  intros H.
  apply prepare_success_inv in H
    as (cd1 & a & m & ref & mic & k & Hs & -> & E & Hret & H).
  cbn zeta in H.
  destruct H as (-> & _ & _ & Ha & Hm & Ho & _).
  destruct (prepare_scan_all cd sources)
    as (cd2 & a2 & m2 & E2 & _ & Rl & Ml & Rn & Mn).
  rewrite E in E2. injection E2 as <- <- <-.
  split; [|split; [|split; [|split]]].
  - intros j s Hl. destruct (Rl j s Hl) as [_ <-]. assumption.
  - intros Hn. destruct (Rn Hn) as [_ ->].
    change (to_u32 0) with 0 in Ha.
    pose proof (Z.mod_pos_bound (num_aec_reference_channels cd) (2 ^ 32)
                  ltac:(lia)).
    unfold to_u32 in *. lia.
  - intros j s Hl. destruct (Ml j s Hl) as [_ <-]. assumption.
  - intros Hn. destruct (Mn Hn) as [_ ->]. assumption.
  - intros out [= <-]. assumption.
Qed.

(** X25.  What prepare checked is what the next cycle asks for.  When a cycle that
    follows a successful prepare on the same pins returns 0, its two source
    acquires request exactly the byte counts the sources report as
    available, and release the same counts; the sink acquire and commit
    use the microphone source's count. *)
Theorem prepare_sizes_requests (cd : comp_data) sources sinks t cd' sources'
    sinks' t2 cd2 sinks2 :
  google_rtc_audio_processing_prepare cd sources sinks
  = (t, Ok (0, cd', sources', sinks')) ->
  google_rtc_audio_processing_process cd' sources' sinks'
  = (t2, Ok (0, cd2, sinks2)) ->
  exists t0 ref mic,
    pin sources' (aec_reference_source cd') = Ok ref /\
    pin sources' (raw_microphone_source cd') = Ok mic /\
    t2 = t0 ++
      [ EvSourceGetData (aec_reference_source cd')
          (source_get_min_available ref);
        EvAecAnalyzeRender;
        EvSourceReleaseData (aec_reference_source cd')
          (source_get_min_available ref);
        EvSourceGetData (raw_microphone_source cd')
          (source_get_min_available mic);
        EvSourceReleaseData (raw_microphone_source cd')
          (source_get_min_available mic);
        EvAecProcessCapture;
        EvSinkGetBuffer (source_get_min_available mic);
        EvSinkCommitBuffer (source_get_min_available mic) ].
Proof.
  intros Hprep Hproc.
  apply prepare_success_inv in Hprep
    as (cd1 & a & m & ref & mic & k & Hs & -> & _ & Hret & H).
  cbn zeta in H.
  destruct H as (-> & Href & Hmic & _ & _ & _ & _ & _ & S1 & _ & S3 & Hrec).
  apply reconfigure_same_frame in Hrec as (F1 & _ & _ & _ & F5 & F6 & _).
  destruct Hret as (_ & _ & R3 & _).
  unfold google_rtc_audio_processing_process in Hproc.
  apply bind_inv in Hproc as (t0 & [r0 cd0] & t1 & Happly & Hproc & ->).
  apply reconfigure_if_pending_same_frame in Happly
    as (A1 & _ & _ & _ & A5 & A6 & _).
  destruct (Z.eqb_spec r0 0) as [->|Hr]; cbn [negb] in Hproc.
  2:{ injection Hproc as _ E _ _. congruence. }
  apply process_streams_inv in Hproc
    as (r & s & Hr & Hsrc & -> & _).
  rewrite A5, F5 in Hr. rewrite A6, F6 in Hsrc.
  assert (r = ref) as -> by congruence.
  assert (s = mic) as -> by congruence.
  exists t0, ref, mic.
  rewrite F5, F6. split; [assumption|]. split; [assumption|].
  unfold stream_calls. rewrite A1, A5, A6, F1, F5, F6, R3, S1, S3.
  reflexivity.
Qed.

End PrepareResults.

Section LifecycleFacts.
Import Lifecycle.
Context {aec : AecLibrary} {blob : BlobHandler} {plat : Platform}
        {host : Host}.

Ltac run :=
  cbv [mbind mret InitM_bind InitM_ret assign invoke goto_fail undefined set_ptrs
       negb app].

Lemma init_cases (reference_fmt base_fmt : ipc4_audio_format) :
  let Cr := wrap_int (channels_count reference_fmt) in
  let C := wrap_int (channels_count base_fmt) in
  let F :=
    to_u32
      (Z.quot CONFIG_COMP_GOOGLE_RTC_AUDIO_PROCESSING_SAMPLE_RATE_HZ
         GOOGLE_RTC_AUDIO_PROCESSING_FREQENCY_TO_PERIOD_FRAMES) in
  (exists t ret,
     google_rtc_audio_processing_init reference_fmt base_fmt
     = (t, Some (ret, None)) /\ ret < 0 /\ ledger t [] = Some []) \/
  (exists t handler st0,
     google_rtc_audio_processing_init reference_fmt base_fmt
     = (t, Some (0, Some
          ({| config_reference_fmt := reference_fmt;
              base_cfg_audio_fmt := base_fmt;
              num_frames := F;
              num_aec_reference_channels := Cr;
              num_capture_channels := C;
              state :=
                snd (GoogleRtcAudioProcessingParameters st0
                  (Some
                     CONFIG_COMP_GOOGLE_RTC_AUDIO_PROCESSING_MIC_HEADROOM_LINEAR)
                  (Some
                     CONFIG_COMP_GOOGLE_RTC_AUDIO_PROCESSING_ECHO_PATH_DELAY_MS));
              aec_reference_buffer :=
                zeroed (size_mul (size_mul F sizeof_BUF_TYPE) Cr);
              process_buffer :=
                zeroed (size_mul (size_mul F C) sizeof_BUF_TYPE);
              tuning_handler := handler;
              reconfigure := true;
              aec_reference_source := 0;
              raw_microphone_source := 0 |}, all_held))) /\
     comp_data_blob_handler_new = Some handler /\
     GoogleRtcAudioProcessingCreateWithConfig
       CONFIG_COMP_GOOGLE_RTC_AUDIO_PROCESSING_SAMPLE_RATE_HZ C C
       CONFIG_COMP_GOOGLE_RTC_AUDIO_PROCESSING_SAMPLE_RATE_HZ Cr = Some st0 /\
     (forall b, allocates b = true \/ b = BlkTuningHandler \/ b = BlkState \/
        (b = BlkMemoryBuffer /\
         CONFIG_COMP_GOOGLE_RTC_AUDIO_PROCESSING_MEMORY_BUFFER_SIZE_BYTES
         <= 0)) /\
     C <= SOF_IPC_MAX_CHANNELS /\ Cr <= SOF_IPC_MAX_CHANNELS /\
     ledger t [] = Some all_held) \/
  (exists t,
     google_rtc_audio_processing_init reference_fmt base_fmt = (t, None) /\
     (SOF_IPC_MAX_CHANNELS < C \/ SOF_IPC_MAX_CHANNELS < Cr)).
Proof.
  intros Cr C F.
  unfold google_rtc_audio_processing_init, init_body, all_held.
  fold Cr C F.
  destruct (allocates BlkCd) eqn:A1; run.
  2:{ left. do 2 eexists. split; [reflexivity|].
      split; [unfold ENOMEM; lia|reflexivity]. }
  destruct (allocates BlkBasecfgExt) eqn:A2; run.
  2:{ left. do 2 eexists. split; [reflexivity|].
      split; [unfold ENOMEM; lia|reflexivity]. }
  destruct comp_data_blob_handler_new as [handler|] eqn:A3; run.
  2:{ left. do 2 eexists. split; [reflexivity|].
      split; [unfold ENOMEM; lia|reflexivity]. }
  destruct (Z.gtb_spec
              CONFIG_COMP_GOOGLE_RTC_AUDIO_PROCESSING_MEMORY_BUFFER_SIZE_BYTES
              0) as [Hm|Hm]; run.
  - destruct (allocates BlkMemoryBuffer) eqn:A4; run.
    2:{ left. do 2 eexists. split; [reflexivity|].
        split; [unfold ENOMEM; lia|reflexivity]. }
    destruct (GoogleRtcAudioProcessingCreateWithConfig _ _ _ _ _)
      as [st0|] eqn:A5; run.
    2:{ left. do 2 eexists. split; [reflexivity|].
        split; [unfold EINVAL; lia|reflexivity]. }
    destruct (GoogleRtcAudioProcessingParameters st0 _ _) as [ret st] eqn:EP.
    destruct (Z.ltb_spec ret 0) as [Hret|Hret]; run.
    { left. do 2 eexists. split; [reflexivity|].
      split; [assumption|reflexivity]. }
    destruct (allocates BlkProcessBuffer) eqn:A6; run.
    2:{ left. do 2 eexists. split; [reflexivity|].
        split; [unfold EINVAL; lia|reflexivity]. }
    destruct (Z.gtb_spec C SOF_IPC_MAX_CHANNELS) as [HC|HC]; run.
    { right. right. eexists. split; [reflexivity|]. lia. }
    destruct (allocates BlkAecReferenceBuffer) eqn:A7; run.
    2:{ left. do 2 eexists. split; [reflexivity|].
        split; [unfold ENOMEM; lia|reflexivity]. }
    destruct (Z.gtb_spec Cr SOF_IPC_MAX_CHANNELS) as [HCr|HCr]; run.
    { right. right. eexists. split; [reflexivity|]. lia. }
    right. left. exists
      [CallRzalloc BlkCd true; CallRzalloc BlkBasecfgExt true;
       CallBlobHandlerNew true;
       CallRballoc BlkMemoryBuffer
         (size_mul
            CONFIG_COMP_GOOGLE_RTC_AUDIO_PROCESSING_MEMORY_BUFFER_SIZE_BYTES
            1) true;
       CallAttachMemoryBuffer
         CONFIG_COMP_GOOGLE_RTC_AUDIO_PROCESSING_MEMORY_BUFFER_SIZE_BYTES;
       CallCreateWithConfig
         CONFIG_COMP_GOOGLE_RTC_AUDIO_PROCESSING_SAMPLE_RATE_HZ C C
         CONFIG_COMP_GOOGLE_RTC_AUDIO_PROCESSING_SAMPLE_RATE_HZ Cr true;
       CallParameters;
       CallRballoc BlkProcessBuffer
         (size_mul (size_mul F C) sizeof_BUF_TYPE) true;
       CallRballoc BlkAecReferenceBuffer
         (size_mul (size_mul F sizeof_BUF_TYPE) Cr) true], handler, st0.
    rewrite EP. split; [reflexivity|]. split; [reflexivity|].
    split; [reflexivity|]. split.
    { intros []; auto. }
    split; [assumption|]. split; [assumption|]. reflexivity.
  - destruct (GoogleRtcAudioProcessingCreateWithConfig _ _ _ _ _)
      as [st0|] eqn:A5; run.
    2:{ left. do 2 eexists. split; [reflexivity|].
        split; [unfold EINVAL; lia|reflexivity]. }
    destruct (GoogleRtcAudioProcessingParameters st0 _ _) as [ret st] eqn:EP.
    destruct (Z.ltb_spec ret 0) as [Hret|Hret]; run.
    { left. do 2 eexists. split; [reflexivity|].
      split; [assumption|reflexivity]. }
    destruct (allocates BlkProcessBuffer) eqn:A6; run.
    2:{ left. do 2 eexists. split; [reflexivity|].
        split; [unfold EINVAL; lia|reflexivity]. }
    destruct (Z.gtb_spec C SOF_IPC_MAX_CHANNELS) as [HC|HC]; run.
    { right. right. eexists. split; [reflexivity|]. lia. }
    destruct (allocates BlkAecReferenceBuffer) eqn:A7; run.
    2:{ left. do 2 eexists. split; [reflexivity|].
        split; [unfold ENOMEM; lia|reflexivity]. }
    destruct (Z.gtb_spec Cr SOF_IPC_MAX_CHANNELS) as [HCr|HCr]; run.
    { right. right. eexists. split; [reflexivity|]. lia. }
    right. left. exists
      [CallRzalloc BlkCd true; CallRzalloc BlkBasecfgExt true;
       CallBlobHandlerNew true;
       CallCreateWithConfig
         CONFIG_COMP_GOOGLE_RTC_AUDIO_PROCESSING_SAMPLE_RATE_HZ C C
         CONFIG_COMP_GOOGLE_RTC_AUDIO_PROCESSING_SAMPLE_RATE_HZ Cr true;
       CallParameters;
       CallRballoc BlkProcessBuffer
         (size_mul (size_mul F C) sizeof_BUF_TYPE) true;
       CallRballoc BlkAecReferenceBuffer
         (size_mul (size_mul F sizeof_BUF_TYPE) Cr) true], handler, st0.
    rewrite EP. split; [reflexivity|]. split; [reflexivity|].
    split; [reflexivity|]. split.
    { intros []; auto. }
    split; [assumption|]. split; [assumption|]. reflexivity.
Qed.

Lemma ledger_app t1 : forall t2 live live1,
  ledger t1 live = Some live1 ->
  ledger (t1 ++ t2) live = ledger t2 live1.
Proof.
  induction t1 as [|c t1 IH]; intros t2 live live1.
  - intros [= ->]. reflexivity.
  - cbn [ledger app].
    destruct (acquired c), (released c);
      repeat match goal with
             | |- context [if ?b then _ else _] => destruct b
             end; try discriminate; apply IH.
Qed.

(** X26.  An init that fails gives everything back.  Whenever init returns
    without the component data, its return value is negative, and every
    block it had allocated by then has been released, once, by the function
    that goes with its allocator; init returns 0 only together with the
    component data. *)
Theorem init_failure_releases_everything
    (reference_fmt base_fmt : ipc4_audio_format) t ret m :
  google_rtc_audio_processing_init reference_fmt base_fmt
  = (t, Some (ret, m)) ->
  (m = None -> ret < 0 /\ ledger t [] = Some []) /\
  (m <> None -> ret = 0).
Proof.
  intros H.
  destruct (init_cases reference_fmt base_fmt)
    as [(t1 & r1 & E & Hneg & Hl)
       |[(t1 & h & st0 & E & _)|(t1 & E & _)]];
    rewrite E in H; [| |discriminate H].
  - injection H as <- <- <-. split; [auto|]. intros []. reflexivity.
  - injection H as <- <- <-. split; [discriminate|]. reflexivity.
Qed.

(** X27.  What a successful init leaves.  The pending flag is raised; the
    frame count is the configured rate over 100 as [uint32_t]; the channel
    counts are those of the base and reference formats as [int], neither
    above [SOF_IPC_MAX_CHANNELS]; the library state is the one created for
    these counts, after the configured headroom and delay were set; both
    scratch buffers are zeroed; both source indices are 0; every block is
    allocated and still held. *)
Theorem init_success_state
    (reference_fmt base_fmt : ipc4_audio_format) t ret cd held :
  google_rtc_audio_processing_init reference_fmt base_fmt
  = (t, Some (ret, Some (cd, held))) ->
  ret = 0 /\
  reconfigure cd = true /\
  num_frames cd
  = to_u32
      (Z.quot CONFIG_COMP_GOOGLE_RTC_AUDIO_PROCESSING_SAMPLE_RATE_HZ 100) /\
  num_capture_channels cd = wrap_int (channels_count base_fmt) /\
  num_aec_reference_channels cd = wrap_int (channels_count reference_fmt) /\
  num_capture_channels cd <= SOF_IPC_MAX_CHANNELS /\
  num_aec_reference_channels cd <= SOF_IPC_MAX_CHANNELS /\
  (exists st0,
     GoogleRtcAudioProcessingCreateWithConfig
       CONFIG_COMP_GOOGLE_RTC_AUDIO_PROCESSING_SAMPLE_RATE_HZ
       (num_capture_channels cd) (num_capture_channels cd)
       CONFIG_COMP_GOOGLE_RTC_AUDIO_PROCESSING_SAMPLE_RATE_HZ
       (num_aec_reference_channels cd) = Some st0 /\
     state cd
     = snd (GoogleRtcAudioProcessingParameters st0
         (Some CONFIG_COMP_GOOGLE_RTC_AUDIO_PROCESSING_MIC_HEADROOM_LINEAR)
         (Some CONFIG_COMP_GOOGLE_RTC_AUDIO_PROCESSING_ECHO_PATH_DELAY_MS))) /\
  comp_data_blob_handler_new = Some (tuning_handler cd) /\
  Forall (eq 0) (process_buffer cd) /\
  Forall (eq 0) (aec_reference_buffer cd) /\
  aec_reference_source cd = 0 /\ raw_microphone_source cd = 0 /\
  config_reference_fmt cd = reference_fmt /\
  base_cfg_audio_fmt cd = base_fmt /\
  held = all_held /\ ledger t [] = Some held.
Proof.
  intros H.
  destruct (init_cases reference_fmt base_fmt)
    as [(t1 & r1 & E & _)
       |[(t1 & h & st0 & E & Hh & Hst & _ & HC & HCr & Hl)|(t1 & E & _)]];
    rewrite E in H; [discriminate H| |discriminate H].
  injection H as <- <- <- <-. cbn [reconfigure num_frames num_capture_channels
    num_aec_reference_channels state tuning_handler process_buffer
    aec_reference_buffer aec_reference_source raw_microphone_source
    config_reference_fmt base_cfg_audio_fmt].
  repeat split; try assumption.
  - exists st0. split; [assumption|reflexivity].
  - unfold zeroed. apply Forall_forall. intros x Hx.
    apply elem_of_replicate in Hx as [-> _]. reflexivity.
  - unfold zeroed. apply Forall_forall. intros x Hx.
    apply elem_of_replicate in Hx as [-> _]. reflexivity.
Qed.

(** X28.  The scratch buffers of init fit the loops of a cycle.  After a
    successful init with channel counts that are not negative, and a frame
    count for which the byte sizes do not wrap, each scratch buffer has one
    cell per frame and channel, and every access [ptrs[channel][i]] of a
    channel below the count and a frame below the frame count falls inside
    it. *)
Theorem init_sizes_scratch
    (reference_fmt base_fmt : ipc4_audio_format) t ret cd held :
  google_rtc_audio_processing_init reference_fmt base_fmt
  = (t, Some (ret, Some (cd, held))) ->
  0 <= num_capture_channels cd ->
  0 <= num_aec_reference_channels cd ->
  2 * (num_frames cd * SOF_IPC_MAX_CHANNELS) < 2 ^ 32 ->
  Z.of_nat (length (process_buffer cd))
  = num_capture_channels cd * num_frames cd /\
  Z.of_nat (length (aec_reference_buffer cd))
  = num_aec_reference_channels cd * num_frames cd /\
  (forall channel i x,
     0 <= channel < num_capture_channels cd -> 0 <= i < num_frames cd ->
     scratch_store (process_buffer cd) (num_frames cd) channel i x
     = Ok (<[Z.to_nat (channel * num_frames cd + i) := x]>
             (process_buffer cd))) /\
  (forall channel i x,
     0 <= channel < num_aec_reference_channels cd ->
     0 <= i < num_frames cd ->
     scratch_store (aec_reference_buffer cd) (num_frames cd) channel i x
     = Ok (<[Z.to_nat (channel * num_frames cd + i) := x]>
             (aec_reference_buffer cd))).
Proof.
  intros H.
  destruct (init_cases reference_fmt base_fmt)
    as [(t1 & r1 & E & _)
       |[(t1 & h & st0 & E & _ & _ & _ & HC & HCr & _)|(t1 & E & _)]];
    rewrite E in H; [discriminate H| |discriminate H].
  injection H as <- <- <- <-.
  cbn [num_frames num_capture_channels num_aec_reference_channels
       process_buffer aec_reference_buffer].
  set (F := to_u32 _). set (C := wrap_int (channels_count base_fmt)) in *.
  set (Cr := wrap_int (channels_count reference_fmt)) in *.
  intros HC0 HCr0 Hfit.
  assert (HF : 0 <= F) by (apply Z.mod_pos_bound; lia).
  assert (L1 : Z.of_nat (length (zeroed (size_mul (size_mul F C)
                                            sizeof_BUF_TYPE))) = C * F).
  { unfold zeroed, size_mul, to_u32, sizeof_BUF_TYPE.
    rewrite length_replicate.
    rewrite (Z.mod_small (F * C)) by nia.
    rewrite Z.mod_small by nia.
    rewrite Z.div_mul by lia. rewrite Z2Nat.id by nia. lia. }
  assert (L2 : Z.of_nat (length (zeroed (size_mul (size_mul F
                                            sizeof_BUF_TYPE) Cr)))
               = Cr * F).
  { unfold zeroed, size_mul, to_u32, sizeof_BUF_TYPE.
    rewrite length_replicate.
    rewrite Z.mul_mod_idemp_l by lia.
    rewrite Z.mod_small by nia.
    replace (F * 2 * Cr) with (F * Cr * 2) by lia.
    rewrite Z.div_mul by lia. rewrite Z2Nat.id by nia. lia. }
  split; [exact L1|]. split; [exact L2|]. split.
  - intros channel i x Hc Hi. unfold scratch_store. cbv zeta.
    destruct (Z.ltb_spec (channel * F + i) 0); [nia|].
    destruct (Z.leb_spec
                (Z.of_nat (length (zeroed (size_mul (size_mul F C)
                                             sizeof_BUF_TYPE))))
                (channel * F + i)); [nia|]. reflexivity.
  - intros channel i x Hc Hi. unfold scratch_store. cbv zeta.
    destruct (Z.ltb_spec (channel * F + i) 0); [nia|].
    destruct (Z.leb_spec
                (Z.of_nat (length (zeroed (size_mul (size_mul F
                                             sizeof_BUF_TYPE) Cr))))
                (channel * F + i)); [nia|]. reflexivity.
Qed.

(** X29.  After a successful init, free releases every block init allocated,
    each once and by the function that goes with its allocator, the
    component data last, and returns 0; the memory buffer pointer is passed
    to [rfree] also when no memory buffer is configured, as NULL. *)
Theorem init_then_free
    (reference_fmt base_fmt : ipc4_audio_format) t ret cd held :
  google_rtc_audio_processing_init reference_fmt base_fmt
  = (t, Some (ret, Some (cd, held))) ->
  exists t',
    google_rtc_audio_processing_free held = (t', Some 0) /\
    ledger (t ++ t') [] = Some [] /\
    last t' = Some (CallRfree (Some BlkCd)) /\
    In (CallRfree
          (if CONFIG_COMP_GOOGLE_RTC_AUDIO_PROCESSING_MEMORY_BUFFER_SIZE_BYTES
              >? 0
           then Some BlkMemoryBuffer else None)) t'.
Proof.
  intros H.
  destruct (init_cases reference_fmt base_fmt)
    as [(t1 & r1 & E & _)
       |[(t1 & h & st0 & E & _ & _ & _ & _ & _ & Hl)|(t1 & E & _)]];
    rewrite E in H; [discriminate H| |discriminate H].
  injection H as <- <- <- <-.
  unfold google_rtc_audio_processing_free, all_held in *.
  destruct (CONFIG_COMP_GOOGLE_RTC_AUDIO_PROCESSING_MEMORY_BUFFER_SIZE_BYTES
            >? 0).
  - eexists. split; [reflexivity|].
    rewrite (ledger_app _ _ _ _ Hl). cbn. auto 10.
  - eexists. split; [reflexivity|].
    rewrite (ledger_app _ _ _ _ Hl). cbn. auto 10.
Qed.

End LifecycleFacts.

(* ===================================================================== *)
(** ** The further properties on concrete inputs *)
(* ===================================================================== *)

Lemma ceil_divide_covers_witness :
  ceil_divide 10 3 = (10 + 3 - 1) / 3 /\ 10 <= ceil_divide 10 3 * 3 < 10 + 3.
Proof.
  apply (ceil_divide_covers 10 3);
    unfold in_int, INT_MIN, INT_MAX; lia.
Defined.

Lemma merge_4b4b_nibbles_witness :
  Z.shiftr (NumbersMacros.merge_4b4b 10 37) 4 = 10 /\
  Z.land (NumbersMacros.merge_4b4b 10 37) 15 = 37 mod 2 ^ 4.
Proof.
  apply (proj2 (proj2 (merge_4b4b_nibbles 10 37))). lia.
Defined.

Lemma set_config_refuses_switch_enum_witness :
  let cd := Stub.cd_init Stub.s16_48k 4 2 Stub.no_blob in
  google_rtc_audio_processing_set_config cd 200 0 0 [4; 0; 2; 0; 0]
  = ([], Ok (- EINVAL, cd)).
Proof.
  intros cd.
  apply (set_config_refuses_switch_enum cd 200 0 0 [4; 0; 2; 0; 0]).
  left. reflexivity.
Defined.

Lemma set_config_raises_pending_witness :
  let cd :=
    set_reconfigure (Stub.cd_init Stub.s16_48k 4 2 Stub.no_blob) false in
  exists cd',
    google_rtc_audio_processing_set_config cd 7 0 0 [4; 0; 2; 0; 0]
    = ([EvGetDataBlob], Ok (0, cd')) /\
    reconfigure cd' = true /\
    tuning_handler cd'
    = snd (@comp_get_data_blob Stub.blob (Stub.arrived [4; 0; 2; 0; 0])).
Proof.
  intros cd.
  apply (set_config_raises_pending cd 7 0 0 [4; 0; 2; 0; 0]
           (Stub.arrived [4; 0; 2; 0; 0]));
    vm_compute; first [reflexivity | discriminate].
Defined.

Lemma reconfigure_without_usable_blob_witness :
  let cd := Stub.cd_init Stub.s16_48k 4 2 (Stub.arrived []) in
  let h := {| Stub.data := Some []; Stub.data_new := None |} in
  google_rtc_audio_processing_reconfigure cd
  = ([EvGetDataBlob],
     Ok (if 0 =? 0 then 0 else - EINVAL, set_tuning_handler cd h)).
Proof.
  intros cd h.
  apply (reconfigure_without_usable_blob cd (Some []) 0 h).
  - vm_compute. reflexivity.
  - vm_compute. reflexivity.
  - left. reflexivity.
Defined.

Lemma reconfigure_success_calls_witness :
  let blob := [29; 0; 2; 5; 3; 9; 9] in
  let cd := Stub.cd_init Stub.s16_48k 4 2 (Stub.arrived blob) in
  let r := google_rtc_audio_processing_reconfigure cd in
  let cd' := match snd r with Ok (_, c) => c | Fault _ => cd end in
  fst r
  = EvGetDataBlob ::
    @apply_calls Stub.aec Stub.plat (Stub.parse blob 7)
      (num_capture_channels cd') (num_aec_reference_channels cd).
Proof.
  intros blob cd r cd'.
  apply (reconfigure_success_calls cd blob 7
           {| Stub.data := Some blob; Stub.data_new := None |} (fst r) cd');
    vm_compute; first [reflexivity | discriminate].
Defined.

Lemma reconfigure_adopts_output_count_witness :
  let blob := [29; 0; 2; 5; 3; 9; 9] in
  let cd := Stub.cd_init Stub.s16_48k 4 1 (Stub.arrived blob) in
  let msg := Stub.parse blob 7 in
  exists t ret cd',
    google_rtc_audio_processing_reconfigure cd = (t, Ok (ret, cd')) /\
    num_capture_channels cd' = num_capture_output_channels msg /\
    In (EvAecSetStreamFormats 48000
          (num_capture_output_channels msg) (num_capture_output_channels msg)
          48000 (num_aec_reference_channels cd)) t.
Proof.
  intros blob cd msg.
  apply (reconfigure_adopts_output_count cd blob 7
           {| Stub.data := Some blob; Stub.data_new := None |}).
  - vm_compute. reflexivity.
  - vm_compute. reflexivity.
  - vm_compute. discriminate.
  - right. vm_compute. reflexivity.
  - vm_compute. reflexivity.
  - vm_compute. discriminate.
Defined.

Lemma reconfigure_tuning_failure_witness :
  let blob := [1; 0; 0; 0; 0] in
  let cd := Stub.cd_init Stub.s16_48k 4 2 (Stub.arrived blob) in
  exists cd',
    google_rtc_audio_processing_reconfigure cd
    = ([EvGetDataBlob; EvAecReconfigure [] 0], Ok (-1, cd')) /\
    num_capture_channels cd' = num_capture_channels cd /\
    state cd' = Stub.aec_state0.
Proof.
  intros blob cd.
  apply (reconfigure_tuning_failure cd blob 5
           {| Stub.data := Some blob; Stub.data_new := None |});
    vm_compute; first [reflexivity | discriminate].
Defined.

Lemma reconfigure_formats_failure_witness :
  let blob := [4; 0; 9; 0; 0] in
  let cd := Stub.cd_init Stub.s16_48k 4 2 (Stub.arrived blob) in
  exists cd',
    google_rtc_audio_processing_reconfigure cd
    = ([EvGetDataBlob; EvAecSetStreamFormats 48000 9 9 48000 2],
       Ok (-1, cd')) /\
    num_capture_channels cd' = 9 /\
    state cd' = Stub.aec_state0.
Proof.
  intros blob cd.
  apply (reconfigure_formats_failure cd blob 5
           {| Stub.data := Some blob; Stub.data_new := None |});
    vm_compute; first [reflexivity | discriminate].
Defined.

Lemma deinterlace_planar_witness :
  exists cur,
    deinterlace (Z.to_nat 2) 0 2 [7; 1; 2; 3; 4; 9] 1 [0; 0; 0; 0] 2
    = Ok (planar 2 2 (drop (Z.to_nat 1) [7; 1; 2; 3; 4; 9]), cur).
Proof.
  apply (deinterlace_planar 2 2 1 [7; 1; 2; 3; 4; 9] [0; 0; 0; 0]);
    first [lia | reflexivity | (simpl; lia)].
Defined.

Lemma interlace_interleaved_witness :
  exists cur,
    interlace (Z.to_nat 2) 0 2 [7; 0; 0; 0; 0; 9] 1 [1; 3; 2; 4] 2
    = Ok (take (Z.to_nat 1) [7; 0; 0; 0; 0; 9]
          ++ interleaved 2 2 [1; 3; 2; 4]
          ++ drop (Z.to_nat (1 + 2 * 2)) [7; 0; 0; 0; 0; 9], cur).
Proof.
  apply (interlace_interleaved 2 2 1 [7; 0; 0; 0; 0; 9] [1; 3; 2; 4]);
    first [lia | reflexivity | (simpl; lia)].
Defined.

Lemma process_apply_failure_witness :
  let cd :=
    Stub.cd_bound Stub.s16_48k 4 2 (Stub.arrived [6; 1; 2; 0; 0]) in
  let sources :=
    [Stub.source 0 2 4 [11; 12; 13; 14; 15; 16; 17; 18] 0;
     Stub.source 1 2 4 [1; 2; 3; 4; 5; 6; 7; 8] 0] in
  let sinks := [Stub.sink 0 48000 2 4 [0; 0; 0; 0; 0; 0; 0; 0] 0] in
  let a := reconfigure_if_pending cd in
  let cd0 := match snd a with Ok (_, c) => c | Fault _ => cd end in
  google_rtc_audio_processing_process cd sources sinks
  = (fst a, Ok (- EINVAL, cd0, sinks)).
Proof.
  intros cd sources sinks a cd0.
  apply (process_apply_failure cd sources sinks (fst a) (- EINVAL) cd0);
    vm_compute; first [reflexivity | discriminate].
Defined.

Lemma process_reference_acquire_failure_witness :
  let cd :=
    set_reconfigure (Stub.cd_bound Stub.s16_48k 4 2 Stub.no_blob) false in
  let starved :=
    {| source_get_id := 0; source_get_channels := 2;
       source_get_frame_bytes := 4; source_get_min_available := 0;
       source_alignment_constants := (1, 1);
       source_buffer := [11; 12; 13; 14; 15; 16; 17; 18];
       source_get_data := fun _ => (-61, 0) |} in
  let sources :=
    [starved; Stub.source 1 2 4 [1; 2; 3; 4; 5; 6; 7; 8] 0] in
  let sinks := [Stub.sink 0 48000 2 4 [0; 0; 0; 0; 0; 0; 0; 0] 0] in
  google_rtc_audio_processing_process cd sources sinks
  = ([] ++ [EvSourceGetData (aec_reference_source cd)
              (size_mul (num_frames cd) (source_get_frame_bytes starved))],
     Fault AssertFailed).
Proof.
  intros cd starved sources sinks.
  apply (process_reference_acquire_failure cd sources sinks [] cd starved
           (Stub.source 1 2 4 [1; 2; 3; 4; 5; 6; 7; 8] 0)
           (Stub.sink 0 48000 2 4 [0; 0; 0; 0; 0; 0; 0; 0] 0));
    vm_compute; first [reflexivity | discriminate].
Defined.

Lemma process_cycle_result_witness :
  let cd :=
    set_reconfigure (Stub.cd_bound Stub.s16_48k 4 2 Stub.no_blob) false in
  let ref_stream := Stub.source 0 2 4 [11; 12; 13; 14; 15; 16; 17; 18] 0 in
  let src_stream :=
    Stub.source 1 2 4 [1; 2; 3; 4; 5; 6; 7; 8; 9; 10] 2 in
  let dst_stream :=
    Stub.sink 0 48000 2 4 [0; 0; 0; 0; 0; 0; 0; 0; 0; 0] 1 in
  let sources := [ref_stream; src_stream] in
  let sinks := [dst_stream] in
  let rendered := planar 4 2 (drop (Z.to_nat 0) (source_buffer ref_stream)) in
  let captured := planar 4 2 (drop (Z.to_nat 2) (source_buffer src_stream)) in
  let analyzed :=
    @GoogleRtcAudioProcessingAnalyzeRender_int16 Stub.aec (state cd)
      rendered in
  let processed :=
    @GoogleRtcAudioProcessingProcessCapture_int16 Stub.aec (snd analyzed)
      captured in
  exists cd',
    google_rtc_audio_processing_process cd sources sinks
    = ([] ++ stream_calls cd ref_stream src_stream,
       Ok (0, cd',
           <[0%nat :=
               sink_set_buffer dst_stream
                 (take (Z.to_nat 1) (sink_buffer dst_stream)
                  ++ interleaved 4 2 (snd processed)
                  ++ drop (Z.to_nat (1 + 4 * 2))
                       (sink_buffer dst_stream))]> sinks)) /\
    state cd' = snd (fst processed) /\
    aec_reference_buffer cd' = rendered /\
    process_buffer cd' = snd processed.
Proof.
  intros cd ref_stream src_stream dst_stream sources sinks.
  apply (process_cycle_result cd sources sinks [] cd ref_stream src_stream
           dst_stream 0 2 1);
    first [reflexivity | (vm_compute; discriminate)].
Defined.

Lemma process_pass_through_witness :
  let cd :=
    set_reconfigure (Stub.cd_bound Stub.s16_48k 4 2 Stub.no_blob) false in
  let ref_stream := Stub.source 0 2 4 [11; 12; 13; 14; 15; 16; 17; 18] 0 in
  let src_stream :=
    Stub.source 1 2 4 [1; 2; 3; 4; 5; 6; 7; 8; 9; 10] 2 in
  let dst_stream :=
    Stub.sink 0 48000 2 4 [0; 0; 0; 0; 0; 0; 0; 0; 0; 0] 1 in
  let sources := [ref_stream; src_stream] in
  let sinks := [dst_stream] in
  let stretch :=
    take (Z.to_nat (4 * 2))
      (drop (Z.to_nat 2) (source_buffer src_stream)) in
  exists t cd',
    google_rtc_audio_processing_process cd sources sinks
    = (t, Ok (0, cd',
              <[0%nat :=
                  sink_set_buffer dst_stream
                    (take (Z.to_nat 1) (sink_buffer dst_stream)
                     ++ stretch
                     ++ drop (Z.to_nat (1 + 4 * 2))
                          (sink_buffer dst_stream))]> sinks)).
Proof.
  intros cd ref_stream src_stream dst_stream sources sinks.
  apply (process_pass_through cd sources sinks [] cd ref_stream src_stream
           dst_stream 0 2 1);
    first [reflexivity
          | (vm_compute; discriminate)
          | (vm_compute; repeat constructor; discriminate) ].
Defined.

Lemma process_keeps_sizing_witness :
  let cd := Stub.cd_bound Stub.s16_48k 4 2 (Stub.arrived [4; 0; 1; 0; 0]) in
  let sources :=
    [Stub.source 0 2 4 [11; 12; 13; 14; 15; 16; 17; 18] 0;
     Stub.source 1 2 4 [1; 2; 3; 4; 5; 6; 7; 8] 0] in
  let sinks := [Stub.sink 0 48000 2 4 [0; 0; 0; 0; 0; 0; 0; 0] 0] in
  let r := google_rtc_audio_processing_process cd sources sinks in
  let cd' := match snd r with Ok (_, c, _) => c | Fault _ => cd end in
  let sinks' := match snd r with Ok (_, _, s) => s | Fault _ => sinks end in
  num_frames cd' = num_frames cd /\
  num_aec_reference_channels cd' = num_aec_reference_channels cd /\
  length (aec_reference_buffer cd') = length (aec_reference_buffer cd) /\
  length (process_buffer cd') = length (process_buffer cd) /\
  aec_reference_source cd' = aec_reference_source cd /\
  raw_microphone_source cd' = raw_microphone_source cd /\
  length sinks' = length sinks.
Proof.
  intros cd sources sinks r cd' sinks'.
  apply (process_keeps_sizing cd sources sinks (fst r) 0 cd' sinks').
  vm_compute. reflexivity.
Defined.

Lemma prepare_pin_count_witness :
  let cd := Stub.cd_init Stub.s16_48k 4 2 Stub.no_blob in
  let sources := [Stub.source 1 2 4 [1; 2; 3; 4; 5; 6; 7; 8] 0] in
  let sinks := [Stub.sink 0 48000 2 4 [0; 0; 0; 0; 0; 0; 0; 0] 0] in
  google_rtc_audio_processing_prepare cd sources sinks
  = ([], Ok (- EINVAL, cd, sources, sinks)).
Proof.
  intros cd sources sinks.
  apply (prepare_pin_count cd sources sinks).
  left. vm_compute. discriminate.
Defined.

Lemma prepare_success_contract_witness :
  let cd := Stub.cd_init Stub.s16_48k 4 2 Stub.no_blob in
  let sources :=
    [Stub.source 1 2 4 [1; 2; 3; 4; 5; 6; 7; 8] 0;
     Stub.source 0 2 4 [11; 12; 13; 14; 15; 16; 17; 18] 0] in
  let sinks := [Stub.sink 0 48000 2 4 [0; 0; 0; 0; 0; 0; 0; 0] 0] in
  let r := google_rtc_audio_processing_prepare cd sources sinks in
  let cd' := match snd r with Ok (_, c, _, _) => c | Fault _ => cd end in
  let sources' :=
    match snd r with Ok (_, _, s, _) => s | Fault _ => sources end in
  let sinks' :=
    match snd r with Ok (_, _, _, s) => s | Fault _ => sinks end in
  length sources = 2%nat /\ length sinks = 1%nat /\
  exists ref mic out,
    pin sources' (aec_reference_source cd') = Ok ref /\
    pin sources' (raw_microphone_source cd') = Ok mic /\
    sinks' = [out] /\
    size_mul (num_frames cd') (source_get_frame_bytes ref)
    = source_get_min_available ref /\
    size_mul (num_frames cd') (source_get_frame_bytes mic)
    = source_get_min_available mic /\
    size_mul (num_frames cd') (sink_get_frame_bytes out)
    = sink_get_min_free_space out /\
    sink_alignment_constants out = (1, 1) /\
    sink_get_rate out = 48000 /\
    @frame_fmt_supported Stub.plat (sink_get_frm_fmt out) = true.
Proof.
  intros cd sources sinks r cd' sources' sinks'.
  apply (prepare_success_contract cd sources sinks (fst r) cd' sources'
           sinks').
  vm_compute. reflexivity.
Defined.

Lemma prepare_channel_bounds_witness :
  let cd := Stub.cd_init Stub.s16_48k 4 2 Stub.no_blob in
  let sources :=
    [Stub.source 1 2 4 [1; 2; 3; 4; 5; 6; 7; 8] 0;
     Stub.source 0 2 4 [11; 12; 13; 14; 15; 16; 17; 18] 0] in
  let sinks := [Stub.sink 0 48000 2 4 [0; 0; 0; 0; 0; 0; 0; 0] 0] in
  let r := google_rtc_audio_processing_prepare cd sources sinks in
  let sinks' :=
    match snd r with Ok (_, _, _, s) => s | Fault _ => sinks end in
  (forall j s, @last_with Stub.plat true sources j s ->
     to_u32 (num_aec_reference_channels cd)
     <= to_u32 (source_get_channels s)) /\
  (@none_with Stub.plat true sources 0 -> to_u32 (num_aec_reference_channels cd) = 0) /\
  (forall j s, @last_with Stub.plat false sources j s ->
     num_capture_channels cd <= source_get_channels s) /\
  (@none_with Stub.plat false sources 0 -> num_capture_channels cd <= 0) /\
  (forall out, sinks' = [out] ->
     num_capture_channels cd <= sink_get_channels out).
Proof.
  intros cd sources sinks r sinks'.
  apply (prepare_channel_bounds cd sources sinks (fst r)
           (match snd r with Ok (_, c, _, _) => c | Fault _ => cd end)
           (match snd r with Ok (_, _, s, _) => s | Fault _ => sources end)
           sinks').
  vm_compute. reflexivity.
Defined.

Lemma prepare_sizes_requests_witness :
  let cd := Stub.cd_init Stub.s16_48k 4 2 Stub.no_blob in
  let sources :=
    [Stub.source 1 2 4 [1; 2; 3; 4; 5; 6; 7; 8] 0;
     Stub.source 0 2 4 [11; 12; 13; 14; 15; 16; 17; 18] 0] in
  let sinks := [Stub.sink 0 48000 2 4 [0; 0; 0; 0; 0; 0; 0; 0] 0] in
  let r := google_rtc_audio_processing_prepare cd sources sinks in
  let cd' := match snd r with Ok (_, c, _, _) => c | Fault _ => cd end in
  let sources' :=
    match snd r with Ok (_, _, s, _) => s | Fault _ => sources end in
  let sinks' :=
    match snd r with Ok (_, _, _, s) => s | Fault _ => sinks end in
  let r2 := google_rtc_audio_processing_process cd' sources' sinks' in
  exists t0 ref mic,
    pin sources' (aec_reference_source cd') = Ok ref /\
    pin sources' (raw_microphone_source cd') = Ok mic /\
    fst r2 = t0 ++
      [ EvSourceGetData (aec_reference_source cd')
          (source_get_min_available ref);
        EvAecAnalyzeRender;
        EvSourceReleaseData (aec_reference_source cd')
          (source_get_min_available ref);
        EvSourceGetData (raw_microphone_source cd')
          (source_get_min_available mic);
        EvSourceReleaseData (raw_microphone_source cd')
          (source_get_min_available mic);
        EvAecProcessCapture;
        EvSinkGetBuffer (source_get_min_available mic);
        EvSinkCommitBuffer (source_get_min_available mic) ].
Proof.
  intros cd sources sinks r cd' sources' sinks' r2.
  apply (prepare_sizes_requests cd sources sinks (fst r) cd' sources' sinks'
           (fst r2)
           (match snd r2 with Ok (_, c, _) => c | Fault _ => cd' end)
           (match snd r2 with Ok (_, _, s) => s | Fault _ => sinks' end)).
  - vm_compute. reflexivity.
  - vm_compute. reflexivity.
Defined.

Lemma init_failure_releases_everything_witness :
  let host := StubHost.host 16 2 (Some Lifecycle.BlkProcessBuffer) true in
  let r :=
    @Lifecycle.google_rtc_audio_processing_init Stub.aec Stub.blob Stub.plat
      host Stub.s16_48k Stub.s16_48k in
  (@None (Stub.comp_data * list Lifecycle.block) = None ->
   - EINVAL < 0 /\ Lifecycle.ledger (fst r) [] = Some []) /\
  (@None (Stub.comp_data * list Lifecycle.block) <> None -> - EINVAL = 0).
Proof.
  intros host r.
  apply (@init_failure_releases_everything Stub.aec Stub.blob Stub.plat host
           Stub.s16_48k Stub.s16_48k (fst r) (- EINVAL) None).
  vm_compute. reflexivity.
Defined.

Lemma init_success_state_witness :
  let host := StubHost.host 16 2 None true in
  let r :=
    @Lifecycle.google_rtc_audio_processing_init Stub.aec Stub.blob Stub.plat
      host Stub.s16_48k Stub.s16_48k in
  let cd :=
    match snd r with
    | Some (_, Some (c, _)) => c
    | _ => Stub.cd_init Stub.s16_48k 0 0 Stub.no_blob
    end in
  reconfigure cd = true /\ num_frames cd = 480 /\
  num_capture_channels cd = 2 /\
  Forall (eq 0) (process_buffer cd) /\
  Lifecycle.ledger (fst r) [] = Some (@Lifecycle.all_held _ _ _ host).
Proof.
  intros host r cd.
  pose (held :=
    match snd r with
    | Some (_, Some (_, h)) => h
    | _ => []
    end).
  destruct (@init_success_state Stub.aec Stub.blob Stub.plat host
              Stub.s16_48k Stub.s16_48k (fst r) 0 cd held)
    as (_ & H1 & H2 & H3 & _ & _ & _ & _ & _ & H4 & _ & _ & _ & _ & _
        & H5 & H6).
  - vm_compute. reflexivity.
  - rewrite H5 in H6. repeat split; assumption.
Defined.

Lemma init_sizes_scratch_witness :
  let host := StubHost.host 0 2 None true in
  let r :=
    @Lifecycle.google_rtc_audio_processing_init Stub.aec Stub.blob Stub.plat
      host Stub.s16_48k Stub.s16_48k in
  let cd :=
    match snd r with
    | Some (_, Some (c, _)) => c
    | _ => Stub.cd_init Stub.s16_48k 0 0 Stub.no_blob
    end in
  Z.of_nat (length (process_buffer cd)) = 2 * 480 /\
  scratch_store (process_buffer cd) (num_frames cd) 1 479 7
  = Ok (<[Z.to_nat (1 * num_frames cd + 479) := 7]> (process_buffer cd)).
Proof.
  intros host r cd.
  pose (held :=
    match snd r with
    | Some (_, Some (_, h)) => h
    | _ => []
    end).
  destruct (@init_sizes_scratch Stub.aec Stub.blob Stub.plat host
              Stub.s16_48k Stub.s16_48k (fst r) 0 cd held)
    as (H1 & _ & H2 & _).
  - vm_compute. reflexivity.
  - vm_compute. discriminate.
  - vm_compute. discriminate.
  - vm_compute. reflexivity.
  - split; [exact H1|]. apply H2; vm_compute; split; congruence.
Defined.

Lemma init_then_free_witness :
  let host := StubHost.host 0 2 None true in
  let r :=
    @Lifecycle.google_rtc_audio_processing_init Stub.aec Stub.blob Stub.plat
      host Stub.s16_48k Stub.s16_48k in
  let held :=
    match snd r with
    | Some (_, Some (_, h)) => h
    | _ => []
    end in
  exists t',
    @Lifecycle.google_rtc_audio_processing_free held = (t', Some 0) /\
    Lifecycle.ledger (fst r ++ t') [] = Some [] /\
    last t' = Some (Lifecycle.CallRfree (Some Lifecycle.BlkCd)) /\
    In (Lifecycle.CallRfree None) t'.
Proof.
  intros host r held.
  apply (@init_then_free Stub.aec Stub.blob Stub.plat host
           Stub.s16_48k Stub.s16_48k (fst r) 0
           (match snd r with
            | Some (_, Some (c, _)) => c
            | _ => Stub.cd_init Stub.s16_48k 0 0 Stub.no_blob
            end) held).
  vm_compute. reflexivity.
Defined.

Lemma process_scratch_overflow_witness :
  let cd := Stub.cd_bound Stub.s16_48k 4 2 (Stub.arrived [4; 0; 3; 0; 0]) in
  let ref_stream := Stub.source 0 2 4 [11; 12; 13; 14; 15; 16; 17; 18] 0 in
  let src_stream :=
    Stub.source 1 3 4 [1; 2; 3; 4; 5; 6; 7; 8; 9; 10; 11; 12] 0 in
  let dst_stream :=
    Stub.sink 0 48000 3 4 [0; 0; 0; 0; 0; 0; 0; 0; 0; 0; 0; 0] 0 in
  let a := reconfigure_if_pending cd in
  let cd0 := match snd a with Ok (_, c) => c | Fault _ => cd end in
  num_capture_channels cd0 = 3 /\
  google_rtc_audio_processing_process cd [ref_stream; src_stream]
    [dst_stream]
  = (fst a ++
     [ EvSourceGetData (aec_reference_source cd0)
         (size_mul (num_frames cd0) (source_get_frame_bytes ref_stream));
       EvAecAnalyzeRender;
       EvSourceReleaseData (aec_reference_source cd0)
         (size_mul (num_frames cd0) (source_get_frame_bytes ref_stream));
       EvSourceGetData (raw_microphone_source cd0)
         (size_mul (num_frames cd0) (source_get_frame_bytes src_stream)) ],
     Fault OutOfScratch).
Proof.
  intros cd ref_stream src_stream dst_stream a cd0.
  split; [vm_compute; reflexivity|].
  apply (process_scratch_overflow cd [ref_stream; src_stream] [dst_stream]
           (fst a) cd0 ref_stream src_stream dst_stream 0 0 2);
    vm_compute;
    first [reflexivity | discriminate
          | (split; first [reflexivity | discriminate])].
Defined.
